(** * Smoothieware Z-probe and comprehensive delta calibration

    A shallow embedding of [src/modules/tools/zprobe/ZProbe.cpp] and of the
    comprehensive delta strategy that drives it, together with the properties
    of the probing state machine and of the calibration routines.

    Conventions of the embedding
    - a C++ [float] is idealised as an exact rational ([Q]); a [NAN] argument
      of [coordinated_move] is [None];
    - [int] and [uint32_t] values are [Z]; conversions that the C++ code
      performs are written out ([f2uiz], [f2iz], [wrap32]);
    - the firmware runs on one foreground thread that yields with
      [call_event(ON_IDLE)]; everything the hardware and the interrupt
      handlers do while the foreground is suspended is a list of [Event]s,
      one list per yield (a [Slot]).  A schedule ([Env]) is the list of the
      slots still to come;
    - a method of the firmware is a function in the monad [M], which threads
      the schedule and the machine state and can stop with a [Crash]
      (undefined behaviour of the C++ code) or be [Starved] (the schedule ran
      out while the code was still polling). *)

From Stdlib Require Import ZArith QArith Qminmax Qround Qabs.
From Stdlib Require Import List String Ascii Bool Lia.
Import ListNotations.

Open Scope Z_scope.

(** ** Numbers *)

Definition float := Q.
Bind Scope Q_scope with float.

Definition fleb (a b : float) : bool := Qle_bool a b.
Definition fltb (a b : float) : bool := negb (Qle_bool b a).
Definition feqb (a b : float) : bool := Qeq_bool a b.

(** [floorf] and the conversion of a float to an unsigned 32-bit integer.
    Outside [0, 2^32) the C++ conversion is undefined; the embedding takes the
    saturating result of the ARM run-time helper. *)
Definition floorf (a : float) : float := inject_Z (Qfloor a).

Definition uint32_max : Z := 2 ^ 32 - 1.
Definition int_max : Z := 2 ^ 31 - 1.
Definition int_min : Z := - 2 ^ 31.

Definition f2uiz (a : float) : Z := Z.min (Z.max 0 (Qfloor a)) uint32_max.

(** Conversion of a float to [int]: truncation toward zero, saturating. *)
Definition truncf (a : float) : Z :=
  if Qle_bool 0 a then Qfloor a else Qceiling a.

Definition f2iz (a : float) : Z := Z.min (Z.max int_min (truncf a)) int_max.

Definition wrap32 (z : Z) : Z := z mod 2 ^ 32.

(** [std::minmax] over a three-element initializer list. *)
Definition min3 (a b c : float) : float := Qmin (Qmin a b) c.
Definition max3 (a b c : float) : float := Qmax (Qmax a b) c.
Definition minmax3 (a b c : float) : float * float := (min3 a b c, max3 a b c).

(** ** G-code words *)

Inductive Sink : Type :=
| KernelStreams            (* THEKERNEL->streams *)
| GcodeStream (id : nat)   (* gcode->stream *)
| NullStream.              (* StreamOutput::NullStream *)

Record Gcode : Type := mkGcode {
  has_g : bool;
  g : Z;
  subcode : Z;
  has_m : bool;
  m : Z;
  words : list (ascii * float);
  stream : nat
}.

Definition has_letter (gc : Gcode) (c : ascii) : bool :=
  existsb (fun w => Ascii.eqb (fst w) c) (words gc).

Definition get_value (gc : Gcode) (c : ascii) : float :=
  match find (fun w => Ascii.eqb (fst w) c) (words gc) with
  | Some w => snd w
  | None => 0%Q
  end.

(** ** Actuators *)

Inductive Axis : Type := X_AXIS | Y_AXIS | Z_AXIS.

Definition axis_eqb (a b : Axis) : bool :=
  match a, b with
  | X_AXIS, X_AXIS | Y_AXIS, Y_AXIS | Z_AXIS, Z_AXIS => true
  | _, _ => false
  end.

(** Modelled from the spec: the stepper pulse generator ([StepperMotor]) is an
    external collaborator that takes a commanded rate and reports
    [is_moving], [stepped] and [current_position]; its source is not part of
    the files under study.  A move of [n] steps restarts the step counter and
    is in progress while [n > 0] steps remain; the rate is never set below
    the minimum actuator rate quoted in [ZProbe::decelerate]. *)
Record StepperMotor : Type := mkStepper {
  moving : bool;
  direction : bool;
  stepped : Z;
  steps_to_move : Z;
  steps_per_second : Z;
  steps_per_mm : float;
  minimum_step_rate : Z;
  current_position_steps : Z;
  moved_last_block : bool
}.

Definition is_moving (sm : StepperMotor) : bool := moving sm.
Definition get_stepped (sm : StepperMotor) : Z := stepped sm.
Definition get_steps_per_second (sm : StepperMotor) : Z := steps_per_second sm.
Definition get_steps_per_mm (sm : StepperMotor) : float := steps_per_mm sm.
Definition get_current_position (sm : StepperMotor) : float :=
  (inject_Z (current_position_steps sm) / steps_per_mm sm)%Q.

Definition set_speed (rate : Z) (sm : StepperMotor) : StepperMotor :=
  {| moving := moving sm; direction := direction sm; stepped := stepped sm;
     steps_to_move := steps_to_move sm;
     steps_per_second :=
       if rate <? minimum_step_rate sm then minimum_step_rate sm else rate;
     steps_per_mm := steps_per_mm sm;
     minimum_step_rate := minimum_step_rate sm;
     current_position_steps := current_position_steps sm;
     moved_last_block := moved_last_block sm |}.

Definition set_moved_last_block (b : bool) (sm : StepperMotor) : StepperMotor :=
  {| moving := moving sm; direction := direction sm; stepped := stepped sm;
     steps_to_move := steps_to_move sm;
     steps_per_second := steps_per_second sm;
     steps_per_mm := steps_per_mm sm;
     minimum_step_rate := minimum_step_rate sm;
     current_position_steps := current_position_steps sm;
     moved_last_block := b |}.

(** [StepperMotor::move(direction, steps, initial_speed)]; the two-argument
    call leaves the rate alone ([speed = None]). *)
Definition motor_move (dir : bool) (steps : Z) (speed : option Z)
           (sm : StepperMotor) : StepperMotor :=
  let sm' :=
    {| moving := 0 <? steps; direction := dir; stepped := 0;
       steps_to_move := steps;
       steps_per_second := steps_per_second sm;
       steps_per_mm := steps_per_mm sm;
       minimum_step_rate := minimum_step_rate sm;
       current_position_steps := current_position_steps sm;
       moved_last_block := moved_last_block sm |} in
  match speed with
  | Some r => if 0 <? steps then set_speed r sm' else sm'
  | None => sm'
  end.

(** One pulse of the step ticker. *)
Definition motor_step (sm : StepperMotor) : StepperMotor :=
  if moving sm then
    {| moving := negb (stepped sm + 1 =? steps_to_move sm);
       direction := direction sm; stepped := stepped sm + 1;
       steps_to_move := steps_to_move sm;
       steps_per_second := steps_per_second sm;
       steps_per_mm := steps_per_mm sm;
       minimum_step_rate := minimum_step_rate sm;
       current_position_steps :=
         if direction sm then current_position_steps sm - 1
         else current_position_steps sm + 1;
       moved_last_block := moved_last_block sm |}
  else sm.

(** [StepperMotor::force_finish_move]. *)
Definition force_finish_move (sm : StepperMotor) : StepperMotor :=
  {| moving := false; direction := direction sm; stepped := stepped sm;
     steps_to_move := steps_to_move sm;
     steps_per_second := steps_per_second sm;
     steps_per_mm := steps_per_mm sm;
     minimum_step_rate := minimum_step_rate sm;
     current_position_steps := current_position_steps sm;
     moved_last_block := moved_last_block sm |}.

Record Actuators : Type := mkActuators {
  act_x : StepperMotor;
  act_y : StepperMotor;
  act_z : StepperMotor
}.

Definition actuator (a : Axis) (acts : Actuators) : StepperMotor :=
  match a with X_AXIS => act_x acts | Y_AXIS => act_y acts | Z_AXIS => act_z acts end.

Definition on_actuator (a : Axis) (f : StepperMotor -> StepperMotor)
           (acts : Actuators) : Actuators :=
  match a with
  | X_AXIS => {| act_x := f (act_x acts); act_y := act_y acts; act_z := act_z acts |}
  | Y_AXIS => {| act_x := act_x acts; act_y := f (act_y acts); act_z := act_z acts |}
  | Z_AXIS => {| act_x := act_x acts; act_y := act_y acts; act_z := f (act_z acts) |}
  end.

(** ** The machine state *)

(** The leveling strategies [ZProbe::on_config_reload] knows about.  Only the
    comprehensive delta strategy is among the files under study. *)
Inductive Strategy : Type :=
| DeltaCalibrationStrategy
| ThreePointStrategy
| ComprehensiveDeltaStrategy
| ZGridStrategy
| DeltaGridStrategy.

(** The fields of the [ZProbe] module (its header is not among the files; the
    fields are those the methods read and write). *)
Record ZProbe : Type := mkZProbe {
  pin_connected : bool;
  pin_inverting : bool;
  invert_override : bool;
  debounce_count : Z;
  decelerate_runout : float;
  decelerate_on_trigger : bool;
  strategies : list Strategy;
  is_delta : bool;
  is_rdelta : bool;
  probe_height : float;
  slow_feedrate : float;
  fast_feedrate : float;
  return_feedrate : float;
  reverse_z : bool;
  max_z : float;
  running : bool;
  accelerating : bool;
  current_feedrate : float;
  runout_steps : Z;
  steps_at_decel_end : Z;
  has_exceeded_runout : bool;
  probing : bool;
  probe_detected : bool
}.

Definition with_strategies (v : list Strategy) (r : ZProbe) : ZProbe :=
  {| pin_connected := pin_connected r; pin_inverting := pin_inverting r;
     invert_override := invert_override r;
     debounce_count := debounce_count r;
     decelerate_runout := decelerate_runout r;
     decelerate_on_trigger := decelerate_on_trigger r; strategies := v;
     is_delta := is_delta r; is_rdelta := is_rdelta r;
     probe_height := probe_height r; slow_feedrate := slow_feedrate r;
     fast_feedrate := fast_feedrate r; return_feedrate := return_feedrate r;
     reverse_z := reverse_z r; max_z := max_z r; running := running r;
     accelerating := accelerating r; current_feedrate := current_feedrate r;
     runout_steps := runout_steps r;
     steps_at_decel_end := steps_at_decel_end r;
     has_exceeded_runout := has_exceeded_runout r; probing := probing r;
     probe_detected := probe_detected r |}.

Definition with_pin_inverting (v : bool) (r : ZProbe) : ZProbe :=
  {| pin_connected := pin_connected r; pin_inverting := v;
     invert_override := invert_override r;
     debounce_count := debounce_count r;
     decelerate_runout := decelerate_runout r;
     decelerate_on_trigger := decelerate_on_trigger r;
     strategies := strategies r; is_delta := is_delta r;
     is_rdelta := is_rdelta r; probe_height := probe_height r;
     slow_feedrate := slow_feedrate r; fast_feedrate := fast_feedrate r;
     return_feedrate := return_feedrate r; reverse_z := reverse_z r;
     max_z := max_z r; running := running r; accelerating := accelerating r;
     current_feedrate := current_feedrate r; runout_steps := runout_steps r;
     steps_at_decel_end := steps_at_decel_end r;
     has_exceeded_runout := has_exceeded_runout r; probing := probing r;
     probe_detected := probe_detected r |}.

Definition with_invert_override (v : bool) (r : ZProbe) : ZProbe :=
  {| pin_connected := pin_connected r; pin_inverting := pin_inverting r;
     invert_override := v; debounce_count := debounce_count r;
     decelerate_runout := decelerate_runout r;
     decelerate_on_trigger := decelerate_on_trigger r;
     strategies := strategies r; is_delta := is_delta r;
     is_rdelta := is_rdelta r; probe_height := probe_height r;
     slow_feedrate := slow_feedrate r; fast_feedrate := fast_feedrate r;
     return_feedrate := return_feedrate r; reverse_z := reverse_z r;
     max_z := max_z r; running := running r; accelerating := accelerating r;
     current_feedrate := current_feedrate r; runout_steps := runout_steps r;
     steps_at_decel_end := steps_at_decel_end r;
     has_exceeded_runout := has_exceeded_runout r; probing := probing r;
     probe_detected := probe_detected r |}.

Definition with_debounce_count (v : Z) (r : ZProbe) : ZProbe :=
  {| pin_connected := pin_connected r; pin_inverting := pin_inverting r;
     invert_override := invert_override r; debounce_count := v;
     decelerate_runout := decelerate_runout r;
     decelerate_on_trigger := decelerate_on_trigger r;
     strategies := strategies r; is_delta := is_delta r;
     is_rdelta := is_rdelta r; probe_height := probe_height r;
     slow_feedrate := slow_feedrate r; fast_feedrate := fast_feedrate r;
     return_feedrate := return_feedrate r; reverse_z := reverse_z r;
     max_z := max_z r; running := running r; accelerating := accelerating r;
     current_feedrate := current_feedrate r; runout_steps := runout_steps r;
     steps_at_decel_end := steps_at_decel_end r;
     has_exceeded_runout := has_exceeded_runout r; probing := probing r;
     probe_detected := probe_detected r |}.

Definition with_decelerate_on_trigger (v : bool) (r : ZProbe) : ZProbe :=
  {| pin_connected := pin_connected r; pin_inverting := pin_inverting r;
     invert_override := invert_override r;
     debounce_count := debounce_count r;
     decelerate_runout := decelerate_runout r; decelerate_on_trigger := v;
     strategies := strategies r; is_delta := is_delta r;
     is_rdelta := is_rdelta r; probe_height := probe_height r;
     slow_feedrate := slow_feedrate r; fast_feedrate := fast_feedrate r;
     return_feedrate := return_feedrate r; reverse_z := reverse_z r;
     max_z := max_z r; running := running r; accelerating := accelerating r;
     current_feedrate := current_feedrate r; runout_steps := runout_steps r;
     steps_at_decel_end := steps_at_decel_end r;
     has_exceeded_runout := has_exceeded_runout r; probing := probing r;
     probe_detected := probe_detected r |}.

Definition with_probe_height (v : float) (r : ZProbe) : ZProbe :=
  {| pin_connected := pin_connected r; pin_inverting := pin_inverting r;
     invert_override := invert_override r;
     debounce_count := debounce_count r;
     decelerate_runout := decelerate_runout r;
     decelerate_on_trigger := decelerate_on_trigger r;
     strategies := strategies r; is_delta := is_delta r;
     is_rdelta := is_rdelta r; probe_height := v;
     slow_feedrate := slow_feedrate r; fast_feedrate := fast_feedrate r;
     return_feedrate := return_feedrate r; reverse_z := reverse_z r;
     max_z := max_z r; running := running r; accelerating := accelerating r;
     current_feedrate := current_feedrate r; runout_steps := runout_steps r;
     steps_at_decel_end := steps_at_decel_end r;
     has_exceeded_runout := has_exceeded_runout r; probing := probing r;
     probe_detected := probe_detected r |}.

Definition with_slow_feedrate (v : float) (r : ZProbe) : ZProbe :=
  {| pin_connected := pin_connected r; pin_inverting := pin_inverting r;
     invert_override := invert_override r;
     debounce_count := debounce_count r;
     decelerate_runout := decelerate_runout r;
     decelerate_on_trigger := decelerate_on_trigger r;
     strategies := strategies r; is_delta := is_delta r;
     is_rdelta := is_rdelta r; probe_height := probe_height r;
     slow_feedrate := v; fast_feedrate := fast_feedrate r;
     return_feedrate := return_feedrate r; reverse_z := reverse_z r;
     max_z := max_z r; running := running r; accelerating := accelerating r;
     current_feedrate := current_feedrate r; runout_steps := runout_steps r;
     steps_at_decel_end := steps_at_decel_end r;
     has_exceeded_runout := has_exceeded_runout r; probing := probing r;
     probe_detected := probe_detected r |}.

Definition with_fast_feedrate (v : float) (r : ZProbe) : ZProbe :=
  {| pin_connected := pin_connected r; pin_inverting := pin_inverting r;
     invert_override := invert_override r;
     debounce_count := debounce_count r;
     decelerate_runout := decelerate_runout r;
     decelerate_on_trigger := decelerate_on_trigger r;
     strategies := strategies r; is_delta := is_delta r;
     is_rdelta := is_rdelta r; probe_height := probe_height r;
     slow_feedrate := slow_feedrate r; fast_feedrate := v;
     return_feedrate := return_feedrate r; reverse_z := reverse_z r;
     max_z := max_z r; running := running r; accelerating := accelerating r;
     current_feedrate := current_feedrate r; runout_steps := runout_steps r;
     steps_at_decel_end := steps_at_decel_end r;
     has_exceeded_runout := has_exceeded_runout r; probing := probing r;
     probe_detected := probe_detected r |}.

Definition with_return_feedrate (v : float) (r : ZProbe) : ZProbe :=
  {| pin_connected := pin_connected r; pin_inverting := pin_inverting r;
     invert_override := invert_override r;
     debounce_count := debounce_count r;
     decelerate_runout := decelerate_runout r;
     decelerate_on_trigger := decelerate_on_trigger r;
     strategies := strategies r; is_delta := is_delta r;
     is_rdelta := is_rdelta r; probe_height := probe_height r;
     slow_feedrate := slow_feedrate r; fast_feedrate := fast_feedrate r;
     return_feedrate := v; reverse_z := reverse_z r; max_z := max_z r;
     running := running r; accelerating := accelerating r;
     current_feedrate := current_feedrate r; runout_steps := runout_steps r;
     steps_at_decel_end := steps_at_decel_end r;
     has_exceeded_runout := has_exceeded_runout r; probing := probing r;
     probe_detected := probe_detected r |}.

Definition with_reverse_z (v : bool) (r : ZProbe) : ZProbe :=
  {| pin_connected := pin_connected r; pin_inverting := pin_inverting r;
     invert_override := invert_override r;
     debounce_count := debounce_count r;
     decelerate_runout := decelerate_runout r;
     decelerate_on_trigger := decelerate_on_trigger r;
     strategies := strategies r; is_delta := is_delta r;
     is_rdelta := is_rdelta r; probe_height := probe_height r;
     slow_feedrate := slow_feedrate r; fast_feedrate := fast_feedrate r;
     return_feedrate := return_feedrate r; reverse_z := v; max_z := max_z r;
     running := running r; accelerating := accelerating r;
     current_feedrate := current_feedrate r; runout_steps := runout_steps r;
     steps_at_decel_end := steps_at_decel_end r;
     has_exceeded_runout := has_exceeded_runout r; probing := probing r;
     probe_detected := probe_detected r |}.

Definition with_max_z (v : float) (r : ZProbe) : ZProbe :=
  {| pin_connected := pin_connected r; pin_inverting := pin_inverting r;
     invert_override := invert_override r;
     debounce_count := debounce_count r;
     decelerate_runout := decelerate_runout r;
     decelerate_on_trigger := decelerate_on_trigger r;
     strategies := strategies r; is_delta := is_delta r;
     is_rdelta := is_rdelta r; probe_height := probe_height r;
     slow_feedrate := slow_feedrate r; fast_feedrate := fast_feedrate r;
     return_feedrate := return_feedrate r; reverse_z := reverse_z r;
     max_z := v; running := running r; accelerating := accelerating r;
     current_feedrate := current_feedrate r; runout_steps := runout_steps r;
     steps_at_decel_end := steps_at_decel_end r;
     has_exceeded_runout := has_exceeded_runout r; probing := probing r;
     probe_detected := probe_detected r |}.

Definition with_running (v : bool) (r : ZProbe) : ZProbe :=
  {| pin_connected := pin_connected r; pin_inverting := pin_inverting r;
     invert_override := invert_override r;
     debounce_count := debounce_count r;
     decelerate_runout := decelerate_runout r;
     decelerate_on_trigger := decelerate_on_trigger r;
     strategies := strategies r; is_delta := is_delta r;
     is_rdelta := is_rdelta r; probe_height := probe_height r;
     slow_feedrate := slow_feedrate r; fast_feedrate := fast_feedrate r;
     return_feedrate := return_feedrate r; reverse_z := reverse_z r;
     max_z := max_z r; running := v; accelerating := accelerating r;
     current_feedrate := current_feedrate r; runout_steps := runout_steps r;
     steps_at_decel_end := steps_at_decel_end r;
     has_exceeded_runout := has_exceeded_runout r; probing := probing r;
     probe_detected := probe_detected r |}.

Definition with_accelerating (v : bool) (r : ZProbe) : ZProbe :=
  {| pin_connected := pin_connected r; pin_inverting := pin_inverting r;
     invert_override := invert_override r;
     debounce_count := debounce_count r;
     decelerate_runout := decelerate_runout r;
     decelerate_on_trigger := decelerate_on_trigger r;
     strategies := strategies r; is_delta := is_delta r;
     is_rdelta := is_rdelta r; probe_height := probe_height r;
     slow_feedrate := slow_feedrate r; fast_feedrate := fast_feedrate r;
     return_feedrate := return_feedrate r; reverse_z := reverse_z r;
     max_z := max_z r; running := running r; accelerating := v;
     current_feedrate := current_feedrate r; runout_steps := runout_steps r;
     steps_at_decel_end := steps_at_decel_end r;
     has_exceeded_runout := has_exceeded_runout r; probing := probing r;
     probe_detected := probe_detected r |}.

Definition with_current_feedrate (v : float) (r : ZProbe) : ZProbe :=
  {| pin_connected := pin_connected r; pin_inverting := pin_inverting r;
     invert_override := invert_override r;
     debounce_count := debounce_count r;
     decelerate_runout := decelerate_runout r;
     decelerate_on_trigger := decelerate_on_trigger r;
     strategies := strategies r; is_delta := is_delta r;
     is_rdelta := is_rdelta r; probe_height := probe_height r;
     slow_feedrate := slow_feedrate r; fast_feedrate := fast_feedrate r;
     return_feedrate := return_feedrate r; reverse_z := reverse_z r;
     max_z := max_z r; running := running r; accelerating := accelerating r;
     current_feedrate := v; runout_steps := runout_steps r;
     steps_at_decel_end := steps_at_decel_end r;
     has_exceeded_runout := has_exceeded_runout r; probing := probing r;
     probe_detected := probe_detected r |}.

Definition with_runout_steps (v : Z) (r : ZProbe) : ZProbe :=
  {| pin_connected := pin_connected r; pin_inverting := pin_inverting r;
     invert_override := invert_override r;
     debounce_count := debounce_count r;
     decelerate_runout := decelerate_runout r;
     decelerate_on_trigger := decelerate_on_trigger r;
     strategies := strategies r; is_delta := is_delta r;
     is_rdelta := is_rdelta r; probe_height := probe_height r;
     slow_feedrate := slow_feedrate r; fast_feedrate := fast_feedrate r;
     return_feedrate := return_feedrate r; reverse_z := reverse_z r;
     max_z := max_z r; running := running r; accelerating := accelerating r;
     current_feedrate := current_feedrate r; runout_steps := v;
     steps_at_decel_end := steps_at_decel_end r;
     has_exceeded_runout := has_exceeded_runout r; probing := probing r;
     probe_detected := probe_detected r |}.

Definition with_steps_at_decel_end (v : Z) (r : ZProbe) : ZProbe :=
  {| pin_connected := pin_connected r; pin_inverting := pin_inverting r;
     invert_override := invert_override r;
     debounce_count := debounce_count r;
     decelerate_runout := decelerate_runout r;
     decelerate_on_trigger := decelerate_on_trigger r;
     strategies := strategies r; is_delta := is_delta r;
     is_rdelta := is_rdelta r; probe_height := probe_height r;
     slow_feedrate := slow_feedrate r; fast_feedrate := fast_feedrate r;
     return_feedrate := return_feedrate r; reverse_z := reverse_z r;
     max_z := max_z r; running := running r; accelerating := accelerating r;
     current_feedrate := current_feedrate r; runout_steps := runout_steps r;
     steps_at_decel_end := v; has_exceeded_runout := has_exceeded_runout r;
     probing := probing r; probe_detected := probe_detected r |}.

Definition with_has_exceeded_runout (v : bool) (r : ZProbe) : ZProbe :=
  {| pin_connected := pin_connected r; pin_inverting := pin_inverting r;
     invert_override := invert_override r;
     debounce_count := debounce_count r;
     decelerate_runout := decelerate_runout r;
     decelerate_on_trigger := decelerate_on_trigger r;
     strategies := strategies r; is_delta := is_delta r;
     is_rdelta := is_rdelta r; probe_height := probe_height r;
     slow_feedrate := slow_feedrate r; fast_feedrate := fast_feedrate r;
     return_feedrate := return_feedrate r; reverse_z := reverse_z r;
     max_z := max_z r; running := running r; accelerating := accelerating r;
     current_feedrate := current_feedrate r; runout_steps := runout_steps r;
     steps_at_decel_end := steps_at_decel_end r; has_exceeded_runout := v;
     probing := probing r; probe_detected := probe_detected r |}.

Definition with_probing (v : bool) (r : ZProbe) : ZProbe :=
  {| pin_connected := pin_connected r; pin_inverting := pin_inverting r;
     invert_override := invert_override r;
     debounce_count := debounce_count r;
     decelerate_runout := decelerate_runout r;
     decelerate_on_trigger := decelerate_on_trigger r;
     strategies := strategies r; is_delta := is_delta r;
     is_rdelta := is_rdelta r; probe_height := probe_height r;
     slow_feedrate := slow_feedrate r; fast_feedrate := fast_feedrate r;
     return_feedrate := return_feedrate r; reverse_z := reverse_z r;
     max_z := max_z r; running := running r; accelerating := accelerating r;
     current_feedrate := current_feedrate r; runout_steps := runout_steps r;
     steps_at_decel_end := steps_at_decel_end r;
     has_exceeded_runout := has_exceeded_runout r; probing := v;
     probe_detected := probe_detected r |}.

Definition with_probe_detected (v : bool) (r : ZProbe) : ZProbe :=
  {| pin_connected := pin_connected r; pin_inverting := pin_inverting r;
     invert_override := invert_override r;
     debounce_count := debounce_count r;
     decelerate_runout := decelerate_runout r;
     decelerate_on_trigger := decelerate_on_trigger r;
     strategies := strategies r; is_delta := is_delta r;
     is_rdelta := is_rdelta r; probe_height := probe_height r;
     slow_feedrate := slow_feedrate r; fast_feedrate := fast_feedrate r;
     return_feedrate := return_feedrate r; reverse_z := reverse_z r;
     max_z := max_z r; running := running r; accelerating := accelerating r;
     current_feedrate := current_feedrate r; runout_steps := runout_steps r;
     steps_at_decel_end := steps_at_decel_end r;
     has_exceeded_runout := has_exceeded_runout r; probing := probing r;
     probe_detected := v |}.

(** What the methods reach through [THEKERNEL]: the halt flag, the level on the
    probe input, the planner's acceleration constants, the robot's
    compensation transform and segmentation switch, the arm solution's
    optional parameters ([None]: the solution has none) and the endstop trim
    published on the data bus ([None]: the endstops module is not enabled). *)
Record Kernel : Type := mkKernel {
  halted : bool;
  pin_level : bool;
  acceleration_ticks_per_second : float;
  acceleration : float;
  z_acceleration : float;
  compensationTransform : option nat;
  disable_segmentation : bool;
  arm_options : option (list (ascii * float));
  endstop_trim : option (float * float * float)
}.

Definition with_halted (v : bool) (r : Kernel) : Kernel :=
  {| halted := v; pin_level := pin_level r;
     acceleration_ticks_per_second := acceleration_ticks_per_second r;
     acceleration := acceleration r; z_acceleration := z_acceleration r;
     compensationTransform := compensationTransform r;
     disable_segmentation := disable_segmentation r;
     arm_options := arm_options r; endstop_trim := endstop_trim r |}.

Definition with_pin_level (v : bool) (r : Kernel) : Kernel :=
  {| halted := halted r; pin_level := v;
     acceleration_ticks_per_second := acceleration_ticks_per_second r;
     acceleration := acceleration r; z_acceleration := z_acceleration r;
     compensationTransform := compensationTransform r;
     disable_segmentation := disable_segmentation r;
     arm_options := arm_options r; endstop_trim := endstop_trim r |}.

Definition with_acceleration (v : float) (r : Kernel) : Kernel :=
  {| halted := halted r; pin_level := pin_level r;
     acceleration_ticks_per_second := acceleration_ticks_per_second r;
     acceleration := v; z_acceleration := z_acceleration r;
     compensationTransform := compensationTransform r;
     disable_segmentation := disable_segmentation r;
     arm_options := arm_options r; endstop_trim := endstop_trim r |}.

Definition with_compensationTransform (v : option nat) (r : Kernel) : Kernel :=
  {| halted := halted r; pin_level := pin_level r;
     acceleration_ticks_per_second := acceleration_ticks_per_second r;
     acceleration := acceleration r; z_acceleration := z_acceleration r;
     compensationTransform := v;
     disable_segmentation := disable_segmentation r;
     arm_options := arm_options r; endstop_trim := endstop_trim r |}.

Definition with_disable_segmentation (v : bool) (r : Kernel) : Kernel :=
  {| halted := halted r; pin_level := pin_level r;
     acceleration_ticks_per_second := acceleration_ticks_per_second r;
     acceleration := acceleration r; z_acceleration := z_acceleration r;
     compensationTransform := compensationTransform r;
     disable_segmentation := v; arm_options := arm_options r;
     endstop_trim := endstop_trim r |}.

Definition with_arm_options (v : option (list (ascii * float))) (r : Kernel) : Kernel :=
  {| halted := halted r; pin_level := pin_level r;
     acceleration_ticks_per_second := acceleration_ticks_per_second r;
     acceleration := acceleration r; z_acceleration := z_acceleration r;
     compensationTransform := compensationTransform r;
     disable_segmentation := disable_segmentation r; arm_options := v;
     endstop_trim := endstop_trim r |}.

Definition with_endstop_trim (v : option (float * float * float)) (r : Kernel) : Kernel :=
  {| halted := halted r; pin_level := pin_level r;
     acceleration_ticks_per_second := acceleration_ticks_per_second r;
     acceleration := acceleration r; z_acceleration := z_acceleration r;
     compensationTransform := compensationTransform r;
     disable_segmentation := disable_segmentation r;
     arm_options := arm_options r; endstop_trim := v |}.

(** The fields of [ComprehensiveDeltaStrategy]. *)
Record Cds : Type := mkCds {
  probe_from_height : float;
  geom_dirty : bool;
  cur_depth_map : list float;
  last_depth_map : list float;
  probe_radius : float;
  probe_smoothing : Z;
  probe_acceleration : float;
  probe_offset_x : float;
  probe_offset_y : float;
  probe_offset_z : float;
  test_point : list (float * float);
  saved_acceleration : float;
  mm_probe_height_to_trigger : float;
  bed_height : float;
  options : list (ascii * float)
}.

Definition with_probe_from_height (v : float) (r : Cds) : Cds :=
  {| probe_from_height := v; geom_dirty := geom_dirty r;
     cur_depth_map := cur_depth_map r; last_depth_map := last_depth_map r;
     probe_radius := probe_radius r; probe_smoothing := probe_smoothing r;
     probe_acceleration := probe_acceleration r;
     probe_offset_x := probe_offset_x r; probe_offset_y := probe_offset_y r;
     probe_offset_z := probe_offset_z r; test_point := test_point r;
     saved_acceleration := saved_acceleration r;
     mm_probe_height_to_trigger := mm_probe_height_to_trigger r;
     bed_height := bed_height r; options := options r |}.

Definition with_geom_dirty (v : bool) (r : Cds) : Cds :=
  {| probe_from_height := probe_from_height r; geom_dirty := v;
     cur_depth_map := cur_depth_map r; last_depth_map := last_depth_map r;
     probe_radius := probe_radius r; probe_smoothing := probe_smoothing r;
     probe_acceleration := probe_acceleration r;
     probe_offset_x := probe_offset_x r; probe_offset_y := probe_offset_y r;
     probe_offset_z := probe_offset_z r; test_point := test_point r;
     saved_acceleration := saved_acceleration r;
     mm_probe_height_to_trigger := mm_probe_height_to_trigger r;
     bed_height := bed_height r; options := options r |}.

Definition with_cur_depth_map (v : list float) (r : Cds) : Cds :=
  {| probe_from_height := probe_from_height r; geom_dirty := geom_dirty r;
     cur_depth_map := v; last_depth_map := last_depth_map r;
     probe_radius := probe_radius r; probe_smoothing := probe_smoothing r;
     probe_acceleration := probe_acceleration r;
     probe_offset_x := probe_offset_x r; probe_offset_y := probe_offset_y r;
     probe_offset_z := probe_offset_z r; test_point := test_point r;
     saved_acceleration := saved_acceleration r;
     mm_probe_height_to_trigger := mm_probe_height_to_trigger r;
     bed_height := bed_height r; options := options r |}.

Definition with_last_depth_map (v : list float) (r : Cds) : Cds :=
  {| probe_from_height := probe_from_height r; geom_dirty := geom_dirty r;
     cur_depth_map := cur_depth_map r; last_depth_map := v;
     probe_radius := probe_radius r; probe_smoothing := probe_smoothing r;
     probe_acceleration := probe_acceleration r;
     probe_offset_x := probe_offset_x r; probe_offset_y := probe_offset_y r;
     probe_offset_z := probe_offset_z r; test_point := test_point r;
     saved_acceleration := saved_acceleration r;
     mm_probe_height_to_trigger := mm_probe_height_to_trigger r;
     bed_height := bed_height r; options := options r |}.

Definition with_probe_radius (v : float) (r : Cds) : Cds :=
  {| probe_from_height := probe_from_height r; geom_dirty := geom_dirty r;
     cur_depth_map := cur_depth_map r; last_depth_map := last_depth_map r;
     probe_radius := v; probe_smoothing := probe_smoothing r;
     probe_acceleration := probe_acceleration r;
     probe_offset_x := probe_offset_x r; probe_offset_y := probe_offset_y r;
     probe_offset_z := probe_offset_z r; test_point := test_point r;
     saved_acceleration := saved_acceleration r;
     mm_probe_height_to_trigger := mm_probe_height_to_trigger r;
     bed_height := bed_height r; options := options r |}.

Definition with_probe_smoothing (v : Z) (r : Cds) : Cds :=
  {| probe_from_height := probe_from_height r; geom_dirty := geom_dirty r;
     cur_depth_map := cur_depth_map r; last_depth_map := last_depth_map r;
     probe_radius := probe_radius r; probe_smoothing := v;
     probe_acceleration := probe_acceleration r;
     probe_offset_x := probe_offset_x r; probe_offset_y := probe_offset_y r;
     probe_offset_z := probe_offset_z r; test_point := test_point r;
     saved_acceleration := saved_acceleration r;
     mm_probe_height_to_trigger := mm_probe_height_to_trigger r;
     bed_height := bed_height r; options := options r |}.

Definition with_saved_acceleration (v : float) (r : Cds) : Cds :=
  {| probe_from_height := probe_from_height r; geom_dirty := geom_dirty r;
     cur_depth_map := cur_depth_map r; last_depth_map := last_depth_map r;
     probe_radius := probe_radius r; probe_smoothing := probe_smoothing r;
     probe_acceleration := probe_acceleration r;
     probe_offset_x := probe_offset_x r; probe_offset_y := probe_offset_y r;
     probe_offset_z := probe_offset_z r; test_point := test_point r;
     saved_acceleration := v;
     mm_probe_height_to_trigger := mm_probe_height_to_trigger r;
     bed_height := bed_height r; options := options r |}.

Definition with_mm_probe_height_to_trigger (v : float) (r : Cds) : Cds :=
  {| probe_from_height := probe_from_height r; geom_dirty := geom_dirty r;
     cur_depth_map := cur_depth_map r; last_depth_map := last_depth_map r;
     probe_radius := probe_radius r; probe_smoothing := probe_smoothing r;
     probe_acceleration := probe_acceleration r;
     probe_offset_x := probe_offset_x r; probe_offset_y := probe_offset_y r;
     probe_offset_z := probe_offset_z r; test_point := test_point r;
     saved_acceleration := saved_acceleration r;
     mm_probe_height_to_trigger := v; bed_height := bed_height r;
     options := options r |}.

Definition with_bed_height (v : float) (r : Cds) : Cds :=
  {| probe_from_height := probe_from_height r; geom_dirty := geom_dirty r;
     cur_depth_map := cur_depth_map r; last_depth_map := last_depth_map r;
     probe_radius := probe_radius r; probe_smoothing := probe_smoothing r;
     probe_acceleration := probe_acceleration r;
     probe_offset_x := probe_offset_x r; probe_offset_y := probe_offset_y r;
     probe_offset_z := probe_offset_z r; test_point := test_point r;
     saved_acceleration := saved_acceleration r;
     mm_probe_height_to_trigger := mm_probe_height_to_trigger r;
     bed_height := v; options := options r |}.

Definition with_options (v : list (ascii * float)) (r : Cds) : Cds :=
  {| probe_from_height := probe_from_height r; geom_dirty := geom_dirty r;
     cur_depth_map := cur_depth_map r; last_depth_map := last_depth_map r;
     probe_radius := probe_radius r; probe_smoothing := probe_smoothing r;
     probe_acceleration := probe_acceleration r;
     probe_offset_x := probe_offset_x r; probe_offset_y := probe_offset_y r;
     probe_offset_z := probe_offset_z r; test_point := test_point r;
     saved_acceleration := saved_acceleration r;
     mm_probe_height_to_trigger := mm_probe_height_to_trigger r;
     bed_height := bed_height r; options := v |}.


(** What the firmware asks of its collaborators, in the order it asks. *)
Inductive Action : Type :=
| ConsoleLine (relative : bool) (x y z : option float) (feedrate_mm_min : float)
| HomeCommand
| AccelerationLine (a : float)
| BedHeightLine (h : float)
| WaitForEmptyQueue
| TurnEnablePinsOn
| StepperMove (a : Axis) (dir : bool) (steps : Z)
| SetLastProbePosition (x y z : float) (ok : bool)
| ResetAxisPosition (v : float) (a : Axis)
| ResetAxisPositionXYZ (x y z : float)
| ResetPositionFromActuators
| HaltEvent
| ExternalStrategy (k : Strategy).

Record Machine : Type := mkMachine {
  zprobe : ZProbe;
  cds : Cds;
  actuators : Actuators;
  kernel : Kernel;
  (* whether a strategy whose source is not available claims a G-code *)
  external_handles : Strategy -> Gcode -> bool;
  (* the arm solution's forward kinematics, a black box *)
  actuator_to_cartesian : float * float * float -> float * float * float;
  (* observable history *)
  output : list (Sink * string);
  issued : list Action;
  (* specification only: the step counts [do_probe_at] handed back *)
  probe_log : list Z
}.

Definition on_zprobe (f : ZProbe -> ZProbe) (s : Machine) : Machine :=
  {| zprobe := f (zprobe s); cds := cds s; actuators := actuators s;
     kernel := kernel s; external_handles := external_handles s;
     actuator_to_cartesian := actuator_to_cartesian s;
     output := output s; issued := issued s; probe_log := probe_log s |}.

Definition on_cds (f : Cds -> Cds) (s : Machine) : Machine :=
  {| zprobe := zprobe s; cds := f (cds s); actuators := actuators s;
     kernel := kernel s; external_handles := external_handles s;
     actuator_to_cartesian := actuator_to_cartesian s;
     output := output s; issued := issued s; probe_log := probe_log s |}.

Definition on_actuators (f : Actuators -> Actuators) (s : Machine) : Machine :=
  {| zprobe := zprobe s; cds := cds s; actuators := f (actuators s);
     kernel := kernel s; external_handles := external_handles s;
     actuator_to_cartesian := actuator_to_cartesian s;
     output := output s; issued := issued s; probe_log := probe_log s |}.

Definition on_kernel (f : Kernel -> Kernel) (s : Machine) : Machine :=
  {| zprobe := zprobe s; cds := cds s; actuators := actuators s;
     kernel := f (kernel s); external_handles := external_handles s;
     actuator_to_cartesian := actuator_to_cartesian s;
     output := output s; issued := issued s; probe_log := probe_log s |}.

Definition say (to : Sink) (text : string) (s : Machine) : Machine :=
  {| zprobe := zprobe s; cds := cds s; actuators := actuators s;
     kernel := kernel s; external_handles := external_handles s;
     actuator_to_cartesian := actuator_to_cartesian s;
     output := output s ++ [(to, text)]; issued := issued s;
     probe_log := probe_log s |}.

Definition issue (a : Action) (s : Machine) : Machine :=
  {| zprobe := zprobe s; cds := cds s; actuators := actuators s;
     kernel := kernel s; external_handles := external_handles s;
     actuator_to_cartesian := actuator_to_cartesian s;
     output := output s; issued := issued s ++ [a];
     probe_log := probe_log s |}.

Definition record_probe (steps : Z) (s : Machine) : Machine :=
  {| zprobe := zprobe s; cds := cds s; actuators := actuators s;
     kernel := kernel s; external_handles := external_handles s;
     actuator_to_cartesian := actuator_to_cartesian s;
     output := output s; issued := issued s;
     probe_log := probe_log s ++ [steps] |}.

(** [STEPPER[a]] and the macros built on it. *)
Definition STEPPER (a : Axis) (s : Machine) : StepperMotor :=
  actuator a (actuators s).

Definition STEPS_PER_MM (a : Axis) (s : Machine) : float :=
  get_steps_per_mm (STEPPER a s).

Definition Z_STEPS_PER_MM (s : Machine) : float := STEPS_PER_MM Z_AXIS s.

(** [STEPPER[a]->move(dir, steps, speed)]: the actuator is commanded and the
    command is recorded. *)
Definition stepper_move (a : Axis) (dir : bool) (steps : Z) (speed : option Z)
           (s : Machine) : Machine :=
  issue (StepperMove a dir steps)
        (on_actuators (on_actuator a (motor_move dir steps speed)) s).

Definition stepper_set_speed (a : Axis) (rate : Z) (s : Machine) : Machine :=
  on_actuators (on_actuator a (set_speed rate)) s.

(** [this->pin.get()]: the input level, through the inversion flag. *)
Definition pin_get (s : Machine) : bool :=
  xorb (pin_inverting (zprobe s)) (pin_level (kernel s)).

Definition is_halted (s : Machine) : bool := halted (kernel s).

(** ** Interrupt handlers

    These run to completion in interrupt context: they are plain state
    transformers. *)

(** [ZProbe::accelerate] *)
Definition accelerate (c : Axis) (s : Machine) : Machine :=
  let current_rate := wrap32 (get_steps_per_second (STEPPER c s)) in
  let target_rate := f2uiz (floorf (current_feedrate (zprobe s))) in
  (* Z may have a different acceleration than X and Y *)
  let acc := if axis_eqb c Z_AXIS then z_acceleration (kernel s)
             else acceleration (kernel s) in
  let current_rate :=
    if current_rate <? target_rate then
      let rate_increase :=
        f2uiz (floorf ((acc / acceleration_ticks_per_second (kernel s))
                       * STEPS_PER_MM c s)%Q) in
      Z.min target_rate (wrap32 (current_rate + rate_increase))
    else current_rate in
  let current_rate :=
    if target_rate <? current_rate then target_rate else current_rate in
  (* steps per second *)
  stepper_set_speed c current_rate s.

(** [ZProbe::decelerate] *)
Definition decelerate (c : Axis) (s : Machine) : Machine :=
  (* First, make sure we haven't overshot our runout *)
  let stepped := wrap32 (get_stepped (STEPPER c s)) in
  if runout_steps (zprobe s) <=? stepped then
    let s := stepper_set_speed c 0 s in
    let s := stepper_move c false 0 None s in
    let s := on_zprobe (with_steps_at_decel_end stepped) s in
    on_zprobe (with_has_exceeded_runout true) s
  else
    let current_rate := get_steps_per_second (STEPPER c s) in
    let target_rate := 0 in
    let acc := if axis_eqb c Z_AXIS then z_acceleration (kernel s)
               else acceleration (kernel s) in
    let current_rate :=
      if target_rate <? current_rate then
        let rate_decrease :=
          f2iz (floorf ((acc / acceleration_ticks_per_second (kernel s))
                        * STEPS_PER_MM c s)%Q) in
        let current_rate := current_rate - rate_decrease in
        if fleb (inject_Z current_rate) (201 # 10) then target_rate
        else current_rate
      else current_rate in
    let cur := wrap32 current_rate in
    if current_rate =? 0 then
      let s := stepper_set_speed c 0 s in
      let s := stepper_move c false 0 None s in
      on_zprobe (with_steps_at_decel_end stepped) s
    else
      stepper_set_speed c cur s.

(** [ZProbe::acceleration_tick]: called periodically to change the speed to
    match acceleration. *)
Definition tick_axis (c : Axis) (s : Machine) : Machine :=
  if is_moving (STEPPER c s) then
    if accelerating (zprobe s) then accelerate c s else decelerate c s
  else s.

Definition acceleration_tick (s : Machine) : Machine :=
  if negb (running (zprobe s)) then s   (* nothing to do *)
  else
    let s := tick_axis Z_AXIS s in
    if is_delta (zprobe s) || is_rdelta (zprobe s) then
      (* deltas needs to move all actuators *)
      tick_axis Y_AXIS (tick_axis X_AXIS s)
    else s.

(** [ZProbe::read_probe], attached to the slow ticker. *)
Definition read_probe (s : Machine) : Machine :=
  if negb (probing (zprobe s)) || probe_detected (zprobe s) then s
  else if pin_get s then
    let s := on_zprobe (with_probe_detected true) s in
    (* now tell all the stepper_motors to stop *)
    on_actuators (fun acts =>
      on_actuator Z_AXIS force_finish_move
        (on_actuator Y_AXIS force_finish_move
           (on_actuator X_AXIS force_finish_move acts))) s
  else s.

(** ** Schedules *)

Inductive Event : Type :=
| EvStep (a : Axis)     (* the step ticker pulses actuator [a] *)
| EvTick                (* the acceleration ticker fires *)
| EvSlowTick            (* the slow ticker fires *)
| EvPin (level : bool)  (* the level on the probe input changes *)
| EvKill.               (* the kill flag is raised *)

Definition Slot := list Event.
Definition Env := list Slot.

Definition apply_event (e : Event) (s : Machine) : Machine :=
  match e with
  | EvStep a => on_actuators (on_actuator a motor_step) s
  | EvTick => acceleration_tick s
  | EvSlowTick => read_probe s
  | EvPin level => on_kernel (with_pin_level level) s
  | EvKill => on_kernel (with_halted true) s
  end.

Definition run_slot (slot : Slot) (s : Machine) : Machine :=
  fold_left (fun s e => apply_event e s) slot s.

(** ** The monad of foreground code *)

Inductive Fault : Type :=
| NullDeref (expr : string)   (* a member of a null [Gcode *] is evaluated *)
| DivisionByZero
| UninitialisedRead.

Inductive Result (A : Type) : Type :=
| Done (a : A) (env : Env) (s : Machine)
| Crash (f : Fault) (s : Machine)
| Starved.

Arguments Done {A} a env s.
Arguments Crash {A} f s.
Arguments Starved {A}.

Definition M (A : Type) : Type := Env -> Machine -> Result A.

Definition ret {A} (a : A) : M A := fun env s => Done a env s.

Definition bind {A B} (c : M A) (k : A -> M B) : M B :=
  fun env s =>
    match c env s with
    | Done a env' s' => k a env' s'
    | Crash f s' => Crash f s'
    | Starved => Starved
    end.

Declare Scope monad_scope.
Delimit Scope monad_scope with monad.
Notation "x <- c1 ;; c2" := (bind c1 (fun x => c2))
  (at level 61, c1 at next level, right associativity) : monad_scope.
Notation "' pat <- c1 ;; c2" := (bind c1 (fun x => match x with pat => c2 end))
  (at level 61, pat pattern, c1 at next level, right associativity) : monad_scope.
Notation "c1 ;; c2" := (bind c1 (fun _ => c2))
  (at level 61, right associativity) : monad_scope.
Open Scope monad_scope.

Definition get : M Machine := fun env s => Done s env s.
Definition gets {A} (f : Machine -> A) : M A := fun env s => Done (f s) env s.
Definition modify (f : Machine -> Machine) : M unit :=
  fun env s => Done tt env (f s).
Definition crash {A} (f : Fault) : M A := fun _ s => Crash f s.

(** [THEKERNEL->call_event(ON_IDLE)]: the foreground yields; the next slot of
    the schedule happens. *)
Definition call_event_ON_IDLE : M unit :=
  fun env s =>
    match env with
    | [] => Starved
    | slot :: env' => Done tt env' (run_slot slot s)
    end.

(** [_printf] (all streams) and [stream->printf].  Only the format string is
    kept. *)
Definition _printf (fmt : string) : M unit := modify (say KernelStreams fmt).
Definition stream_printf (id : nat) (fmt : string) : M unit :=
  modify (say (GcodeStream id) fmt).

(** [THEKERNEL->conveyor->wait_for_empty_queue()]: the planner drains its
    queue; the foreground is suspended for one slot of the schedule. *)
Definition wait_for_empty_queue : M unit :=
  modify (issue WaitForEmptyQueue) ;; call_event_ON_IDLE.

(** ** ZProbe: probing *)

(** [ZProbe::setDecelerateOnTrigger] *)
Definition setDecelerateOnTrigger (t : bool) : M unit :=
  s <- get ;;
  if feqb (decelerate_runout (zprobe s)) (-1)%Q then
    _printf "Can't enable on-trigger deceleration because decelerate_runout isn't set.\n" ;;
    modify (on_zprobe (with_decelerate_on_trigger false))
  else
    modify (on_zprobe (with_decelerate_on_trigger t)).

(** [ZProbe::zsteps_to_mm] *)
Definition zsteps_to_mm (steps : float) (s : Machine) : float :=
  (steps / Z_STEPS_PER_MM s)%Q.

(** [ZProbe::coordinated_move]: issue a coordinated move directly to robot,
    and return when done.  Only the coordinates that are not NAN are moved.
    The command line is kept in structured form ([relative] selects
    "G91 G0 ... G90" over "G53 G0 ..."; the feed rate is converted to
    mm/min), with the coordinates as the numbers passed in: the code prints
    them into the line with three decimals, the feed rate with one. *)
Definition coordinated_move (x y z : option float) (feedrate : float)
           (relative : bool) : M unit :=
  modify (issue (ConsoleLine relative x y z (feedrate * 60)%Q)) ;;
  wait_for_empty_queue.

(** [ZProbe::home]: issue home command. *)
Definition home : M unit := modify (issue HomeCommand).

(** The "wait for decel to stop" loop of [wait_for_probe]. *)
Definition still_decelerating (s : Machine) : bool :=
  is_moving (STEPPER Z_AXIS s)
  || (is_delta (zprobe s)
      && (is_moving (STEPPER X_AXIS s) || is_moving (STEPPER Y_AXIS s))).

Fixpoint wait_for_decel (env : Env) (s : Machine) : Result unit :=
  if still_decelerating s then
    match env with
    | [] => Starved
    | slot :: env' => wait_for_decel env' (run_slot slot s)
    end
  else Done tt env s.

(** Command one stepper to stop (only if not using decel on trigger). *)
Definition stop_stepper (i : Axis) (s : Machine) : Machine :=
  if is_moving (STEPPER i s) then
    if negb (decelerate_on_trigger (zprobe s)) then
      stepper_move i false 0 None s
    else s
  else s.

(** The branch of [wait_for_probe] taken when the debounce counter has
    reached its maximum: stop the steppers and report the step count. *)
Definition probe_triggered (delta : bool) : M (bool * option Z) :=
  s <- get ;;
  let steps := get_stepped (STEPPER Z_AXIS s) in
  (* If using deceleration, this tells the acceleration tick method to call
     decelerate() rather than accelerate() *)
  (if decelerate_on_trigger (zprobe s)
   then modify (on_zprobe (with_accelerating false)) else ret tt) ;;
  (if delta then
     modify (stop_stepper X_AXIS) ;;
     modify (stop_stepper Y_AXIS) ;;
     modify (stop_stepper Z_AXIS)
   else
     (* Cartesian or other *)
     modify (stop_stepper Z_AXIS)) ;;
  (* Process the decel stuff *)
  (if decelerate_on_trigger (zprobe s) then
     modify (fun s =>
       on_zprobe (with_runout_steps
         (f2uiz (inject_Z (wrap32 steps)
                 + decelerate_runout (zprobe s) * Z_STEPS_PER_MM s)%Q)) s) ;;
     (* Wait for decel to stop *)
     wait_for_decel ;;
     modify (on_zprobe (with_running false)) ;;
     modify (on_zprobe (with_accelerating true))
   else ret tt) ;;
  (* Make sure we didn't overrun *)
  s <- get ;;
  if has_exceeded_runout (zprobe s) then
    _printf "[!!] Runout protection was triggered!\n" ;;
    _printf "[!!] Check zprobe.decelerate_runout in config and/or try higher accel/lower speed.\n" ;;
    ret (false, Some steps)
  else
    ret (true, Some steps).

(** The "no stepper is moving" test of the polling loop, as written. *)
Definition no_stepper_moving (delta : bool) (s : Machine) : bool :=
  negb (is_moving (STEPPER Z_AXIS s))
  && (negb delta
      || (negb (is_moving (STEPPER Y_AXIS s))
          && negb (is_moving (STEPPER Z_AXIS s)))).

(** [ZProbe::wait_for_probe].  The result carries the flag the method returns
    and the value it stored through [int& steps], if it stored one.
    [debounce] is the loop's counter; the method starts it at 0.  The
    counter is unsigned in the code; [debounce_count], whose declaration is
    in a header that is not among the files, is taken to hold the
    non-negative count the configuration gives it. *)
Fixpoint wait_for_probe_from (debounce : Z) (env : Env) (s : Machine)
  : Result (bool * option Z) :=
  match env with
  | [] => Starved
  | slot :: env' =>
      let s := run_slot slot s in              (* call_event(ON_IDLE) *)
      if is_halted s then
        (* aborted by kill *)
        Done (false, None) env' s
      else
        let delta := is_delta (zprobe s) || is_rdelta (zprobe s) in
        (* if no stepper is moving, moves are finished and there was no touch *)
        if no_stepper_moving delta s then Done (false, None) env' s
        else if pin_get s then
          (* if the probe is active... *)
          if debounce <? debounce_count (zprobe s) then
            (* ...increase debounce counter, but only if the counter hasn't
               reached the max. value *)
            wait_for_probe_from (debounce + 1) env' s
          else
            (* ...otherwise stop the steppers, return its remaining steps *)
            probe_triggered delta env' s
        else
          (* The probe was not hit yet, reset debounce counter *)
          wait_for_probe_from 0 env' s
  end.

Definition wait_for_probe : M (bool * option Z) := wait_for_probe_from 0.

(** The first half of [ZProbe::run_probe], up to "start acceleration
    processing": the motors are enabled and commanded. *)
Definition start_probe (feedrate max_dist : float) (reverse : bool) : M unit :=
  (* Clear the runout overrun flag *)
  modify (on_zprobe (with_has_exceeded_runout false)) ;;
  (* Not a block move, so disable the last tick setting *)
  modify (on_actuators (on_actuator X_AXIS (set_moved_last_block false))) ;;
  modify (on_actuators (on_actuator Y_AXIS (set_moved_last_block false))) ;;
  modify (on_actuators (on_actuator Z_AXIS (set_moved_last_block false))) ;;
  (* Enable the motors *)
  modify (on_zprobe (with_accelerating true)) ;;
  modify (issue TurnEnablePinsOn) ;;
  modify (fun s =>
    on_zprobe (with_current_feedrate (feedrate * Z_STEPS_PER_MM s)%Q) s) ;;
  s <- get ;;
  let maxz := if fltb max_dist 0%Q then (max_z (zprobe s) * 2)%Q else max_dist in
  (* Move Z down *)
  let dir := negb (Bool.eqb (negb (reverse_z (zprobe s))) reverse) in  (* xor *)
  (* probe in specified direction, no more than maxz *)
  modify (stepper_move Z_AXIS dir (f2uiz (maxz * Z_STEPS_PER_MM s)%Q) (Some 0)) ;;
  (if is_delta (zprobe s) || is_rdelta (zprobe s) then
     (* for delta need to move all three actuators *)
     modify (stepper_move X_AXIS dir (f2uiz (maxz * STEPS_PER_MM X_AXIS s)%Q) (Some 0)) ;;
     modify (stepper_move Y_AXIS dir (f2uiz (maxz * STEPS_PER_MM Y_AXIS s)%Q) (Some 0))
   else ret tt) ;;
  (* Start acceleration processing *)
  modify (on_zprobe (with_running true)).

(** [ZProbe::run_probe(steps, feedrate, max_dist, reverse)]: single probe with
    custom feedrate; returns boolean value indicating if probe was
    triggered. *)
Definition run_probe (feedrate max_dist : float) (reverse : bool)
  : M (bool * option Z) :=
  start_probe feedrate max_dist reverse ;;
  (* Wait for probe to trigger *)
  r <- wait_for_probe ;;
  modify (on_zprobe (with_running false)) ;;
  ret r.

(** Modelled from the spec: the overload [run_probe(steps, fast)] is inline in
    [ZProbe.h], which is not among the files.  It probes at the fast or the
    slow feedrate with the default travel ([max_dist < 0], interpreted as
    [2 * max_z]) and without reversing, as the body left in a comment of
    [ZProbe.cpp] shows. *)
Definition run_probe_at (fast : bool) : M (bool * option Z) :=
  s <- get ;;
  run_probe (if fast then fast_feedrate (zprobe s) else slow_feedrate (zprobe s))
            (-1)%Q false.

(** [ZProbe::return_probe] *)
Definition return_probe (steps : Z) (reverse : bool) : M bool :=
  (* move probe back to where it was *)
  modify (on_zprobe (with_accelerating true)) ;;
  s <- get ;;
  let fr := (slow_feedrate (zprobe s) * 2)%Q in (* nominally twice slow feedrate *)
  let fr := if fltb (fast_feedrate (zprobe s)) fr
            then fast_feedrate (zprobe s) else fr in
  coordinated_move None None (Some (zsteps_to_mm (inject_Z steps) s)) fr true ;;
  modify (on_zprobe (with_running false)) ;;
  modify (stepper_move X_AXIS false 0 None) ;;
  modify (stepper_move Y_AXIS false 0 None) ;;
  modify (stepper_move Z_AXIS false 0 None) ;;
  ret true.

(** [ZProbe::doProbeAt] *)
Definition doProbeAt (x y : float) : M (bool * option Z) :=
  (* move to xy *)
  s <- get ;;
  coordinated_move (Some x) (Some y) None (fast_feedrate (zprobe s)) false ;;
  r <- run_probe_at false ;;
  if negb (fst r) then ret (false, None)
  else
    match snd r with
    | None => crash UninitialisedRead
    | Some s_steps =>
        (* return to original Z *)
        zp <- gets zprobe ;;
        success <- (if decelerate_on_trigger zp
                    then return_probe (steps_at_decel_end zp) false
                    else return_probe s_steps false) ;;
        ret (success, Some s_steps)
    end.

(** [ZProbe::probeDistance]; [None] is the NAN result. *)
Definition probeDistance (x y : float) : M (option float) :=
  r <- doProbeAt x y ;;
  match r with
  | (true, Some s_steps) => s <- get ;; ret (Some (zsteps_to_mm (inject_Z s_steps) s))
  | (true, None) => crash UninitialisedRead
  | (false, _) => ret None
  end.

(** ** ComprehensiveDeltaStrategy *)

(** [std::map<char, float>] as used for the arm solution's options:
    [operator[]] reads 0 for a missing key. *)
Definition options_get (c : ascii) (o : list (ascii * float)) : float :=
  match find (fun w => Ascii.eqb (fst w) c) o with
  | Some w => snd w
  | None => 0%Q
  end.

Definition options_set (c : ascii) (v : float) (o : list (ascii * float))
  : list (ascii * float) :=
  (c, v) :: filter (fun w => negb (Ascii.eqb (fst w) c)) o.

Definition options_merge (src dst : list (ascii * float)) : list (ascii * float) :=
  fold_right (fun w acc => options_set (fst w) (snd w) acc) dst src.

(** [arm_solution->get_optional(options)]: fills [options] when the solution
    has optional parameters. *)
Definition get_optional (o : list (ascii * float)) : M (bool * list (ascii * float)) :=
  s <- get ;;
  match arm_options (kernel s) with
  | Some a => ret (true, options_merge a o)
  | None => ret (false, o)
  end.

(** [arm_solution->set_optional(options)] *)
Definition set_optional (o : list (ascii * float)) : M bool :=
  s <- get ;;
  match arm_options (kernel s) with
  | Some a =>
      modify (on_kernel (with_arm_options (Some (options_merge o a)))) ;;
      ret true
  | None => ret false
  end.

(** Evaluating a member of [gcode], which may be the null pointer. *)
Definition gcode_stream (gcode : option Gcode) : M nat :=
  match gcode with
  | Some gc => ret (stream gc)
  | None => crash (NullDeref "gcode->stream")
  end.

Definition gcode_has_letter (gcode : option Gcode) (c : ascii) : M bool :=
  match gcode with
  | Some gc => ret (has_letter gc c)
  | None => crash (NullDeref "gcode->has_letter")
  end.

Definition gcode_get_value (gcode : option Gcode) (c : ascii) : M float :=
  match gcode with
  | Some gc => ret (get_value gc c)
  | None => crash (NullDeref "gcode->get_value")
  end.

(** [ComprehensiveDeltaStrategy::set_trim] *)
Definition set_trim (x y z : float) (stream : nat) : M bool :=
  s <- get ;;
  (* PublicData::set_value(endstops_checksum, trim_checksum, t) *)
  match endstop_trim (kernel s) with
  | Some _ =>
      modify (on_kernel (with_endstop_trim (Some (x, y, z)))) ;;
      stream_printf stream "[ES] Set trim to: X=%f Y=%f Z=%f\n" ;;
      ret true
  | None =>
      stream_printf stream "[ES] Unable to set trim. Are endstops enabled?\n" ;;
      ret false
  end.

(** [ComprehensiveDeltaStrategy::get_trim]: the flag, and the trim read when
    the flag is true. *)
Definition get_trim : M (option (float * float * float)) :=
  gets (fun s => endstop_trim (kernel s)).

(** [ComprehensiveDeltaStrategy::save_acceleration] *)
Definition save_acceleration : M unit :=
  modify (fun s => on_cds (with_saved_acceleration (acceleration (kernel s))) s).

(** [ComprehensiveDeltaStrategy::set_acceleration]: sends "M204 S<a>", which
    sets the planner's acceleration. *)
Definition set_acceleration (a : float) : M unit :=
  modify (issue (AccelerationLine a)) ;;
  modify (on_kernel (with_acceleration a)) ;;
  wait_for_empty_queue ;;
  _printf "[RA] Acceleration restored to %1.3f\n".

(** [ComprehensiveDeltaStrategy::restore_acceleration] *)
Definition restore_acceleration : M unit :=
  s <- get ;;
  set_acceleration (saved_acceleration (cds s)).

(** [ComprehensiveDeltaStrategy::flush]: flush the serial buffer. *)
Definition flush : M unit := call_event_ON_IDLE.

(** [getCoordinates]: the X and Y positions for the three towers given the
    radius from the center. *)
Definition getCoordinates (radius : float)
  : float * float * float * float * float * float :=
  let px := ((866 # 1000) * radius)%Q in (* ~sin(60) *)
  let py := ((5 # 10) * radius)%Q in     (* cos(60) *)
  (Qopp px, Qopp py, px, Qopp py, 0%Q, radius).

(** The "run the number of tests specified in probe_smoothing" loop of
    [do_probe_at]; [steps] is the accumulator.  The flag is false when a
    probe was not triggered. *)
Fixpoint smoothing_loop (n : nat) (steps : Z) : M (bool * Z) :=
  match n with
  | O => ret (true, steps)
  | S n' =>
      (* Run the probe *)
      r <- run_probe_at false ;;
      if negb (fst r) then
        _printf "do_probe_at(steps, %1.3f, %1.3f) - run_probe() returned false, s=%d.\n" ;;
        ret (false, steps)
      else
        match snd r with
        | None => crash UninitialisedRead
        | Some result =>
            (* Return probe to original Z *)
            return_probe result false ;;
            (* Add to accumulator *)
            smoothing_loop n' (steps + result)
        end
  end.

(** [ComprehensiveDeltaStrategy::do_probe_at]: the flag and the value left in
    [int &steps]. *)
Definition do_probe_at (x y : float) : M (bool * Z) :=
  (* Move to location, corrected for probe offset (if any) *)
  s <- get ;;
  coordinated_move (Some (x + probe_offset_x (cds s))%Q)
                   (Some (y + probe_offset_y (cds s))%Q)
                   None (fast_feedrate (zprobe s)) false ;;
  '(ok, steps) <- smoothing_loop (Z.to_nat (probe_smoothing (cds s))) 0 ;;
  if negb ok then ret (false, steps)
  else
    (* Average *)
    if probe_smoothing (cds s) =? 0 then crash DivisionByZero
    else
      let steps := Z.quot steps (probe_smoothing (cds s)) in
      (* Sanity check *)
      if steps <? 100 then
        _printf "do_probe_at(): steps=%d - this is much too small - is probe_height high enough?\n" ;;
        ret (false, steps)
      else
        modify (record_probe steps) ;;
        ret (true, steps).

(** [ComprehensiveDeltaStrategy::find_bed_center_height] *)
Definition find_bed_center_height : M bool :=
  (* Start from the top *)
  home ;;
  s <- get ;;
  (if feqb (probe_from_height (cds s)) (-1)%Q then
     (* Fast the first time *)
     _printf "[BH] First time through, so I need to determine the probe-from height.\n" ;;
     r <- run_probe_at true ;;
     match snd r with
     | None => crash UninitialisedRead
     | Some steps =>
         (* Probe from height = total measured height - height required for
            the probe not to drag *)
         modify (fun s =>
           on_cds (with_probe_from_height
             (zsteps_to_mm (inject_Z steps) s - probe_height (zprobe s))%Q) s) ;;
         home
     end
   else
     _printf "[BH] Not the first time through - probe_from_height = %1.3f\n") ;;
  (* Move to probe_from_height (relative move!) *)
  s <- get ;;
  coordinated_move None None (Some (- probe_from_height (cds s))%Q)
                   (fast_feedrate (zprobe s)) true ;;
  (* Move to probing offset (also relative) *)
  coordinated_move (Some (probe_offset_x (cds s))) (Some (probe_offset_y (cds s)))
                   None (fast_feedrate (zprobe s)) true ;;
  (* Now, slowly probe the depth *)
  r <- run_probe_at false ;;
  if negb (fst r) then ret false
  else
    match snd r with
    | None => crash UninitialisedRead
    | Some steps =>
        modify (fun s =>
          on_cds (with_mm_probe_height_to_trigger (zsteps_to_mm (inject_Z steps) s)) s) ;;
        _printf "[BH] probe_from_height (%1.3f) + mm_PHTT (%1.3f) + probe_offset_z (%1.3f)\n" ;;
        (* Set final bed height *)
        modify (on_cds (fun c =>
          with_bed_height (probe_from_height c + mm_probe_height_to_trigger c
                          + probe_offset_z c)%Q c)) ;;
        _printf "[BH] Bed height set to %1.3f\n" ;;
        (* Tell the machine about the new height *)
        _printf "[BH] Setting bed height: " ;;
        (* _printf(cmd): the command, which snprintf built from this format *)
        _printf "M665 Z%1.5f" ;;
        _printf "\n" ;;
        s <- get ;;
        modify (issue (BedHeightLine (bed_height (cds s)))) ;;
        wait_for_empty_queue ;;
        ret true
    end.

(** [ComprehensiveDeltaStrategy::prepare_to_probe] *)
Definition prepare_to_probe : M unit :=
  (* Determine bed_height, probe_from_height, and probe_height_to_trigger *)
  s <- get ;;
  (if feqb (probe_from_height (cds s)) (-1)%Q
   then find_bed_center_height ;; ret tt else ret tt) ;;
  (* Home the machine *)
  home ;;
  (* Do a relative move to an elevation of probe_height *)
  s <- get ;;
  coordinated_move None None (Some (- probe_from_height (cds s))%Q)
                   (fast_feedrate (zprobe s)) true.

(** *** Endstop leveling *)

Definition Towers : Type := float * float * float * float * float * float.

(** Probe the base of the X tower, of the Y tower and of the Z tower;
    [None] when one of the probes fails (the callers return false). *)
Definition probe_tower_steps (t : Towers) : M (option (Z * Z * Z)) :=
  let '(t1x, t1y, t2x, t2y, t3x, t3y) := t in
  '(ok, dx) <- do_probe_at t1x t1y ;;
  if negb ok then ret None else
  '(ok, dy) <- do_probe_at t2x t2y ;;
  if negb ok then ret None else
  '(ok, dz) <- do_probe_at t3x t3y ;;
  if negb ok then ret None else
  ret (Some (dx, dy, dz)).

Definition probe_tower_depths (t : Towers) : M (option (float * float * float)) :=
  let '(t1x, t1y, t2x, t2y, t3x, t3y) := t in
  '(ok, s1) <- do_probe_at t1x t1y ;;
  if negb ok then ret None else
  t1z <- gets (zsteps_to_mm (inject_Z s1)) ;;
  '(ok, s2) <- do_probe_at t2x t2y ;;
  if negb ok then ret None else
  t2z <- gets (zsteps_to_mm (inject_Z s2)) ;;
  '(ok, s3) <- do_probe_at t3x t3y ;;
  if negb ok then ret None else
  t3z <- gets (zsteps_to_mm (inject_Z s3)) ;;
  ret (Some (t1z, t2z, t3z)).

(** The main endstop leveling loop of [calibrate_delta_endstops], with [n]
    iterations left, followed by the code after the loop.  [mm] is the
    min/max pair of the depths probed last. *)
Fixpoint endstop_leveling_loop (n : nat) (gcode : option Gcode) (target : float)
         (t : Towers) (trimx trimy trimz trimscale last_deviation : float)
         (mm : float * float) : M bool :=
  match n with
  | O =>
      if fltb target (snd mm - fst mm)%Q then
        _printf "[ES] Trim did not resolve to within required parameters: delta %f\n" ;;
        ret false
      else
        (* Flush serial buffer *)
        call_event_ON_IDLE ;;
        ret true
  | S n' =>
      (* Flush serial buffer *)
      call_event_ON_IDLE ;;
      (* Tell the robot what the new trim is *)
      st <- gcode_stream gcode ;;
      ok <- set_trim trimx trimy trimz st ;;
      if negb ok then ret false else
      (* Move probe to start position at probe_from_height millimeters above
         the bed (relative move) *)
      prepare_to_probe ;;
      r <- probe_tower_depths t ;;
      match r with
      | None => ret false
      | Some (t1z, t2z, t3z) =>
          (* Is this part of the calibration good enough to move on? *)
          let mm := minmax3 t1z t2z t3z in
          let deviation := (snd mm - fst mm)%Q in
          if fltb target deviation then
            (* Not close enough yet, adjust trim on all towers *)
            _printf "[ES] ~ Towers still out of spec by %1.3f\n" ;;
            (* If things stayed the same or got worse, we reduce the trimscale *)
            trimscale <-
              (if fleb last_deviation deviation
                  && fleb (9 # 10) (trimscale * (95 # 100))%Q
               then
                 _printf "[ES] ~ Deviation same or worse vs. last time - reducing trim scale to %1.3f\n" ;;
                 ret (trimscale * (9 # 10))%Q
               else ret trimscale) ;;
            let last_deviation := deviation in
            (* Set all towers' trims *)
            endstop_leveling_loop n' gcode target t
              (trimx + (fst mm - t1z) * trimscale)%Q
              (trimy + (fst mm - t2z) * trimscale)%Q
              (trimz + (fst mm - t3z) * trimscale)%Q
              trimscale last_deviation mm
          else
            _printf "[ES] Trim set to within required paramters: want %1.3f, difference is %1.3f\n" ;;
            (* Correct the downward creep issue by normalizing the trim offsets. *)
            let mm := minmax3 trimx trimy trimz in
            _printf "[ES] Trim is {%1.3f, %1.3f, %1.3f} - normalizing... " ;;
            let trimx := (trimx - snd mm)%Q in
            let trimy := (trimy - snd mm)%Q in
            let trimz := (trimz - snd mm)%Q in
            (* Tell robot about new trim *)
            st <- gcode_stream gcode ;;
            ok <- set_trim trimx trimy trimz st ;;
            if negb ok then
              _printf "[ES] ERROR: Couldn't normalize trim\n" ;;
              ret false
            else
              _printf "[ES] New values: {%1.3f, %1.3f, %1.3f}.\n \n" ;;
              ret true
      end
  end.

(** The "keep" switch and the target of an endstop calibration request. *)
Definition endstops_keep (gcode : option Gcode) : bool :=
  match gcode with
  | Some gc => has_letter gc "K"
  | None => false
  end.

Definition calibration_target (gcode : option Gcode) : float :=
  match gcode with
  | Some gc => if has_letter gc "I" then get_value gc "I" else (3 # 100)
  | None => (3 # 100)
  end.

(** [ComprehensiveDeltaStrategy::calibrate_delta_endstops]: level X/Y/Z tower
    endstops. *)
Definition calibrate_delta_endstops (gcode : option Gcode) : M bool :=
  let keep := endstops_keep gcode in
  let target := calibration_target gcode in   (* override default target *)
  (match gcode with
   | Some gc =>
       if has_letter gc "J"     (* override default probe radius *)
       then modify (on_cds (with_probe_radius (get_value gc "J")))
       else ret tt
   | None => ret tt
   end) ;;
  _printf " \n" ;;
  _printf "[ES] Calibrating endstops: target %fmm, radius %fmm\n" ;;
  (* How much to try adjusting the trim each time *)
  let trimscale := (13 # 10)%Q in
  (* Set probe points *)
  s <- get ;;
  let t := getCoordinates (probe_radius (cds s)) in
  (* Set up trim *)
  trim <-
    (if negb keep then
       (* Zero trim values *)
       st <- gcode_stream gcode ;;
       ok <- set_trim 0 0 0 st ;;
       if negb ok then ret None else ret (Some (0%Q, 0%Q, 0%Q))
     else
       (* Get current trim, and continue from that *)
       cur <- get_trim ;;
       match cur with
       | Some cur =>
           _printf "[ES] Current Trim: x=%1.3f, y=%1.3f, z=%1.3f\r\n" ;;
           ret (Some cur)
       | None =>
           _printf "[ES] Couldn't get current trim. Are endstops enabled?\n" ;;
           ret None
       end) ;;
  match trim with
  | None => ret false
  | Some (trimx, trimy, trimz) =>
      (* Find bed height and move probe into position *)
      prepare_to_probe ;;
      (* Get initial probes *)
      r <- probe_tower_depths t ;;
      match r with
      | None => ret false
      | Some (t1z, t2z, t3z) =>
          (* Is the trim already within spec? If so, we're done *)
          let mm := minmax3 t1z t2z t3z in
          if fleb (snd mm - fst mm)%Q target then
            _printf "[ES] Trim already set within required parameters: difference = %f\n" ;;
            ret true
          else
            _printf "[ES] Towers out of spec by %1.3f - will need to level the endstops\n" ;;
            let last_deviation := (snd mm - fst mm)%Q in
            (* Set all towers' trims to worst case (we need to start with
               negative trim; positive = belt grinding!) *)
            endstop_leveling_loop 20 gcode target t
              (trimx + (fst mm - t1z) * trimscale)%Q
              (trimy + (fst mm - t2z) * trimscale)%Q
              (trimz + (fst mm - t3z) * trimscale)%Q
              trimscale last_deviation mm
      end
  end.

(** *** Delta radius *)

(** Modelled from the spec: [calibrate_delta_radius] tests [abs(d) <= target];
    which [abs] the translation unit sees depends on headers that are not
    among the files.  The spec reads the test as [|d| <= target]. *)
Definition abs_f (d : float) : float := Qabs d.

(** The loop of [calibrate_delta_radius] with [n] iterations left, followed by
    the [return true] after the loop. *)
Fixpoint delta_radius_loop (n : nat) (target cmm : float) (t : Towers)
         (delta_radius : float) (options : list (ascii * float)) : M bool :=
  match n with
  | O => ret true
  | S n' =>
      (* probe t1, t2, t3 and get average, but use coordinated moves, probing
         center won't change *)
      r <- probe_tower_steps t ;;
      match r with
      | None => ret false
      | Some (dx, dy, dz) =>
          (* now look at the difference and reduce it by adjusting delta radius *)
          m <- gets (zsteps_to_mm (inject_Z (dx + dy + dz) / 3)%Q) ;;
          let d := (cmm - m)%Q in
          _printf "[DR] C-%d Z-ave:%1.4f delta: %1.3f\n" ;;
          if fleb (abs_f d) target then
            ret true   (* break: resolution of success *)
          else
            (* increase delta radius to adjust for low center
               decrease delta radius to adjust for high center *)
            let delta_radius := (delta_radius + d * (25 # 10))%Q in
            (* set the new delta radius *)
            let options := options_set "R" delta_radius options in
            set_optional options ;;
            _printf "Setting delta radius to: %1.4f\n" ;;
            prepare_to_probe ;;
            (* flush the output *)
            call_event_ON_IDLE ;;
            delta_radius_loop n' target cmm t delta_radius options
      end
  end.

(** [ComprehensiveDeltaStrategy::calibrate_delta_radius]: probe edges to get
    outer positions, then probe center; modify the delta radius until center
    and X converge. *)
Definition calibrate_delta_radius (gcode : option Gcode) : M bool :=
  has_I <- gcode_has_letter gcode "I" ;;
  target <- (if has_I then gcode_get_value gcode "I" else ret (3 # 100)) ;;
  has_J <- gcode_has_letter gcode "J" ;;
  (if has_J then
     j <- gcode_get_value gcode "J" ;;
     modify (on_cds (with_probe_radius j))
   else ret tt) ;;
  _printf "[DR] Calibrating delta radius: target %f, radius %f\n" ;;
  (* get probe points *)
  s <- get ;;
  let t := getCoordinates (probe_radius (cds s)) in
  (* Determine printer height and move to probing height *)
  prepare_to_probe ;;
  (* probe center to get reference point at this Z height *)
  '(ok, dc) <- do_probe_at 0 0 ;;
  if negb ok then ret false else
  _printf "[DR] Center Z: %1.3fmm (%d steps)\n" ;;
  cmm <- gets (zsteps_to_mm (inject_Z dc)) ;;
  (* get current delta radius *)
  '(found, options) <- get_optional [] ;;
  let delta_radius := if found then options_get "R" options else 0%Q in
  if feqb delta_radius 0 then
    _printf "[DR] ERROR: Delta radius not set in config! Is this a delta?\n" ;;
    ret false
  else
    (* options.clear() *)
    delta_radius_loop 10 target cmm t delta_radius [].

(** [ComprehensiveDeltaStrategy::require_clean_geometry].  The two
    calibrations are called without an argument, that is, with the null
    G-code. *)
Definition require_clean_geometry : M bool :=
  s <- get ;;
  (if geom_dirty (cds s) then
     _printf "[EC] Geometry has been changed since last endstop/delta radius calibration - redoing.\n" ;;
     calibrate_delta_endstops None ;;
     calibrate_delta_radius None ;;
     modify (on_cds (with_geom_dirty false))
   else ret tt) ;;
  ret true.

(** *** Repeatability test and depth map *)

(** The geometry getters: each refreshes the member [options] from the arm
    solution; the values read are only printed. *)
Definition refresh_options : M bool :=
  s <- get ;;
  '(ok, o) <- get_optional (options (cds s)) ;;
  modify (on_cds (with_options o)) ;;
  ret ok.

Definition get_delta_basic_geometry : M bool := refresh_options.
Definition get_tower_radius_offsets : M bool := refresh_options.
Definition get_tower_angle_offsets : M bool := refresh_options.
Definition get_tower_arm_offsets : M bool := refresh_options.

(** [ComprehensiveDeltaStrategy::print_geometry] *)
Definition print_geometry : M unit :=
  get_delta_basic_geometry ;;
  get_tower_radius_offsets ;;
  get_tower_angle_offsets ;;
  get_tower_arm_offsets ;;
  _printf "[PG] Basic - Arm length: %1.3f  Radius: %1.3f\n" ;;
  _printf "[PG] Radius offsets (ABC): {%1.3f, %1.3f, %1.3f}\n" ;;
  _printf "[PG]  Angle offsets (DEF): {%1.3f, %1.3f, %1.3f}\n" ;;
  _printf "[PG]    Arm offsets (TUV): {%1.3f, %1.3f, %1.3f}\n".

(** [ComprehensiveDeltaStrategy::save_depth_map]: copy [cur_depth_map] to
    [last_depth_map] and zero all of [cur_depth_map]. *)
Definition save_depth_map : M unit :=
  modify (on_cds (fun c =>
    with_cur_depth_map (map (fun _ => 0%Q) (cur_depth_map c))
      (with_last_depth_map (cur_depth_map c) c))).

(** [cur_depth_map[i] = v] *)
Fixpoint store_at {A} (i : nat) (v : A) (l : list A) : list A :=
  match l, i with
  | [], _ => []
  | _ :: l', O => v :: l'
  | x :: l', S i' => x :: store_at i' v l'
  end.

(** The loop of [depth_map_print_surface] over the test points [i .. 11];
    [lines] holds the counters of the rows still to print, [first_row] tells
    whether [line == 0]. *)
Fixpoint depth_map_loop (n : nat) (i : nat) (origin_steps : Z)
         (lines : list Z) (first_row : bool) : M bool :=
  match n with
  | O => ret true
  | S n' =>
      s <- get ;;
      let p := nth i (test_point (cds s)) (0%Q, 0%Q) in
      '(ok, steps) <- do_probe_at (fst p) (snd p) ;;
      if negb ok then
        _printf "[DM] do_probe_at() returned false.\n" ;;
        ret false
      else
        modify (on_cds (fun c =>
          with_cur_depth_map
            (store_at i (inject_Z (origin_steps - steps)) (cur_depth_map c)) c)) ;;
        (if first_row then _printf "[DM] " else ret tt) ;;
        _printf " %1.3f " ;;
        '(lines, first_row) <-
          (match lines with
           | c :: rest =>
               if c - 1 <=? 0
               then _printf "\n[DM] " ;; ret (rest, false)
               else ret ((c - 1) :: rest, first_row)
           | [] => ret (lines, first_row)
           end) ;;
        (if Nat.eqb i 5 then _printf "CTR: 0\n[DM] " else ret tt) ;;
        flush ;;
        depth_map_loop n' (S i) origin_steps lines first_row
  end.

(** [ComprehensiveDeltaStrategy::depth_map_print_surface] *)
Definition depth_map_print_surface (display_results : bool) : M bool :=
  require_clean_geometry ;;
  print_geometry ;;
  (* Measure depth from probe_from_height at bed center *)
  prepare_to_probe ;;
  '(ok, origin_steps) <- do_probe_at 0 0 ;;
  if negb ok then ret false else
  _printf "[DM] Steps to bed surface at center: %d (%1.3f mm)\n" ;;
  (* Measure depth from probe_height at all test points *)
  ok <- depth_map_loop 12 0 origin_steps [1; 3; 2; 2; 3; 1] true ;;
  if negb ok then ret false else
  flush ;;
  (* Do stats *)
  _printf "Deviation: Best = %1.3f, Worst = %1.3f\n \n" ;;
  ret true.

(** [ComprehensiveDeltaStrategy::heuristic_calibration]: the main calibration
    loop is an empty shell. *)
Definition heuristic_calibration : M bool :=
  (* Collect initial surface map and save it to last_depth_map[] for later
     comparison *)
  depth_map_print_surface true ;;
  save_depth_map ;;
  ret true.

(** The sampling loop of [measure_probe_repeatability].  A sample above 50000
    steps is discarded and taken again, so the number of iterations is not
    bounded by the number of samples: [fuel] bounds it in the embedding.
    The result is the list of the samples kept, or [None] when a probe
    failed. *)
Fixpoint sampling_loop (fuel : nat) (todo : nat) (do_eccentricity_test : bool)
         (samples : list Z) : M (option (list Z)) :=
  match todo with
  | O => ret (Some samples)
  | S todo' =>
      match fuel with
      | O => fun _ _ => Starved
      | S fuel' =>
          s <- get ;;
          let xDeg := (866025 # 1000000)%Q in
          let yDeg := (5 # 10)%Q in
          let radius := 10%Q in
          let fast := fast_feedrate (zprobe s) in
          (if do_eccentricity_test then
             (* Move towards X *)
             coordinated_move (Some (- xDeg * radius)%Q) (Some (- yDeg * radius)%Q) None fast false ;;
             coordinated_move (Some 0%Q) (Some 0%Q) None fast false ;;
             (* Move towards Y *)
             coordinated_move (Some (xDeg * radius)%Q) (Some (- yDeg * radius)%Q) None fast false ;;
             coordinated_move (Some 0%Q) (Some 0%Q) None fast false ;;
             (* Move towards Z *)
             coordinated_move (Some 0%Q) (Some radius) None fast false ;;
             coordinated_move (Some 0%Q) (Some 0%Q) None fast false
           else ret tt) ;;
          (* Probe at center *)
          '(ok, steps) <- do_probe_at 0 0 ;;
          if ok then
            _printf "[RT] Test %d of %d: Measured %d steps (%1.3f mm)\n" ;;
            if 50000 <? steps then
              _printf "[RT] Discarding result and trying again. Check probe_height.\n" ;;
              sampling_loop fuel' todo do_eccentricity_test samples
            else
              sampling_loop fuel' todo' do_eccentricity_test (samples ++ [steps])
          else
            _printf "[RT] do_probe_at() returned false. Check probe_height.\n" ;;
            ret None
      end
  end.

(** [ComprehensiveDeltaStrategy::measure_probe_repeatability]; mean and
    standard deviation are only printed and are left out. *)
Definition measure_probe_repeatability (gcode : option Gcode) : M bool :=
  s <- get ;;
  let want_acceleration :=
    match gcode with
    | Some gc =>
        if has_letter gc "A" then
          let a := get_value gc "A" in
          if fltb a 1 || fltb 1000 a then probe_acceleration (cds s) else a
        else probe_acceleration (cds s)
    | None => probe_acceleration (cds s)
    end in
  let do_eccentricity_test :=
    match gcode with Some gc => negb (has_letter gc "E") | None => true end in
  let nSamples :=
    match gcode with
    | Some gc => if has_letter gc "S" then f2iz (get_value gc "S") else 10
    | None => 10
    end in
  (* Process G-code params, if any *)
  (match gcode with
   | Some gc =>
       (if has_letter gc "B"
        then modify (on_zprobe (with_debounce_count (f2iz (get_value gc "B"))))
        else ret tt) ;;
       (if has_letter gc "D"
        then setDecelerateOnTrigger (negb (feqb (get_value gc "D") 0))
        else ret tt) ;;
       (if has_letter gc "P"
        then modify (on_cds (with_probe_smoothing (f2uiz (get_value gc "P"))))
        else ret tt) ;;
       (if has_letter gc "U"
        then modify (on_zprobe (with_fast_feedrate (get_value gc "U")))
        else ret tt) ;;
       (if has_letter gc "V"
        then modify (on_zprobe (with_slow_feedrate (get_value gc "V")))
        else ret tt)
   | None => ret tt
   end) ;;
  if (match gcode with Some gc => has_letter gc "S" | None => false end)
     && (30 <? nSamples) then
    _printf "[RT] Too many samples!\n" ;;
    ret false
  else
    modify (on_cds (fun c =>
      if probe_smoothing c <? 1 then with_probe_smoothing 1 c else c)) ;;
    modify (on_cds (fun c =>
      if 10 <? probe_smoothing c then with_probe_smoothing 10 c else c)) ;;
    (* Hi *)
    _printf "[RT]    Repeatability test: %d samples (S)\n" ;;
    _printf "[RT]      Acceleration (A): %1.1f\n" ;;
    _printf "[RT]    Debounce count (B): %d\n" ;;
    _printf "[RT]  Smooth decel (D0|D1): %s\n" ;;
    _printf "[RT] Eccentricity test (E): %s\n" ;;
    _printf "[RT]   Probe smoothing (P): %d\n" ;;
    _printf "[RT]             Feedrates: Fast (U) = %1.3f, Slow (V) = %1.3f\n" ;;
    _printf "[RT] 1 step = %1.5f mm.\n" ;;
    (* Move into position, after safely determining the true bed height *)
    prepare_to_probe ;;
    (* Slow down the acceleration *)
    save_acceleration ;;
    set_acceleration want_acceleration ;;
    env <- (fun env s => Done env env s) ;;
    r <- sampling_loop (S (List.length env)) (Z.to_nat nSamples)
                       do_eccentricity_test [] ;;
    match r with
    | None => ret false
    | Some samples =>
        (* Range *)
        let lo := fold_left (fun a x => if x <? a then x else a) samples 9999 in
        let hi := fold_left (fun a x => if a <? x then x else a) samples 0 in
        rep <- gets (zsteps_to_mm (inject_Z (hi - lo))) ;;
        (* Print stats *)
        _printf "[RT] Stats:\n" ;;
        _printf "[RT]   range: %d steps (%1.4f mm)\n" ;;
        _printf "[RT]      mu: %1.3f steps (%1.3f mm)\n" ;;
        _printf "[RT]   sigma: %1.3f steps (%1.3f mm)\n" ;;
        _printf "[RT] Repeatability: %1.4f (add a little to be sure)\n" ;;
        (* Print evaluation *)
        _printf "[RT] This score is " ;;
        (if fltb rep (15 # 1000) then _printf "very good!"
         else if fleb rep (3 # 100) then _printf "average."
         else if fleb rep (4 # 100) then _printf "borderline."
         else _printf "UNUSABLE! Please fix!") ;;
        _printf "\n \n" ;;
        (* Pop acceleration *)
        restore_acceleration ;;
        ret true
    end.

(** *** Configuration and G-code dispatch of the strategy *)

(** The configuration keys the two modules read; [None] is a key that is not
    set, for which [by_default] supplies the value. *)
Record Config : Type := mkConfig {
  cfg_probe_pin : option bool;   (* [Some inverting], or not connected ("nc") *)
  cfg_debounce_count : option float;
  cfg_decelerate_runout : option float;
  cfg_decelerate_on_trigger : option bool;
  cfg_leveling_strategies : list (option Strategy * bool);
  cfg_delta_homing : option bool;
  cfg_rdelta_homing : option bool;
  cfg_probe_height : option float;
  cfg_slow_feedrate : option float;
  cfg_fast_feedrate : option float;
  cfg_return_feedrate : option float;
  cfg_reverse_z : option bool;
  cfg_gamma_max : option float;
  cfg_cds_probe_radius : option float;
  cfg_zprobe_probe_radius : option float;
  cfg_probe_smoothing : option float;
  cfg_probe_acceleration : option float;
  cfg_probe_offset_x : option float;
  cfg_probe_offset_y : option float;
  cfg_probe_offset_z : option float
}.

Definition by_default {A} (d : A) (v : option A) : A :=
  match v with Some a => a | None => d end.

(** [ComprehensiveDeltaStrategy::handleConfig].  The table of test points is
    filled from [probe_radius] through an enumeration declared in a header
    that is not among the files; the embedding leaves the table as it is. *)
Definition handleConfig (cfg : Config) : M bool :=
  let r := by_default (-1)%Q (cfg_cds_probe_radius cfg) in
  let r := if feqb r (-1) then by_default 100%Q (cfg_zprobe_probe_radius cfg) else r in
  let ps := f2iz (by_default 1%Q (cfg_probe_smoothing cfg)) in
  let ps := if ps <? 1 then 1 else ps in
  let ps := if 10 <? ps then 10 else ps in
  modify (on_cds (fun c =>
    {| (* a value that find_bed_center_height() will know means it needs to
          be initialized *)
       probe_from_height := (-1)%Q;
       (* Set the dirty flag, so we know we have to calibrate the endstops
          and delta radius *)
       geom_dirty := true;
       (* Zero out the depth map arrays *)
       cur_depth_map := repeat 0%Q 12;
       last_depth_map := repeat 0%Q 12;
       probe_radius := r;
       probe_smoothing := ps;
       probe_acceleration := by_default 200%Q (cfg_probe_acceleration cfg);
       probe_offset_x := by_default 0%Q (cfg_probe_offset_x cfg);
       probe_offset_y := by_default 0%Q (cfg_probe_offset_y cfg);
       probe_offset_z := by_default 0%Q (cfg_probe_offset_z cfg);
       test_point := test_point c;
       saved_acceleration := saved_acceleration c;
       mm_probe_height_to_trigger := mm_probe_height_to_trigger c;
       bed_height := bed_height c;
       options := options c |})) ;;
  ret true.

(** [ComprehensiveDeltaStrategy::handleGcode] *)
Definition handleGcode (gcode : Gcode) : M bool :=
  if has_g gcode then
    (* G code processing *)
    if g gcode =? 29 then
      (* Test the Z-probe for repeatability *)
      measure_probe_repeatability (Some gcode) ;;
      ret true
    else if g gcode =? 31 then
      (* Depth-map the bed and display the results *)
      _printf "Depth-mapping the bed. Please stand by...\n" ;;
      heuristic_calibration ;;
      ret true
    else if g gcode =? 32 then
      (* Auto calibration for delta, Z bed mapping for cartesian *)
      (* first wait for an empty queue i.e. no moves left *)
      wait_for_empty_queue ;;
      ok <- (if negb (has_letter gcode "R")
             then calibrate_delta_endstops (Some gcode) else ret true) ;;
      if negb ok then
        _printf "Calibration failed to complete, probe not triggered\n" ;;
        ret true
      else
        ok <- (if negb (has_letter gcode "E")
               then calibrate_delta_radius (Some gcode) else ret true) ;;
        if negb ok then
          _printf "Calibration failed to complete, probe not triggered\n" ;;
          ret true
        else
          _printf "Basic calibration complete, save settings with M500\n \n" ;;
          ret true
    else ret false
  else if has_m gcode then
    (* If the geometry is modified externally, we set the dirty flag (but not
       for Z - that requires no recalibration) *)
    (if m gcode =? 665 then
       if existsb (has_letter gcode) (list_ascii_of_string "ABCDEFTUVLR")
       then modify (on_cds (with_geom_dirty true))
       else ret tt
     else ret tt) ;;
    ret false
  else ret false.

(** ** ZProbe: configuration and G-code dispatch *)

(** [s->handleGcode(gcode)] for a loaded strategy.  A strategy whose source
    is not available is represented by whether it claims the G-code. *)
Definition strategy_handleGcode (k : Strategy) (gcode : Gcode) : M bool :=
  match k with
  | ComprehensiveDeltaStrategy => handleGcode gcode
  | _ =>
      s <- get ;;
      if external_handles s k gcode
      then modify (issue (ExternalStrategy k)) ;; ret true
      else ret false
  end.

(** "find the first strategy to handle the gcode" *)
Fixpoint first_strategy (l : list Strategy) (gcode : Gcode) : M bool :=
  match l with
  | [] => ret false
  | k :: l' =>
      handled <- strategy_handleGcode k gcode ;;
      if handled then ret true else first_strategy l' gcode
  end.

(** [ZProbe::probe_XYZ]: special way to probe in the X or Y or Z direction
    using planned moves. *)
Definition probe_XYZ (gcode : Gcode) (axis : Axis) : M unit :=
  (* enable the probe checking in the timer *)
  modify (on_zprobe (with_probing true)) ;;
  modify (on_zprobe (with_probe_detected false)) ;;
  modify (on_kernel (with_disable_segmentation true)) ;;
  (* get probe feedrate if specified *)
  s <- get ;;
  let rate := if has_letter gcode "F" then (get_value gcode "F" * 60)%Q
              else slow_feedrate (zprobe s) in
  (* do a regular move which will stop as soon as the probe is triggered, or
     the distance is reached *)
  (match axis with
   | X_AXIS => coordinated_move (Some (get_value gcode "X")) (Some 0%Q) (Some 0%Q) rate true
   | Y_AXIS => coordinated_move (Some 0%Q) (Some (get_value gcode "Y")) (Some 0%Q) rate true
   | Z_AXIS => coordinated_move (Some 0%Q) (Some 0%Q) (Some (get_value gcode "Z")) rate true
   end) ;;
  (* disable probe checking *)
  modify (on_zprobe (with_probing false)) ;;
  modify (on_kernel (with_disable_segmentation false)) ;;
  s <- get ;;
  (* get machine position from the actuator position using FK *)
  let '(px, py, pz) :=
    actuator_to_cartesian s
      (get_current_position (STEPPER X_AXIS s),
       get_current_position (STEPPER Y_AXIS s),
       get_current_position (STEPPER Z_AXIS s)) in
  let probeok := probe_detected (zprobe s) in
  (* print results using the GRBL format *)
  stream_printf (stream gcode) "[PRB:%1.3f,%1.3f,%1.3f:%d]\n" ;;
  modify (issue (SetLastProbePosition px py pz probeok)) ;;
  if negb probeok && (subcode gcode =? 2) then
    (* issue error if probe was not triggered and subcode == 2 *)
    stream_printf (stream gcode) "ALARM:Probe fail\n" ;;
    modify (issue HaltEvent) ;;
    modify (on_kernel (with_halted true))
  else if probeok then
    (* if the probe stopped the move we need to correct the last_milestone
       as it did not reach where it thought *)
    modify (issue ResetPositionFromActuators)
  else ret tt.

(** The strategies [on_config_reload] loads for the enabled modules of the
    leveling-strategy section. *)
Fixpoint load_strategies (cfg : Config) (modules : list (option Strategy * bool))
  : M unit :=
  match modules with
  | [] => ret tt
  | (cs, enabled) :: rest =>
      (if enabled then
         match cs with
         | Some k =>
             modify (on_zprobe (fun z =>
               with_strategies (strategies z ++ [k]) z)) ;;
             (* this->strategies.back()->handleConfig() *)
             match k with
             | ComprehensiveDeltaStrategy => handleConfig cfg ;; ret tt
             | _ => ret tt
             end
         | None => ret tt
         end
       else ret tt) ;;
      load_strategies cfg rest
  end.

(** [ZProbe::on_config_reload] *)
Definition on_config_reload (cfg : Config) : M unit :=
  modify (on_zprobe (fun z =>
    {| pin_connected := match cfg_probe_pin cfg with Some _ => true | None => false end;
       pin_inverting := by_default false (cfg_probe_pin cfg);
       invert_override := invert_override z;
       debounce_count := f2iz (by_default 0%Q (cfg_debounce_count cfg));
       decelerate_runout := by_default (-1)%Q (cfg_decelerate_runout cfg);
       decelerate_on_trigger := decelerate_on_trigger z;
       strategies := strategies z; is_delta := is_delta z;
       is_rdelta := is_rdelta z; probe_height := probe_height z;
       slow_feedrate := slow_feedrate z; fast_feedrate := fast_feedrate z;
       return_feedrate := return_feedrate z; reverse_z := reverse_z z;
       max_z := max_z z; running := running z; accelerating := accelerating z;
       current_feedrate := current_feedrate z; runout_steps := runout_steps z;
       steps_at_decel_end := steps_at_decel_end z;
       has_exceeded_runout := has_exceeded_runout z; probing := probing z;
       probe_detected := probe_detected z |})) ;;
  (* this won't let you turn on decel unless decelerate_runout is set *)
  setDecelerateOnTrigger (by_default false (cfg_decelerate_on_trigger cfg)) ;;
  (* get strategies to load *)
  load_strategies cfg (cfg_leveling_strategies cfg) ;;
  (* need to know if we need to use delta kinematics for homing *)
  let delta := by_default false (cfg_delta_homing cfg) in
  let rdelta := by_default false (cfg_rdelta_homing cfg) in
  (* default for backwards compatibility add DeltaCalibrationStrategy if a
     delta *)
  s <- get ;;
  let loaded :=
    match strategies (zprobe s) with
    | [] => if delta then [DeltaCalibrationStrategy] else []
    | l => l
    end in
  modify (on_zprobe (fun z =>
    {| pin_connected := pin_connected z; pin_inverting := pin_inverting z;
       invert_override := invert_override z;
       debounce_count := debounce_count z;
       decelerate_runout := decelerate_runout z;
       decelerate_on_trigger := decelerate_on_trigger z;
       strategies := loaded; is_delta := delta; is_rdelta := rdelta;
       probe_height := by_default 5%Q (cfg_probe_height cfg);
       slow_feedrate := by_default 5%Q (cfg_slow_feedrate cfg);
       fast_feedrate := by_default 100%Q (cfg_fast_feedrate cfg);
       return_feedrate := by_default 0%Q (cfg_return_feedrate cfg);
       reverse_z := by_default false (cfg_reverse_z cfg);
       max_z := by_default 500%Q (cfg_gamma_max cfg);
       running := running z; accelerating := accelerating z;
       current_feedrate := current_feedrate z; runout_steps := runout_steps z;
       steps_at_decel_end := steps_at_decel_end z;
       has_exceeded_runout := has_exceeded_runout z; probing := probing z;
       probe_detected := probe_detected z |})).

(** The G30 branch of [on_gcode_received]: simple Z probe. *)
Definition simple_probe (gcode : Gcode) : M unit :=
  (* first wait for an empty queue i.e. no moves left *)
  wait_for_empty_queue ;;
  s <- get ;;
  (* specify to probe in reverse direction *)
  let reverse := has_letter gcode "R" && negb (feqb (get_value gcode "R") 0) in
  let rate := if has_letter gcode "F" then (get_value gcode "F" / 60)%Q
              else slow_feedrate (zprobe s) in
  r <- run_probe rate (-1)%Q reverse ;;
  s <- get ;;
  let here ok :=
    SetLastProbePosition (get_current_position (STEPPER X_AXIS s))
                         (get_current_position (STEPPER Y_AXIS s))
                         (get_current_position (STEPPER Z_AXIS s)) ok in
  if fst r then
    match snd r with
    | None => crash UninitialisedRead
    | Some steps =>
        (* the result is in actuator coordinates and raw steps *)
        stream_printf (stream gcode) "Z:%1.4f C:%d\n" ;;
        (* set the last probe position to the current actuator units *)
        modify (issue (here true)) ;;
        (* move back to where it started, unless a Z is specified (and not a
           rotary delta) *)
        if has_letter gcode "Z" && negb (is_rdelta (zprobe s)) then
          (* set Z to the specified value, and leave probe where it is *)
          modify (issue (ResetAxisPosition (get_value gcode "Z") Z_AXIS))
        else
          (if decelerate_on_trigger (zprobe s)
           then return_probe (steps_at_decel_end (zprobe s)) reverse
           else return_probe steps reverse) ;;
          ret tt
    end
  else
    stream_printf (stream gcode) "ZProbe not triggered\n" ;;
    modify (issue (here false)).

(** [ZProbe::on_gcode_received] *)
Definition on_gcode_received (gcode : Gcode) : M unit :=
  s <- get ;;
  if has_g gcode && (29 <=? g gcode) && (g gcode <=? 32) then
    (* make sure the probe is defined and not already triggered before moving
       motors *)
    if negb (pin_connected (zprobe s)) then
      stream_printf (stream gcode) "ZProbe not connected.\n"
    else if pin_get s then
      stream_printf (stream gcode) "ZProbe triggered before move, aborting command.\n"
    else if g gcode =? 30 then
      simple_probe gcode
    else
      (* find the first strategy to handle the gcode *)
      handled <- first_strategy (strategies (zprobe s)) gcode ;;
      if handled then ret tt
      else stream_printf (stream gcode) "No strategy found to handle G%d\n"
  else if has_g gcode && (g gcode =? 38) then
    (* G38.2 Straight Probe with error, G38.3 straight probe without error *)
    if negb (subcode gcode =? 2) && negb (subcode gcode =? 3) then
      stream_printf (stream gcode) "error:Only G38.2 and G38.3 are supported\n"
    else if negb (pin_connected (zprobe s)) then
      (* make sure the probe is defined and not already triggered before
         moving motors *)
      stream_printf (stream gcode) "error:ZProbe not connected.\n"
    else if pin_get s then
      stream_printf (stream gcode) "error:ZProbe triggered before move, aborting command.\n"
    else
      (* first wait for an empty queue i.e. no moves left *)
      wait_for_empty_queue ;;
      (* turn off any compensation transform *)
      s <- get ;;
      let savect := compensationTransform (kernel s) in
      modify (on_kernel (with_compensationTransform None)) ;;
      (if has_letter gcode "X" then probe_XYZ gcode X_AXIS       (* probe in the X axis *)
       else if has_letter gcode "Y" then probe_XYZ gcode Y_AXIS  (* probe in the Y axis *)
       else if has_letter gcode "Z" then probe_XYZ gcode Z_AXIS  (* probe in the Z axis *)
       else stream_printf (stream gcode) "error:at least one of X Y or Z must be specified\n") ;;
      (* restore compensationTransform *)
      modify (on_kernel (with_compensationTransform savect))
  else if has_m gcode then
    (* M code processing here *)
    if m gcode =? 119 then
      stream_printf (stream gcode) " Probe: %d"
    else if m gcode =? 670 then
      (if has_letter gcode "S"
       then modify (on_zprobe (with_slow_feedrate (get_value gcode "S"))) else ret tt) ;;
      (if has_letter gcode "K"
       then modify (on_zprobe (with_fast_feedrate (get_value gcode "K"))) else ret tt) ;;
      (if has_letter gcode "R"
       then modify (on_zprobe (with_return_feedrate (get_value gcode "R"))) else ret tt) ;;
      (if has_letter gcode "Z"
       then modify (on_zprobe (with_max_z (get_value gcode "Z"))) else ret tt) ;;
      (if has_letter gcode "H"
       then modify (on_zprobe (with_probe_height (get_value gcode "H"))) else ret tt) ;;
      (if has_letter gcode "I" then
         (* NOTE this is temporary and toggles the invertion status of the pin *)
         modify (on_zprobe (with_invert_override (negb (feqb (get_value gcode "I") 0)))) ;;
         (* XOR so inverted pin is not inverted and vice versa *)
         modify (on_zprobe (fun z =>
           with_pin_inverting (negb (Bool.eqb (pin_inverting z) (invert_override z))) z))
       else ret tt)
    else
      (if (m gcode =? 500) || (m gcode =? 503) then   (* save / print settings *)
         stream_printf (stream gcode)
           ";Probe feedrates Slow/fast(K)/Return (mm/sec) max_z (mm) height (mm):\nM670 S%1.2f K%1.2f R%1.2f Z%1.2f H%1.2f\n"
       else ret tt) ;;
      (* fall through is intended so leveling strategies can handle m-codes too *)
      first_strategy (strategies (zprobe s)) gcode ;;
      ret tt
  else ret tt.

(** *** Test points *)

Definition Point : Type := (float * float)%type.

(** [ComprehensiveDeltaStrategy::midpoint]: the midpoint of a 2-D line. *)
Definition midpoint (first second : Point) : Point :=
  (((fst first + fst second) / 2)%Q, ((snd first + snd second) / 2)%Q).

(** The table of test points that [handleConfig] fills from [probe_radius],
    by the names of its enumeration (the numbering of the enumeration is in a
    header that is not among the files). *)
Record TestPoints : Type := mkTestPoints {
  TP_X : Point; TP_Y : Point; TP_Z : Point;
  TP_OPP_X : Point; TP_OPP_Y : Point; TP_OPP_Z : Point;
  TP_MID_XY : Point; TP_MID_YZ : Point; TP_MID_ZX : Point;
  TP_OPP_MID_XY : Point; TP_OPP_MID_ZX : Point; TP_OPP_MID_YZ : Point
}.

Definition init_test_points (probe_radius : float) : TestPoints :=
  (* Towers are 60 degrees off centerline. *)
  let xDeg := (866025 # 1000000)%Q in
  let yDeg := (5 # 10)%Q in
  (* Points at towers (this is simple quadrant stuff) *)
  let tp_x : Point := ((- xDeg * probe_radius)%Q, (- yDeg * probe_radius)%Q) in
  let tp_y : Point := ((xDeg * probe_radius)%Q, (- yDeg * probe_radius)%Q) in
  let tp_z : Point := (0%Q, probe_radius) in
  (* Points opposite towers *)
  let tp_opp_x : Point := ((xDeg * probe_radius)%Q, (yDeg * probe_radius)%Q) in
  let tp_opp_y : Point := ((- xDeg * probe_radius)%Q, (yDeg * probe_radius)%Q) in
  let tp_opp_z : Point := (0%Q, (- probe_radius)%Q) in
  (* Midpoints between towers *)
  let tp_mid_xy := midpoint tp_x tp_y in
  let tp_mid_yz := midpoint tp_y tp_z in
  let tp_mid_zx := midpoint tp_z tp_x in
  {| TP_X := tp_x; TP_Y := tp_y; TP_Z := tp_z;
     TP_OPP_X := tp_opp_x; TP_OPP_Y := tp_opp_y; TP_OPP_Z := tp_opp_z;
     TP_MID_XY := tp_mid_xy; TP_MID_YZ := tp_mid_yz; TP_MID_ZX := tp_mid_zx;
     (* Opposite midpoints between towers *)
     TP_OPP_MID_XY := (fst tp_mid_xy, (- snd tp_mid_xy)%Q);
     TP_OPP_MID_ZX := ((fst tp_opp_x / 2)%Q, (- snd tp_opp_x / 2)%Q);
     TP_OPP_MID_YZ := ((fst tp_opp_y / 2)%Q, (- snd tp_opp_y / 2)%Q) |}.

(** ** Concrete machines

    A cartesian-or-delta bench machine with 100 steps per millimetre on every
    actuator and the default configuration of [on_config_reload], on which
    the definitions are evaluated. *)

Definition bench_motor : StepperMotor :=
  {| moving := false; direction := false; stepped := 0; steps_to_move := 0;
     steps_per_second := 0; steps_per_mm := 100; minimum_step_rate := 20;
     current_position_steps := 0; moved_last_block := false |}.

Definition bench_zprobe : ZProbe :=
  {| pin_connected := true; pin_inverting := false; invert_override := false;
     debounce_count := 0; decelerate_runout := (-1); decelerate_on_trigger := false;
     strategies := [ComprehensiveDeltaStrategy]; is_delta := true; is_rdelta := false;
     probe_height := 5; slow_feedrate := 5; fast_feedrate := 100;
     return_feedrate := 0; reverse_z := false; max_z := 500;
     running := false; accelerating := true; current_feedrate := 0;
     runout_steps := 0; steps_at_decel_end := 0; has_exceeded_runout := false;
     probing := false; probe_detected := false |}.

Definition bench_cds : Cds :=
  {| probe_from_height := (-1); geom_dirty := true;
     cur_depth_map := repeat 0%Q 12; last_depth_map := repeat 0%Q 12;
     probe_radius := 100; probe_smoothing := 1; probe_acceleration := 200;
     probe_offset_x := 0; probe_offset_y := 0; probe_offset_z := 0;
     test_point := repeat (0%Q, 0%Q) 12; saved_acceleration := 0;
     mm_probe_height_to_trigger := 0; bed_height := 0; options := [] |}.

Definition bench_kernel : Kernel :=
  {| halted := false; pin_level := false; acceleration_ticks_per_second := 1000;
     acceleration := 500; z_acceleration := 500;
     compensationTransform := None; disable_segmentation := false;
     arm_options := Some [("L"%char, 250%Q); ("R"%char, 125%Q)];
     endstop_trim := Some (0%Q, 0%Q, 0%Q) |}.

Definition bench : Machine :=
  {| zprobe := bench_zprobe; cds := bench_cds;
     actuators := {| act_x := bench_motor; act_y := bench_motor; act_z := bench_motor |};
     kernel := bench_kernel;
     external_handles := fun _ _ => false;
     actuator_to_cartesian := fun p => p;
     output := []; issued := []; probe_log := [] |}.

(** The slot in which the probe travels [n] steps down on all three towers and
    then touches the bed, and the slot in which it is lifted off again. *)
Definition descend (n : nat) : Slot :=
  List.concat (repeat [EvStep X_AXIS; EvStep Y_AXIS; EvStep Z_AXIS] n) ++ [EvPin true].

Definition lift : Slot := [EvPin false].

(** The message [setDecelerateOnTrigger] prints when it refuses. *)
Definition decel_refusal : Sink * string :=
  (KernelStreams,
   "Can't enable on-trigger deceleration because decelerate_runout isn't set.\n"%string).

(** A negative [decelerate_runout] other than the sentinel does not stop the
    flag from being enabled. *)
Definition bench_runout_minus_two : Machine :=
  on_zprobe (fun z =>
    {| pin_connected := pin_connected z; pin_inverting := pin_inverting z;
       invert_override := invert_override z; debounce_count := debounce_count z;
       decelerate_runout := (-2); decelerate_on_trigger := decelerate_on_trigger z;
       strategies := strategies z; is_delta := is_delta z;
       is_rdelta := is_rdelta z; probe_height := probe_height z;
       slow_feedrate := slow_feedrate z; fast_feedrate := fast_feedrate z;
       return_feedrate := return_feedrate z; reverse_z := reverse_z z;
       max_z := max_z z; running := running z; accelerating := accelerating z;
       current_feedrate := current_feedrate z; runout_steps := runout_steps z;
       steps_at_decel_end := steps_at_decel_end z;
       has_exceeded_runout := has_exceeded_runout z; probing := probing z;
       probe_detected := probe_detected z |}) bench.

(** The three zero-distance moves that end [return_probe], and the feedrate
    of its coordinated move. *)
Definition settle_moves : list Action :=
  [StepperMove X_AXIS false 0; StepperMove Y_AXIS false 0; StepperMove Z_AXIS false 0].

Definition return_feedrate_of (s : Machine) : float :=
  Qmin (slow_feedrate (zprobe s) * 2) (fast_feedrate (zprobe s)).

(** What a caller and the collaborators see of a finished call. *)
Definition observe {A} (r : Result A)
  : option (A * Env * list Action * list (Sink * string) * Actuators) :=
  match r with
  | Done a env s => Some (a, env, issued s, output s, actuators s)
  | _ => None
  end.

(** The machine with its [reverse_z] setting replaced. *)
Definition with_reverse (b : bool) (s : Machine) : Machine :=
  on_zprobe (with_reverse_z b) s.

(** Lists of commands that only stop actuators. *)
Definition halts (l : list Action) : Prop :=
  Forall (fun a => exists ax, a = StepperMove ax false 0) l.

(** A slot in which the Y and Z towers finish a three-step move while the X
    tower has taken two of its three steps. *)
Definition x_lags : Slot :=
  [EvStep Z_AXIS; EvStep Z_AXIS; EvStep Z_AXIS;
   EvStep Y_AXIS; EvStep Y_AXIS; EvStep Y_AXIS;
   EvStep X_AXIS; EvStep X_AXIS].

(** [n] steps on all three towers. *)
Definition travel (n : nat) : Slot :=
  List.concat (repeat [EvStep X_AXIS; EvStep Y_AXIS; EvStep Z_AXIS] n).

Definition bench_debounce_two : Machine := on_zprobe (with_debounce_count 2) bench.

(** One iteration of the polling loop reaches the test of the probe pin and
    reads it active: after the slot the machine is not halted and the
    "no stepper is moving" test fails. *)
Definition active_read (slot : Slot) (s : Machine) : bool :=
  let s' := run_slot slot s in
  negb (is_halted s')
  && negb (no_stepper_moving (is_delta (zprobe s') || is_rdelta (zprobe s')) s')
  && pin_get s'.

Definition inactive_read (slot : Slot) (s : Machine) : bool :=
  let s' := run_slot slot s in
  negb (is_halted s')
  && negb (no_stepper_moving (is_delta (zprobe s') || is_rdelta (zprobe s')) s')
  && negb (pin_get s').

Definition run_slots (slots : list Slot) (s : Machine) : Machine :=
  fold_left (fun s slot => run_slot slot s) slots s.

(** Consecutive active reads. *)
Fixpoint active_reads (slots : list Slot) (s : Machine) : bool :=
  match slots with
  | [] => true
  | slot :: rest => active_read slot s && active_reads rest (run_slot slot s)
  end.

(** The machine [s] once a probe cycle has been started on it: the state in
    which [run_probe] enters the polling loop. *)
Definition started (feedrate max_dist : float) (reverse : bool) (s : Machine)
  : Machine :=
  match start_probe feedrate max_dist reverse [] s with
  | Done _ _ s' => s'
  | _ => s
  end.

(** Two consecutive active reads, at 10 and at 15 steps of travel. *)
Definition two_active_reads : list Slot := [travel 10 ++ [EvPin true]; travel 5].

(** The probing G-codes: G29 to G32, G38.2 and G38.3. *)
Definition is_probing_gcode (gcode : Gcode) : bool :=
  has_g gcode
  && (((29 <=? g gcode) && (g gcode <=? 32))
      || ((g gcode =? 38) && ((subcode gcode =? 2) || (subcode gcode =? 3)))).

(** The messages with which a probing command is refused. *)
Definition refusals : list string :=
  ["ZProbe not connected.\n"%string;
   "ZProbe triggered before move, aborting command.\n"%string;
   "error:ZProbe not connected.\n"%string;
   "error:ZProbe triggered before move, aborting command.\n"%string].

Definition bench_touching : Machine := on_kernel (with_pin_level true) bench.

Definition G32 : Gcode :=
  {| has_g := true; g := 32; subcode := 0; has_m := false; m := 0;
     words := []; stream := 0%nat |}.

(** A computation preserves an observation [f] of the machine when every
    finished run leaves it as it was. *)
Definition preserves {A B} (f : Machine -> B) (c : M A) : Prop :=
  forall env s a env' s', c env s = Done a env' s' -> f s' = f s.

(** Updates of the actuators that keep every actuator's steps per mm. *)
Definition keeps_steps_per_mm (g : Actuators -> Actuators) : Prop :=
  forall acts a,
    steps_per_mm (actuator a (g acts)) = steps_per_mm (actuator a acts).

(** Updates of the strategy's fields that keep the dirty flag. *)
Definition keeps_geom_dirty (g : Cds -> Cds) : Prop :=
  forall c, geom_dirty (g c) = geom_dirty c.

Definition G31 : Gcode :=
  {| has_g := true; g := 31; subcode := 0; has_m := false; m := 0;
     words := []; stream := 0%nat |}.

(** The two lines [calibrate_delta_endstops] prints before it sets up the
    trim. *)
Definition endstops_banner (s : Machine) : Machine :=
  say KernelStreams "[ES] Calibrating endstops: target %fmm, radius %fmm\n"
      (say KernelStreams " \n" s).

Definition redoing (s : Machine) : Machine :=
  say KernelStreams
      "[EC] Geometry has been changed since last endstop/delta radius calibration - redoing.\n"
      s.

(** The bench after its bed height has been found: probing starts 10 mm
    above the trigger point. *)
Definition bench_prepared : Machine :=
  on_cds (with_probe_from_height 10) bench.

(** The slots of one [do_probe_at] that finds the bed after [n] steps: the
    move to the point, the descent, and the return. *)
Definition probe_slots (n : nat) : list Slot := [[]; descend n; lift].

(** A bowl that no change of the delta radius flattens: the center is found
    after 1000 steps and every tower base after 200, ten times over. *)
Definition radius_round : list Slot :=
  probe_slots 200 ++ probe_slots 200 ++ probe_slots 200 ++ [[]; []].

Definition radius_schedule : Env :=
  [[]] ++ probe_slots 1000 ++ List.concat (repeat radius_round 10).

Definition G32_R : Gcode :=
  {| has_g := true; g := 32; subcode := 0; has_m := false; m := 0;
     words := [("R"%char, 0%Q)]; stream := 0%nat |}.

(** The depth in millimetres of a probed step count, and the spread of three
    depths. *)
Definition depth (s : Machine) (steps : Z) : float :=
  zsteps_to_mm (inject_Z steps) s.

Definition spread (a b c : float) : float := (max3 a b c - min3 a b c)%Q.

(** What the probing helpers of the strategy leave alone: the published trim
    and the steps per millimetre of the Z actuator. *)
Definition setup (s : Machine) : option (float * float * float) * float :=
  (endstop_trim (kernel s), Z_STEPS_PER_MM s).

(** The published trim, the Z steps per millimetre and the probe log
    together. *)
Definition rig (s : Machine) : option (float * float * float) * float * list Z :=
  (endstop_trim (kernel s), Z_STEPS_PER_MM s, probe_log s).

(** A bench whose trim was set by hand, and the request to level the
    endstops keeping it. *)
Definition bench_kept : Machine :=
  on_kernel (with_endstop_trim (Some (-1, -2, -3)%Q)) bench_prepared.

Definition G32_K : Gcode :=
  {| has_g := true; g := 32; subcode := 0; has_m := false; m := 0;
     words := [("K"%char, 0%Q)]; stream := 0%nat |}.

(** The three tower bases found at the same depth. *)
Definition level_towers : Env :=
  [[]] ++ probe_slots 500 ++ probe_slots 500 ++ probe_slots 500.

(** The X tower base found 1 mm deeper than the others at first, and level
    with them once the trim has been adjusted. *)
Definition x_tower_low : Env :=
  [[]] ++ probe_slots 600 ++ probe_slots 500 ++ probe_slots 500
  ++ [[]; []] ++ probe_slots 500 ++ probe_slots 500 ++ probe_slots 500.

(** The dirty flag of the strategy. *)
Definition dirty (s : Machine) : bool := geom_dirty (cds s).

Definition is_G32 (gcode : Gcode) : bool := has_g gcode && (g gcode =? 32).

(** The last line G32 prints when both calibrations went through. *)
Definition calibration_complete : Sink * string :=
  (KernelStreams, "Basic calibration complete, save settings with M500\n \n"%string).

(** Both calibrations of G32 on the level bench: the queue drains, the towers
    are found level, then the center and the towers are found level. *)
Definition level_bed : Env :=
  [[]] ++ level_towers
  ++ [[]] ++ probe_slots 500 ++ probe_slots 500 ++ probe_slots 500 ++ probe_slots 500.

Definition calibration_failed : Sink * string :=
  (KernelStreams, "Calibration failed to complete, probe not triggered\n"%string).

(** The steps of G32: a step that is skipped counts as done. *)
Definition endstops_step (gcode : Gcode) : M bool :=
  if has_letter gcode "R" then ret true else calibrate_delta_endstops (Some gcode).

Definition radius_step (gcode : Gcode) : M bool :=
  if has_letter gcode "E" then ret true else calibrate_delta_radius (Some gcode).

(** The line [require_clean_geometry] prints when it finds the flag set. *)
Definition redoing_line : Sink * string :=
  (KernelStreams,
   "[EC] Geometry has been changed since last endstop/delta radius calibration - redoing.\n"%string).

(** *** A probe cycle with deceleration *)

(** The sanity of an actuator's step counter: it counts from 0 up to the
    length of the move, which fits 32 bits, and the move is in progress only
    while steps remain. *)
Definition motor_ok (sm : StepperMotor) : Prop :=
  0 <= stepped sm <= steps_to_move sm
  /\ steps_to_move sm <= uint32_max
  /\ (moving sm = true -> stepped sm < steps_to_move sm).

Definition is_nondelta (s : Machine) : bool :=
  negb (is_delta (zprobe s) || is_rdelta (zprobe s)).

(** While the polling loop waits for the probe: the tick handler accelerates
    and [steps_at_decel_end] still holds [before]. *)
Definition polling_inv (before : Z) (s : Machine) : Prop :=
  accelerating (zprobe s) = true
  /\ motor_ok (STEPPER Z_AXIS s)
  /\ steps_at_decel_end (zprobe s) = before.

(** While the loop waits for the deceleration to end: the trigger was taken
    at [steps], the runout limit is [limit], and unless the limit has been
    crossed [steps_at_decel_end] is either still [before] or a count below
    the limit (the Z count, not below [steps], when only Z is driven). *)
Definition decel_inv (steps limit before : Z) (nondelta : bool) (s : Machine)
  : Prop :=
  accelerating (zprobe s) = false
  /\ runout_steps (zprobe s) = limit
  /\ is_nondelta s = nondelta
  /\ motor_ok (STEPPER Z_AXIS s)
  /\ (is_moving (STEPPER Z_AXIS s) = true -> steps <= stepped (STEPPER Z_AXIS s))
  /\ (has_exceeded_runout (zprobe s) = false ->
      steps_at_decel_end (zprobe s) = before
      \/ (steps_at_decel_end (zprobe s) < limit
          /\ (nondelta = true -> steps <= steps_at_decel_end (zprobe s)))).

(** The bench with deceleration on trigger enabled and a runout of 0.25 mm;
    with the delta flags cleared it is a cartesian machine. *)
Definition bench_decel : Machine :=
  on_zprobe (fun z =>
    {| pin_connected := pin_connected z; pin_inverting := pin_inverting z;
       invert_override := invert_override z; debounce_count := debounce_count z;
       decelerate_runout := (25 # 100); decelerate_on_trigger := true;
       strategies := strategies z; is_delta := is_delta z;
       is_rdelta := is_rdelta z; probe_height := probe_height z;
       slow_feedrate := slow_feedrate z; fast_feedrate := fast_feedrate z;
       return_feedrate := return_feedrate z; reverse_z := reverse_z z;
       max_z := max_z z; running := running z; accelerating := accelerating z;
       current_feedrate := current_feedrate z; runout_steps := runout_steps z;
       steps_at_decel_end := steps_at_decel_end z;
       has_exceeded_runout := has_exceeded_runout z; probing := probing z;
       probe_detected := probe_detected z |}) bench.

Definition cartesian (s : Machine) : Machine :=
  on_zprobe (fun z =>
    {| pin_connected := pin_connected z; pin_inverting := pin_inverting z;
       invert_override := invert_override z; debounce_count := debounce_count z;
       decelerate_runout := decelerate_runout z;
       decelerate_on_trigger := decelerate_on_trigger z;
       strategies := strategies z; is_delta := false;
       is_rdelta := false; probe_height := probe_height z;
       slow_feedrate := slow_feedrate z; fast_feedrate := fast_feedrate z;
       return_feedrate := return_feedrate z; reverse_z := reverse_z z;
       max_z := max_z z; running := running z; accelerating := accelerating z;
       current_feedrate := current_feedrate z; runout_steps := runout_steps z;
       steps_at_decel_end := steps_at_decel_end z;
       has_exceeded_runout := has_exceeded_runout z; probing := probing z;
       probe_detected := probe_detected z |}) s.

(** A first cycle that finds the bed after 500 steps and is brought to rest
    by the tick handler, and a second one, limited to 1 mm of travel, whose
    probe touches at 99 steps: the towers take their last step and stop by
    themselves before the tick handler runs. *)
Definition first_cycle : Env := [descend 500; [EvTick]].
Definition second_cycle : Env := [lift ++ travel 99 ++ [EvPin true]; travel 1].

(** A cycle on the delta in which the Y tower is one step behind when the
    probe touches. *)
Definition y_lags : Env :=
  [travel 99 ++ [EvStep X_AXIS; EvStep Z_AXIS; EvPin true]; [EvTick]].

(** The settings of a probe cycle that nothing changes while it runs. *)
Definition cycle_settings (s : Machine) : bool * float * bool * bool * float :=
  (decelerate_on_trigger (zprobe s), decelerate_runout (zprobe s),
   is_delta (zprobe s), is_rdelta (zprobe s), Z_STEPS_PER_MM s).

(** The machine as a finished call leaves it. *)
Definition state_after {A} (r : Result A) (s : Machine) : Machine :=
  match r with
  | Done _ _ s' => s'
  | _ => s
  end.

(** The machine after one probe cycle at 5 mm/s over the schedule [env]. *)
Definition probed (max_dist : float) (env : Env) (s : Machine) : Machine :=
  state_after (run_probe 5 max_dist false env s) s.

(** *** Further machines and observations *)

(** The two flags of the polling phase: the tick handler accelerates, and the
    runout protection has not fired. *)
Definition polling_flags (s : Machine) : bool * bool :=
  (accelerating (zprobe s), has_exceeded_runout (zprobe s)).

(** A bench with deceleration on trigger and a runout of 0.01 mm, one step;
    and a cycle on it in which the towers travel five more steps after the
    trigger before the tick handler runs. *)
Definition bench_tight : Machine :=
  on_zprobe (fun z =>
    {| pin_connected := pin_connected z; pin_inverting := pin_inverting z;
       invert_override := invert_override z; debounce_count := debounce_count z;
       decelerate_runout := (1 # 100); decelerate_on_trigger := true;
       strategies := strategies z; is_delta := is_delta z;
       is_rdelta := is_rdelta z; probe_height := probe_height z;
       slow_feedrate := slow_feedrate z; fast_feedrate := fast_feedrate z;
       return_feedrate := return_feedrate z; reverse_z := reverse_z z;
       max_z := max_z z; running := running z; accelerating := accelerating z;
       current_feedrate := current_feedrate z; runout_steps := runout_steps z;
       steps_at_decel_end := steps_at_decel_end z;
       has_exceeded_runout := has_exceeded_runout z; probing := probing z;
       probe_detected := probe_detected z |}) bench.

Definition overrun : Env := [descend 10; travel 5 ++ [EvTick]].

(** The two lines printed when the runout protection has fired. *)
Definition runout_warning : list (Sink * string) :=
  [(KernelStreams, "[!!] Runout protection was triggered!\n"%string);
   (KernelStreams,
    "[!!] Check zprobe.decelerate_runout in config and/or try higher accel/lower speed.\n"%string)].

(** The bench during a G38 move that the probe has not stopped yet, with the
    three towers in motion and the probe touching. *)
Definition bench_probing : Machine :=
  on_zprobe (with_probing true)
    (on_kernel (with_pin_level true) (started 5 (-1) false bench)).

(** The refusal of a probing command when no probe pin is configured. *)
Definition not_connected_message (gcode : Gcode) : string :=
  if g gcode =? 38 then "error:ZProbe not connected.\n"%string
  else "ZProbe not connected.\n"%string.

Definition bench_unplugged : Machine :=
  on_zprobe (fun z =>
    {| pin_connected := false; pin_inverting := pin_inverting z;
       invert_override := invert_override z; debounce_count := debounce_count z;
       decelerate_runout := decelerate_runout z;
       decelerate_on_trigger := decelerate_on_trigger z;
       strategies := strategies z; is_delta := is_delta z;
       is_rdelta := is_rdelta z; probe_height := probe_height z;
       slow_feedrate := slow_feedrate z; fast_feedrate := fast_feedrate z;
       return_feedrate := return_feedrate z; reverse_z := reverse_z z;
       max_z := max_z z; running := running z; accelerating := accelerating z;
       current_feedrate := current_feedrate z; runout_steps := runout_steps z;
       steps_at_decel_end := steps_at_decel_end z;
       has_exceeded_runout := has_exceeded_runout z; probing := probing z;
       probe_detected := probe_detected z |}) (on_kernel (with_pin_level true) bench).

(** G38.2 Z-10 and G38.3 Z-10, and a bench on which a compensation transform
    is installed. *)
Definition G38_2 : Gcode :=
  {| has_g := true; g := 38; subcode := 2; has_m := false; m := 0;
     words := [("Z"%char, (-10)%Q)]; stream := 0%nat |}.

Definition G38_3 : Gcode :=
  {| has_g := true; g := 38; subcode := 3; has_m := false; m := 0;
     words := [("Z"%char, (-10)%Q)]; stream := 0%nat |}.

Definition bench_compensated : Machine :=
  on_kernel (with_compensationTransform (Some 7%nat)) bench.

(** The compensation transform the robot applies to a move, and the machine
    with it switched off. *)
Definition compensation (s : Machine) : option nat :=
  compensationTransform (kernel s).

Definition compensation_off (s : Machine) : Machine :=
  on_kernel (with_compensationTransform None) s.

(** G38 gets past its three refusals: the subcode is 2 or 3, a probe pin is
    configured, and the probe does not read triggered. *)
Definition G38_accepted (gcode : Gcode) (s : Machine) : bool :=
  ((subcode gcode =? 2) || (subcode gcode =? 3))
  && pin_connected (zprobe s) && negb (pin_get s).

(** What G38 does between switching the transform off and restoring it: the
    probing move along the first of X, Y and Z that the command names, or
    the error line when it names none. *)
Definition G38_probe (gcode : Gcode) : M unit :=
  if has_letter gcode "X" then probe_XYZ gcode X_AXIS
  else if has_letter gcode "Y" then probe_XYZ gcode Y_AXIS
  else if has_letter gcode "Z" then probe_XYZ gcode Z_AXIS
  else stream_printf (stream gcode)
         "error:at least one of X Y or Z must be specified\n".

(** The command line and the wait of a coordinated move. *)
Definition move_commands (x y z : option float) (feedrate : float)
           (relative : bool) : list Action :=
  [ConsoleLine relative x y z (feedrate * 60)%Q; WaitForEmptyQueue].

(** The feedrate of a G38 move. *)
Definition G38_rate (gcode : Gcode) (s : Machine) : float :=
  if has_letter gcode "F" then (get_value gcode "F" * 60)%Q
  else slow_feedrate (zprobe s).

(** M670 I1. *)
Definition M670_I1 : Gcode :=
  {| has_g := false; g := 0; subcode := 0; has_m := true; m := 670;
     words := [("I"%char, 1%Q)]; stream := 0%nat |}.

(** What [probe_XYZ] issues after its move: the probe position, then the
    alarm (G38.2 without a touch) or the correction of the position (a
    touch). *)
Definition probe_report (gcode : Gcode) (s : Machine) : list Action :=
  let '(px, py, pz) :=
    actuator_to_cartesian s
      (get_current_position (STEPPER X_AXIS s),
       get_current_position (STEPPER Y_AXIS s),
       get_current_position (STEPPER Z_AXIS s)) in
  SetLastProbePosition px py pz (probe_detected (zprobe s))
  :: (if negb (probe_detected (zprobe s)) && (subcode gcode =? 2)
      then [HaltEvent]
      else if probe_detected (zprobe s) then [ResetPositionFromActuators]
      else []).

(** The strategies a configuration enables, in the order of its
    leveling-strategy section; a module that is not a known strategy is
    skipped. *)
Definition enabled_in (modules : list (option Strategy * bool)) : list Strategy :=
  flat_map (fun m : option Strategy * bool =>
              if snd m then match fst m with Some k => [k] | None => [] end
              else []) modules.

Definition enabled_strategies (cfg : Config) : list Strategy :=
  enabled_in (cfg_leveling_strategies cfg).

(** A configuration that sets nothing. *)
Definition empty_config : Config :=
  {| cfg_probe_pin := None; cfg_debounce_count := None;
     cfg_decelerate_runout := None; cfg_decelerate_on_trigger := None;
     cfg_leveling_strategies := []; cfg_delta_homing := None;
     cfg_rdelta_homing := None; cfg_probe_height := None;
     cfg_slow_feedrate := None; cfg_fast_feedrate := None;
     cfg_return_feedrate := None; cfg_reverse_z := None;
     cfg_gamma_max := None; cfg_cds_probe_radius := None;
     cfg_zprobe_probe_radius := None; cfg_probe_smoothing := None;
     cfg_probe_acceleration := None; cfg_probe_offset_x := None;
     cfg_probe_offset_y := None; cfg_probe_offset_z := None |}.

(** G29 S31 P0: a repeatability test with too many samples, which also asks
    for no probe smoothing. *)
Definition G29_S31_P0 : Gcode :=
  {| has_g := true; g := 29; subcode := 0; has_m := false; m := 0;
     words := [("S"%char, 31%Q); ("P"%char, 0%Q)]; stream := 0%nat |}.

Definition too_many_samples : Sink * string :=
  (KernelStreams, "[RT] Too many samples!\n"%string).

(** The machine once [do_probe_at] has moved to its point. *)
Definition moved_to (x y : float) (slot : Slot) (s : Machine) : Machine :=
  run_slot slot
    (issue WaitForEmptyQueue
       (issue (ConsoleLine false (Some (x + probe_offset_x (cds s))%Q)
                           (Some (y + probe_offset_y (cds s))%Q) None
                           (fast_feedrate (zprobe s) * 60)%Q) s)).

(** The acceleration a repeatability test runs at: the A word when it lies
    in 1..1000, the configured probe acceleration otherwise; and whether the
    test is refused for asking too many samples. *)
Definition wanted_acceleration (gcode : option Gcode) (s : Machine) : float :=
  match gcode with
  | Some gc =>
      if has_letter gc "A" then
        let a := get_value gc "A" in
        if fltb a 1 || fltb 1000 a then probe_acceleration (cds s) else a
      else probe_acceleration (cds s)
  | None => probe_acceleration (cds s)
  end.

Definition asks_too_many (gcode : option Gcode) : bool :=
  match gcode with
  | Some gc => has_letter gc "S" && (30 <? f2iz (get_value gc "S"))
  | None => false
  end.

(** The planner acceleration together with the one the strategy saved. *)
Definition accelerations (s : Machine) : float * float :=
  (acceleration (kernel s), saved_acceleration (cds s)).

(** G29 E S1: one sample, without the eccentricity moves; its schedule on
    the prepared bench when the bed is found after 500 steps, and when a
    kill ends the probe. *)
Definition G29_E_S1 : Gcode :=
  {| has_g := true; g := 29; subcode := 0; has_m := false; m := 0;
     words := [("E"%char, 0%Q); ("S"%char, 1%Q)]; stream := 0%nat |}.

Definition one_sample : Env := [[]; []] ++ probe_slots 500 ++ [[]].
Definition killed_sample : Env := [[]; []; []; [EvKill]].

(** Two points that coincide as numbers, one the mirror image of the other
    through the origin, and one halfway between the origin and the other. *)
Definition same_point (p q : Point) : Prop :=
  (fst p == fst q)%Q /\ (snd p == snd q)%Q.

Definition mirrored (p q : Point) : Prop :=
  (fst p == - fst q)%Q /\ (snd p == - snd q)%Q.

Definition halfway_to (p q : Point) : Prop :=
  (fst p == fst q / 2)%Q /\ (snd p == snd q / 2)%Q.

(** The squared distance of a point from the centre of the bed. *)
Definition squared_radius (p : Point) : float :=
  (fst p * fst p + snd p * snd p)%Q.

(** The three tower points of [getCoordinates]. *)
Definition tower_points (radius : float) : Point * Point * Point :=
  let '(t1x, t1y, t2x, t2y, t3x, t3y) := getCoordinates radius in
  ((t1x, t1y), (t2x, t2y), (t3x, t3y)).

(** The prepared bench without an endstops module, and without optional
    parameters of the arm solution (a machine that is no delta). *)
Definition bench_no_endstops : Machine :=
  on_kernel (with_endstop_trim None) bench_prepared.

Definition bench_no_arm_options : Machine :=
  on_kernel (with_arm_options None) bench_prepared.

(** What the two calibrations of G32 write besides the strategy's own
    fields: the trim of the endstops, and the options of the arm solution. *)
Definition published_trim (s : Machine) : option (float * float * float) :=
  endstop_trim (kernel s).

Definition published_options (s : Machine) : option (list (ascii * float)) :=
  arm_options (kernel s).

(** The rates [accelerate] works with. *)
Definition target_rate (s : Machine) : Z :=
  f2uiz (floorf (current_feedrate (zprobe s))).

Definition current_rate (c : Axis) (s : Machine) : Z :=
  wrap32 (get_steps_per_second (STEPPER c s)).

(** The number of probes [do_probe_at] has handed back so far. *)
Definition probes_made (s : Machine) : nat := List.length (probe_log s).

Definition rate_increase (c : Axis) (s : Machine) : Z :=
  f2uiz (floorf (((if axis_eqb c Z_AXIS then z_acceleration (kernel s)
                   else acceleration (kernel s))
                  / acceleration_ticks_per_second (kernel s))
                 * STEPS_PER_MM c s)%Q).

(** G31, and the commands the strategy is handed one after the other, as
    the dispatch of the probe module hands them to it. *)
Definition is_G31 (gcode : Gcode) : bool := has_g gcode && (g gcode =? 31).

Fixpoint handle_all (gcodes : list Gcode) : M unit :=
  match gcodes with
  | [] => ret tt
  | gcode :: rest => handleGcode gcode ;; handle_all rest
  end.

(** The line G31 prints first, and the machine on which G31 ends when the
    geometry is dirty: after that line, the line of
    [require_clean_geometry] and the banner of the endstop calibration. *)
Definition depth_mapping_line : Sink * string :=
  (KernelStreams, "Depth-mapping the bed. Please stand by...\n"%string).

Definition G31_stopped (s : Machine) : Machine :=
  endstops_banner
    (redoing (say (fst depth_mapping_line) (snd depth_mapping_line) s)).

(** The schedule of the first G32 after configuration: the queue drains;
    the bed is found from the top after 1000 steps and, from the probing
    height, after 500; then both calibrations find every point after 500
    steps. *)
Definition first_calibration : Env :=
  [[]] ++ [descend 1000; lift; []; descend 500; lift]
  ++ level_towers
  ++ [[]] ++ probe_slots 500 ++ probe_slots 500 ++ probe_slots 500 ++ probe_slots 500.

(** The two reports of G30, and the action it ends on after a trigger: with
    a Z word (and no rotary delta) the Z position is set and the probe stays
    where it is, otherwise the probe is returned, which ends on the
    zero-distance move of the Z actuator. *)
Definition G30_not_triggered (gcode : Gcode) : Sink * string :=
  (GcodeStream (stream gcode), "ZProbe not triggered\n"%string).

Definition G30_result (gcode : Gcode) : Sink * string :=
  (GcodeStream (stream gcode), "Z:%1.4f C:%d\n"%string).

Definition G30_last_action (gcode : Gcode) (s : Machine) : Action :=
  if has_letter gcode "Z" && negb (is_rdelta (zprobe s))
  then ResetAxisPosition (get_value gcode "Z") Z_AXIS
  else StepperMove Z_AXIS false 0.

Definition G30_Z0 : Gcode :=
  {| has_g := true; g := 30; subcode := 0; has_m := false; m := 0;
     words := [("Z"%char, 0%Q)]; stream := 0%nat |}.

Definition G30 : Gcode :=
  {| has_g := true; g := 30; subcode := 0; has_m := false; m := 0;
     words := []; stream := 0%nat |}.

(** * Properties *)

(** ** Enabling deceleration on trigger *)

Lemma setDecelerateOnTrigger_unset (t : bool) (env : Env) (s : Machine) :
  feqb (decelerate_runout (zprobe s)) (-1) = true ->
  setDecelerateOnTrigger t env s
  = Done tt env (on_zprobe (with_decelerate_on_trigger false)
                           (say KernelStreams (snd decel_refusal) s)).
Proof.
  intros H. unfold setDecelerateOnTrigger, bind, get. rewrite H. reflexivity.
Qed.

Lemma setDecelerateOnTrigger_set (t : bool) (env : Env) (s : Machine) :
  feqb (decelerate_runout (zprobe s)) (-1) = false ->
  setDecelerateOnTrigger t env s
  = Done tt env (on_zprobe (with_decelerate_on_trigger t) s).
Proof.
  intros H. unfold setDecelerateOnTrigger, bind, get. rewrite H. reflexivity.
Qed.

Lemma feqb_true_iff (a b : float) : feqb a b = true <-> (a == b)%Q.
Proof. unfold feqb. apply Qeq_bool_iff. Qed.

Lemma feqb_false_iff (a b : float) : feqb a b = false <-> ~ (a == b)%Q.
Proof.
  rewrite <- feqb_true_iff. destruct (feqb a b); split; congruence.
Qed.

Lemma setDecelerateOnTrigger_spec (t : bool) (env : Env) (s : Machine) :
  exists s',
    setDecelerateOnTrigger t env s = Done tt env s'
    /\ decelerate_runout (zprobe s') = decelerate_runout (zprobe s)
    /\ ((decelerate_runout (zprobe s) == -1)%Q ->
        decelerate_on_trigger (zprobe s') = false
        /\ output s' = output s ++ [decel_refusal])
    /\ (~ (decelerate_runout (zprobe s) == -1)%Q ->
        decelerate_on_trigger (zprobe s') = t /\ output s' = output s).
Proof.
  destruct (feqb (decelerate_runout (zprobe s)) (-1)) eqn:E.
  - rewrite (setDecelerateOnTrigger_unset t env s E).
    eexists; split; [reflexivity|]. apply feqb_true_iff in E. cbn.
    repeat split; tauto.
  - rewrite (setDecelerateOnTrigger_set t env s E).
    eexists; split; [reflexivity|]. apply feqb_false_iff in E. cbn.
    repeat split; tauto.
Qed.

(** Loading the strategies leaves the deceleration settings alone. *)
Lemma load_strategies_decel (cfg : Config) (l : list (option Strategy * bool)) :
  forall env s, exists s',
    load_strategies cfg l env s = Done tt env s'
    /\ decelerate_on_trigger (zprobe s') = decelerate_on_trigger (zprobe s)
    /\ decelerate_runout (zprobe s') = decelerate_runout (zprobe s).
Proof.
  induction l as [|[cs enabled] l IH]; intros env s.
  - eexists; split; [reflexivity|]. split; reflexivity.
  - cbn [load_strategies]. unfold bind at 1.
    destruct enabled; [destruct cs as [k|]; [destruct k|]|]; cbn;
      match goal with
      | |- context [load_strategies cfg l env ?s1] =>
          destruct (IH env s1) as (s' & -> & H1 & H2)
      end; eexists; (split; [reflexivity|]); rewrite H1, H2; split; reflexivity.
Qed.

(** C6, as the code has it.  [setDecelerateOnTrigger] always returns; it
    refuses (flag forced to false, message emitted) exactly when
    [decelerate_runout] equals the sentinel -1, and otherwise stores the
    requested value.  Hence whenever the flag ends up true,
    [decelerate_runout] differs from -1; the same holds after
    [on_config_reload], which reads [decelerate_runout] (default -1) and then
    goes through [setDecelerateOnTrigger]. *)
Theorem setDecelerateOnTrigger_sentinel :
  (forall (t : bool) (env : Env) (s : Machine),
     exists s',
       setDecelerateOnTrigger t env s = Done tt env s'
       /\ decelerate_runout (zprobe s') = decelerate_runout (zprobe s)
       /\ ((decelerate_runout (zprobe s) == -1)%Q ->
           decelerate_on_trigger (zprobe s') = false
           /\ output s' = output s ++ [decel_refusal])
       /\ (~ (decelerate_runout (zprobe s) == -1)%Q ->
           decelerate_on_trigger (zprobe s') = t /\ output s' = output s)
       /\ (decelerate_on_trigger (zprobe s') = true ->
           ~ (decelerate_runout (zprobe s') == -1)%Q))
  /\ (forall (cfg : Config) (env : Env) (s : Machine),
       exists s',
         on_config_reload cfg env s = Done tt env s'
         /\ decelerate_runout (zprobe s')
            = by_default (-1)%Q (cfg_decelerate_runout cfg)
         /\ (decelerate_on_trigger (zprobe s') = true ->
             ~ (decelerate_runout (zprobe s') == -1)%Q
             /\ cfg_decelerate_on_trigger cfg = Some true)).
Proof.
  split.
  - intros t env s.
    destruct (setDecelerateOnTrigger_spec t env s) as (s' & E & R & U & V).
    exists s'. repeat split; try assumption; try (apply U; assumption);
      try (apply V; assumption).
    intros F B. rewrite R in B. destruct (U B) as [F' _]. congruence.
  - intros cfg env s. unfold on_config_reload.
    unfold bind at 1. cbn [modify].
    match goal with |- context [bind (setDecelerateOnTrigger ?t) _ env ?s1] =>
      destruct (setDecelerateOnTrigger_spec t env s1) as (s2 & E & R & U & V);
      set (t0 := t) in *; set (s0 := s1) in *
    end.
    unfold bind at 1. rewrite E.
    unfold bind at 1.
    destruct (load_strategies_decel cfg (cfg_leveling_strategies cfg) env s2)
      as (s3 & -> & D1 & D2).
    unfold bind, get, modify.
    eexists; split; [reflexivity|]. cbn.
    rewrite D2, R. split; [reflexivity|].
    rewrite D1. intros F.
    destruct (feqb (by_default (-1)%Q (cfg_decelerate_runout cfg)) (-1)) eqn:B.
    + apply feqb_true_iff in B. destruct (U B) as [F' _]. congruence.
    + apply feqb_false_iff in B. split; [exact B|].
      destruct (V B) as [F' _]. rewrite F in F'. unfold t0 in F'.
      destruct (cfg_decelerate_on_trigger cfg) as [[|]|]; cbn in F';
        congruence.
Qed.

(** C6, as stated, fails: with [decelerate_runout = -2], which is not a set
    non-negative value, [setDecelerateOnTrigger(true)] enables the flag. *)
Lemma setDecelerateOnTrigger_negative_runout :
  exists s',
    setDecelerateOnTrigger true [] bench_runout_minus_two = Done tt [] s'
    /\ decelerate_on_trigger (zprobe s') = true
    /\ (decelerate_runout (zprobe s') < 0)%Q
    /\ output s' = output bench_runout_minus_two.
Proof.
  eexists. split; [reflexivity|]. cbn. repeat split.
Qed.

(** ** Returning the probe *)

(** The interrupt handlers only ever add to the list of issued actions, and
    what they add are commands that stop an actuator. *)
Lemma halts_nil : halts [].
Proof. constructor. Qed.

Lemma halts_app l1 l2 : halts l1 -> halts l2 -> halts (l1 ++ l2).
Proof. unfold halts. rewrite Forall_app. tauto. Qed.

#[local] Hint Resolve halts_nil halts_app : core.

Lemma issued_same s s' : issued s' = issued s ->
  exists mid, issued s' = issued s ++ mid /\ halts mid.
Proof. intros ->. exists []. now rewrite app_nil_r. Qed.

Lemma accelerate_issued c s : issued (accelerate c s) = issued s.
Proof. reflexivity. Qed.

Lemma decelerate_issued c s :
  exists mid, issued (decelerate c s) = issued s ++ mid /\ halts mid.
Proof.
  unfold decelerate.
  repeat match goal with
         | |- context [if ?b then _ else _] => destruct b
         end; cbn;
  solve [ apply issued_same; reflexivity
        | eexists; split; [reflexivity|];
          repeat constructor; eexists; reflexivity ].
Qed.

Lemma tick_axis_issued c s :
  exists mid, issued (tick_axis c s) = issued s ++ mid /\ halts mid.
Proof.
  unfold tick_axis. destruct (is_moving _).
  - destruct (accelerating _).
    + apply issued_same, accelerate_issued.
    + apply decelerate_issued.
  - apply issued_same; reflexivity.
Qed.

Lemma issued_trans s1 s2 s3 :
  (exists mid, issued s2 = issued s1 ++ mid /\ halts mid) ->
  (exists mid, issued s3 = issued s2 ++ mid /\ halts mid) ->
  exists mid, issued s3 = issued s1 ++ mid /\ halts mid.
Proof.
  intros (m1 & E1 & H1) (m2 & E2 & H2). exists (m1 ++ m2).
  rewrite E2, E1, app_assoc. auto.
Qed.

Lemma acceleration_tick_issued s :
  exists mid, issued (acceleration_tick s) = issued s ++ mid /\ halts mid.
Proof.
  unfold acceleration_tick. destruct (negb _).
  - apply issued_same; reflexivity.
  - destruct (_ || _).
    + eapply issued_trans; [|apply tick_axis_issued].
      eapply issued_trans; apply tick_axis_issued.
    + apply tick_axis_issued.
Qed.

Lemma read_probe_issued s : issued (read_probe s) = issued s.
Proof.
  unfold read_probe. destruct (_ || _); [reflexivity|].
  destruct (pin_get s); reflexivity.
Qed.

Lemma apply_event_issued e s :
  exists mid, issued (apply_event e s) = issued s ++ mid /\ halts mid.
Proof.
  destruct e; cbn [apply_event];
    try (apply issued_same; reflexivity).
  - apply acceleration_tick_issued.
  - apply issued_same, read_probe_issued.
Qed.

Lemma run_slot_issued slot : forall s,
  exists mid, issued (run_slot slot s) = issued s ++ mid /\ halts mid.
Proof.
  unfold run_slot.
  induction slot as [|e slot IH]; intros s; cbn [fold_left].
  - apply issued_same; reflexivity.
  - eapply issued_trans; [apply apply_event_issued | apply IH].
Qed.

(** The interrupt handlers do not read [reverse_z]. *)
Ltac split_ifs :=
  repeat match goal with
         | |- context [if ?b then _ else _] => destruct b
         end.

Lemma accelerate_reverse b c s :
  accelerate c (with_reverse b s) = with_reverse b (accelerate c s).
Proof. reflexivity. Qed.

Lemma decelerate_reverse b c s :
  decelerate c (with_reverse b s) = with_reverse b (decelerate c s).
Proof.
  unfold decelerate.
  change (runout_steps (zprobe (with_reverse b s))) with (runout_steps (zprobe s)).
  change (STEPPER c (with_reverse b s)) with (STEPPER c s).
  change (kernel (with_reverse b s)) with (kernel s).
  change (STEPS_PER_MM c (with_reverse b s)) with (STEPS_PER_MM c s).
  split_ifs; reflexivity.
Qed.

Lemma tick_axis_reverse b c s :
  tick_axis c (with_reverse b s) = with_reverse b (tick_axis c s).
Proof.
  unfold tick_axis.
  change (STEPPER c (with_reverse b s)) with (STEPPER c s).
  change (accelerating (zprobe (with_reverse b s))) with (accelerating (zprobe s)).
  rewrite accelerate_reverse, decelerate_reverse.
  split_ifs; reflexivity.
Qed.

Lemma tick_axis_delta c s :
  is_delta (zprobe (tick_axis c s)) = is_delta (zprobe s)
  /\ is_rdelta (zprobe (tick_axis c s)) = is_rdelta (zprobe s).
Proof.
  unfold tick_axis, accelerate, decelerate. split_ifs; split; reflexivity.
Qed.

Lemma acceleration_tick_reverse b s :
  acceleration_tick (with_reverse b s) = with_reverse b (acceleration_tick s).
Proof.
  unfold acceleration_tick.
  change (running (zprobe (with_reverse b s))) with (running (zprobe s)).
  rewrite !tick_axis_reverse.
  change (is_delta (zprobe (with_reverse b (tick_axis Z_AXIS s))))
    with (is_delta (zprobe (tick_axis Z_AXIS s))).
  change (is_rdelta (zprobe (with_reverse b (tick_axis Z_AXIS s))))
    with (is_rdelta (zprobe (tick_axis Z_AXIS s))).
  split_ifs; reflexivity.
Qed.

Lemma read_probe_reverse b s :
  read_probe (with_reverse b s) = with_reverse b (read_probe s).
Proof.
  unfold read_probe.
  change (probing (zprobe (with_reverse b s))) with (probing (zprobe s)).
  change (probe_detected (zprobe (with_reverse b s))) with (probe_detected (zprobe s)).
  change (pin_get (with_reverse b s)) with (pin_get s).
  split_ifs; reflexivity.
Qed.

Lemma run_slot_reverse b slot : forall s,
  run_slot slot (with_reverse b s) = with_reverse b (run_slot slot s).
Proof.
  unfold run_slot.
  induction slot as [|e slot IH]; intros s; cbn [fold_left]; [reflexivity|].
  rewrite <- IH. f_equal.
  destruct e; cbn [apply_event];
    auto using acceleration_tick_reverse, read_probe_reverse.
Qed.

Lemma return_feedrate_min (slow fast : float) :
  (if fltb fast (slow * 2) then fast else (slow * 2)%Q) = Qmin (slow * 2) fast.
Proof.
  unfold fltb, Qmin, GenericMinMax.gmin.
  destruct (Qle_bool (slow * 2) fast) eqn:E; cbn [negb].
  - apply Qle_bool_iff in E. rewrite Qle_alt in E.
    destruct (slow * 2 ?= fast)%Q; congruence.
  - destruct (slow * 2 ?= fast)%Q eqn:C; try reflexivity.
    + assert (Qle_bool (slow * 2) fast = true); [|congruence].
      apply Qle_bool_iff, Qle_alt. congruence.
    + assert (Qle_bool (slow * 2) fast = true); [|congruence].
      apply Qle_bool_iff, Qle_alt. congruence.
Qed.

(** C10.  [return_probe] never looks at its [reverse] argument nor at
    [reverse_z]: whatever they are, given one slot of the schedule for the
    planner to drain its queue, it issues one relative coordinated move in Z
    of [zsteps_to_mm(steps)] millimetres at [min(2*slow_feedrate,
    fast_feedrate)] (the command line carries mm/min), then zero-distance
    moves on the three actuators, and returns true.  In between only the
    interrupt handlers may have issued commands, and those stop actuators. *)
Theorem return_probe_ignores_reverse (steps : Z) (reverse : bool) :
  (forall env s,
     return_probe steps reverse env s = return_probe steps (negb reverse) env s)
  /\ (forall b env s,
       observe (return_probe steps reverse env (with_reverse b s))
       = observe (return_probe steps reverse env s))
  /\ (forall slot env s, exists s' mid,
       return_probe steps reverse (slot :: env) s = Done true env s'
       /\ issued s'
          = issued s
            ++ [ConsoleLine true None None
                  (Some (zsteps_to_mm (inject_Z steps) s))
                  (return_feedrate_of s * 60)%Q;
                WaitForEmptyQueue]
            ++ mid ++ settle_moves
       /\ halts mid
       /\ (forall a, is_moving (STEPPER a s') = false)
       /\ running (zprobe s') = false).
Proof.
  split; [reflexivity|]. split.
  - intros b [|slot env] s; [reflexivity|].
    unfold return_probe, coordinated_move, wait_for_empty_queue,
      call_event_ON_IDLE, bind, modify, get, ret.
    cbn [observe].
    match goal with
    | |- context [run_slot slot ?x] =>
        match x with
        | context [with_reverse b s] =>
            change x with (with_reverse b
              (issue WaitForEmptyQueue
                 (issue (ConsoleLine true None None
                           (Some (zsteps_to_mm (inject_Z steps) s))
                           ((if fltb (fast_feedrate (zprobe s))
                                     (slow_feedrate (zprobe s) * 2)
                             then fast_feedrate (zprobe s)
                             else slow_feedrate (zprobe s) * 2) * 60)%Q)
                    (on_zprobe (with_accelerating true) s))))
        end
    end.
    rewrite run_slot_reverse. reflexivity.
  - intros slot env s.
    unfold return_probe, coordinated_move, wait_for_empty_queue,
      call_event_ON_IDLE, bind, modify, get, ret.
    match goal with
    | |- context [run_slot slot ?x] =>
        destruct (run_slot_issued slot x) as (mid & E & Hm); set (s1 := x) in *
    end.
    eexists; exists mid. split; [reflexivity|].
    split; [|split; [exact Hm|split; [intros []; reflexivity|reflexivity]]].
    cbn [issued stepper_move issue on_actuators on_zprobe].
    rewrite E. subst s1. cbn [issued issue on_zprobe].
    unfold return_feedrate_of. rewrite <- return_feedrate_min.
    cbn [zprobe on_zprobe with_accelerating slow_feedrate fast_feedrate].
    unfold settle_moves. rewrite <- !app_assoc. reflexivity.
Qed.

(** ** The polling loop *)

(** On a delta the "no stepper is moving" test looks at Y and at Z (twice),
    never at X. *)
Lemma no_stepper_moving_delta (s : Machine) :
  no_stepper_moving true s
  = negb (is_moving (STEPPER Z_AXIS s)) && negb (is_moving (STEPPER Y_AXIS s)).
Proof.
  unfold no_stepper_moving.
  destruct (is_moving (STEPPER Z_AXIS s)), (is_moving (STEPPER Y_AXIS s));
    reflexivity.
Qed.

(** C1 at its failing input: a delta whose Y and Z towers have finished their
    move while the X tower is still moving.  The polling loop takes the
    "not triggered" exit although an actuator is moving, and the probe cycle
    reports false with X still in motion. *)
Theorem wait_for_probe_ignores_x_tower :
  (forall debounce slot env s,
     let s' := run_slot slot s in
     is_halted s' = false ->
     is_delta (zprobe s') = true ->
     is_moving (STEPPER Y_AXIS s') = false ->
     is_moving (STEPPER Z_AXIS s') = false ->
     wait_for_probe_from debounce (slot :: env) s = Done (false, None) env s')
  /\ exists s',
      run_probe 5 (3 # 100) false [x_lags] bench = Done (false, None) [] s'
      /\ is_delta (zprobe s') = true
      /\ is_halted s' = false
      /\ is_moving (STEPPER X_AXIS s') = true
      /\ is_moving (STEPPER Y_AXIS s') = false
      /\ is_moving (STEPPER Z_AXIS s') = false.
Proof.
  split.
  - intros debounce slot env s s' Hh Hd Hy Hz.
    cbn [wait_for_probe_from]. fold s'.
    rewrite Hh, Hd. cbn [orb]. rewrite no_stepper_moving_delta, Hy, Hz.
    reflexivity.
  - eexists. split; [vm_compute; reflexivity|]. repeat split.
Qed.

(** *** Debounce *)

(** The interrupt handlers leave the debounce setting alone. *)
Lemma tick_axis_debounce_count c s :
  debounce_count (zprobe (tick_axis c s)) = debounce_count (zprobe s).
Proof. unfold tick_axis, accelerate, decelerate. split_ifs; reflexivity. Qed.

Lemma apply_event_debounce_count e s :
  debounce_count (zprobe (apply_event e s)) = debounce_count (zprobe s).
Proof.
  destruct e; cbn [apply_event]; try reflexivity.
  - unfold acceleration_tick. split_ifs; rewrite ?tick_axis_debounce_count;
      reflexivity.
  - unfold read_probe. split_ifs; reflexivity.
Qed.

Lemma run_slot_debounce_count slot : forall s,
  debounce_count (zprobe (run_slot slot s)) = debounce_count (zprobe s).
Proof.
  unfold run_slot. induction slot as [|e slot IH]; intros s; cbn [fold_left].
  - reflexivity.
  - now rewrite IH, apply_event_debounce_count.
Qed.

Lemma run_slots_debounce_count slots : forall s,
  debounce_count (zprobe (run_slots slots s)) = debounce_count (zprobe s).
Proof.
  unfold run_slots. induction slots as [|slot slots IH]; intros s; cbn [fold_left].
  - reflexivity.
  - now rewrite IH, run_slot_debounce_count.
Qed.

(** One iteration of the loop, by what it reads. *)
Lemma wait_for_probe_inactive debounce slot env s :
  inactive_read slot s = true ->
  wait_for_probe_from debounce (slot :: env) s
  = wait_for_probe_from 0 env (run_slot slot s).
Proof.
  unfold inactive_read. intros H.
  apply andb_prop in H as [H Hp]. apply andb_prop in H as [Hh Hm].
  apply negb_true_iff in Hh, Hm, Hp.
  cbn [wait_for_probe_from]. now rewrite Hh, Hm, Hp.
Qed.

Lemma wait_for_probe_counting debounce slot env s :
  active_read slot s = true ->
  debounce < debounce_count (zprobe s) ->
  wait_for_probe_from debounce (slot :: env) s
  = wait_for_probe_from (debounce + 1) env (run_slot slot s).
Proof.
  unfold active_read. intros H Hd.
  apply andb_prop in H as [H Hp]. apply andb_prop in H as [Hh Hm].
  apply negb_true_iff in Hh, Hm.
  cbn [wait_for_probe_from]. rewrite Hh, Hm, Hp, run_slot_debounce_count.
  apply Z.ltb_lt in Hd. now rewrite Hd.
Qed.

Lemma wait_for_probe_firing debounce slot env s :
  active_read slot s = true ->
  debounce_count (zprobe s) <= debounce ->
  wait_for_probe_from debounce (slot :: env) s
  = probe_triggered
      (is_delta (zprobe (run_slot slot s)) || is_rdelta (zprobe (run_slot slot s)))
      env (run_slot slot s).
Proof.
  unfold active_read. intros H Hd.
  apply andb_prop in H as [H Hp]. apply andb_prop in H as [Hh Hm].
  apply negb_true_iff in Hh, Hm.
  cbn [wait_for_probe_from]. rewrite Hh, Hm, Hp, run_slot_debounce_count.
  apply Z.ltb_ge in Hd. now rewrite Hd.
Qed.

(** A run of consecutive active reads that does not exhaust the debounce
    count only counts. *)
Lemma wait_for_probe_counts slots : forall debounce env s,
  active_reads slots s = true ->
  debounce + Z.of_nat (List.length slots) <= debounce_count (zprobe s) ->
  wait_for_probe_from debounce (slots ++ env) s
  = wait_for_probe_from (debounce + Z.of_nat (List.length slots)) env
                        (run_slots slots s).
Proof.
  induction slots as [|slot slots IH]; intros debounce env s Ha Hn.
  - cbn. now rewrite Z.add_0_r.
  - cbn [active_reads] in Ha. apply andb_prop in Ha as [Ha1 Ha2].
    cbn [List.length] in Hn. rewrite Nat2Z.inj_succ in Hn.
    cbn [app]. rewrite wait_for_probe_counting by (assumption || lia).
    rewrite IH; [|assumption|rewrite run_slot_debounce_count; lia].
    cbn [List.length run_slots fold_left]. rewrite Nat2Z.inj_succ.
    f_equal. lia.
Qed.

(** What [probe_triggered] stores through [steps] is the Z step counter at
    the moment it is entered. *)
Lemma probe_triggered_steps delta env s r env' s' :
  probe_triggered delta env s = Done r env' s' ->
  snd r = Some (get_stepped (STEPPER Z_AXIS s)).
Proof.
  unfold probe_triggered, bind, get, modify, ret, _printf.
  repeat match goal with
         | |- context [if ?b then _ else _] => destruct b
         | |- context [match ?x with _ => _ end] => destruct x eqn:?
         end; intros H; inversion H; reflexivity.
Qed.

Lemma stop_stepper_zprobe i s : zprobe (stop_stepper i s) = zprobe s.
Proof. unfold stop_stepper. split_ifs; reflexivity. Qed.

(** Without deceleration the trigger branch returns at once. *)
Lemma probe_triggered_hard_stop delta env s :
  decelerate_on_trigger (zprobe s) = false ->
  exists s',
    probe_triggered delta env s
    = Done (negb (has_exceeded_runout (zprobe s)),
            Some (get_stepped (STEPPER Z_AXIS s))) env s'.
Proof.
  intros H. cbv beta iota delta [probe_triggered bind get modify ret _printf].
  rewrite H. cbv beta iota zeta.
  destruct delta; cbv beta iota zeta; rewrite !stop_stepper_zprobe;
    destruct (has_exceeded_runout (zprobe s)); cbn [negb];
    eexists; reflexivity.
Qed.

(** C7, as the code has it.  An inactive read resets the debounce counter to
    0.  On an active read the counter is compared first and incremented only
    while it is below [debounce_count]: the first [debounce_count]
    consecutive active reads only count (after them the loop is still
    polling, with the counter at [debounce_count]), and the cycle triggers on
    the next one, the [debounce_count + 1]-th consecutive active read,
    storing the Z step counter of that moment. *)
Theorem debounce_fires_on_next_read
        (slots : list Slot) (slot : Slot) (env : Env) (s : Machine) :
  active_reads slots s = true ->
  Z.of_nat (List.length slots) = debounce_count (zprobe s) ->
  active_read slot (run_slots slots s) = true ->
  (forall d slot0 env0 s0,
     inactive_read slot0 s0 = true ->
     wait_for_probe_from d (slot0 :: env0) s0
     = wait_for_probe_from 0 env0 (run_slot slot0 s0))
  /\ wait_for_probe (slots ++ env) s
     = wait_for_probe_from (debounce_count (zprobe s)) env (run_slots slots s)
  /\ wait_for_probe (slots ++ slot :: env) s
     = probe_triggered
         (is_delta (zprobe (run_slot slot (run_slots slots s)))
          || is_rdelta (zprobe (run_slot slot (run_slots slots s))))
         env (run_slot slot (run_slots slots s))
  /\ (forall r env' s',
        wait_for_probe (slots ++ slot :: env) s = Done r env' s' ->
        snd r = Some (get_stepped (STEPPER Z_AXIS (run_slot slot (run_slots slots s)))))
  /\ (decelerate_on_trigger (zprobe (run_slot slot (run_slots slots s))) = false ->
      exists s',
        wait_for_probe (slots ++ slot :: env) s
        = Done (negb (has_exceeded_runout (zprobe (run_slot slot (run_slots slots s)))),
                Some (get_stepped (STEPPER Z_AXIS (run_slot slot (run_slots slots s)))))
               env s').
Proof.
  intros Ha Hn Hs.
  assert (E1 : forall env1,
             wait_for_probe (slots ++ env1) s
             = wait_for_probe_from (debounce_count (zprobe s)) env1
                                   (run_slots slots s)).
  { intros env1. unfold wait_for_probe.
    rewrite wait_for_probe_counts by (assumption || lia).
    now rewrite Z.add_0_l, Hn. }
  assert (E2 : wait_for_probe (slots ++ slot :: env) s
               = probe_triggered
                   (is_delta (zprobe (run_slot slot (run_slots slots s)))
                    || is_rdelta (zprobe (run_slot slot (run_slots slots s))))
                   env (run_slot slot (run_slots slots s))).
  { rewrite E1. apply wait_for_probe_firing; [assumption|].
    rewrite run_slots_debounce_count. lia. }
  split; [intros; now apply wait_for_probe_inactive|].
  split; [apply E1|]. split; [exact E2|]. split.
  - intros r env' s'. rewrite E2. apply probe_triggered_steps.
  - intros Hd. rewrite E2. now apply probe_triggered_hard_stop.
Qed.

Lemma debounce_fires_on_third_read :
  wait_for_probe (two_active_reads ++ [])
                 (started 5 (-1) false bench_debounce_two)
  = wait_for_probe_from 2 [] (run_slots two_active_reads
                                (started 5 (-1) false bench_debounce_two))
  /\ exists s',
      wait_for_probe (two_active_reads ++ [travel 5])
                     (started 5 (-1) false bench_debounce_two)
      = Done (true, Some 20) [] s'.
Proof.
  destruct (debounce_fires_on_next_read two_active_reads (travel 5) []
              (started 5 (-1) false bench_debounce_two))
    as (_ & E1 & _ & _ & E2);
    [vm_compute; reflexivity | vm_compute; reflexivity
     | vm_compute; reflexivity |].
  split; [exact E1|]. apply E2. vm_compute. reflexivity.
Defined.

(** C7, as stated, fails.  With [debounce_count = 2], two consecutive active
    reads (at 10 and at 15 steps of travel) do not trigger: when the travel
    ends right after them the cycle reports "not triggered", and when the
    probe stays active the trigger fires on the third read and records 20
    steps, not the 15 of the second read. *)
Lemma debounce_count_reads_do_not_trigger :
  debounce_count (zprobe bench_debounce_two) = 2
  /\ active_reads two_active_reads (started 5 (20 # 100) false bench_debounce_two) = true
  /\ (exists s',
        run_probe 5 (20 # 100) false (two_active_reads ++ [travel 5])
                  bench_debounce_two
        = Done (false, None) [] s')
  /\ active_reads (two_active_reads ++ [travel 5])
                  (started 5 (-1) false bench_debounce_two) = true
  /\ (exists s',
        run_probe 5 (-1) false (two_active_reads ++ [travel 5])
                  bench_debounce_two
        = Done (true, Some 20) [] s').
Proof.
  split; [reflexivity|]. split; [vm_compute; reflexivity|].
  split; [eexists; vm_compute; reflexivity|].
  split; [vm_compute; reflexivity|].
  eexists; vm_compute; reflexivity.
Qed.

(** ** Refusing to probe with the probe already triggered *)

(** C8.  A probing command (G29 to G32, G38.2, G38.3) received while the
    probe pin reads active is refused: [on_gcode_received] returns without
    yielding, having written one refusal to the command's stream and nothing
    else: no action is issued, no probe cycle is started and every other
    part of the machine state is as it was. *)
Theorem probing_gcode_refused_when_triggered
        (gcode : Gcode) (env : Env) (s : Machine) :
  is_probing_gcode gcode = true ->
  pin_get s = true ->
  exists msg,
    In msg refusals
    /\ on_gcode_received gcode env s
       = Done tt env (say (GcodeStream (stream gcode)) msg s).
Proof.
  unfold is_probing_gcode. intros Hg Hp.
  apply andb_prop in Hg as [Hg Hr].
  unfold on_gcode_received, bind, get. rewrite Hg, Hp. cbn [andb].
  destruct ((29 <=? g gcode) && (g gcode <=? 32)) eqn:R.
  - destruct (pin_connected (zprobe s)); cbn [negb];
      eexists; (split; [|reflexivity]); cbn; tauto.
  - cbn [orb] in Hr. apply andb_prop in Hr as [H38 Hsub]. rewrite H38.
    assert (negb (subcode gcode =? 2) && negb (subcode gcode =? 3) = false) as ->.
    { destruct (subcode gcode =? 2), (subcode gcode =? 3);
        cbn in *; congruence. }
    destruct (pin_connected (zprobe s)); cbn [negb];
      eexists; (split; [|reflexivity]); cbn; tauto.
Qed.

Lemma G32_refused_on_touching_bench :
  exists msg,
    In msg refusals
    /\ on_gcode_received G32 [] bench_touching
       = Done tt [] (say (GcodeStream (stream G32)) msg bench_touching).
Proof.
  apply (probing_gcode_refused_when_triggered G32 [] bench_touching);
    reflexivity.
Defined.

(** ** Frame properties *)

Lemma bind_Done {A B} (c : M A) (k : A -> M B) env s b env' s' :
  bind c k env s = Done b env' s' ->
  exists a env1 s1, c env s = Done a env1 s1 /\ k a env1 s1 = Done b env' s'.
Proof.
  unfold bind. destruct (c env s) as [a env1 s1| |]; try discriminate.
  eauto.
Qed.

Lemma preserves_ret {A B} (f : Machine -> B) (a : A) : preserves f (ret a).
Proof. intros env s a' env' s' H. now inversion H. Qed.

Lemma preserves_crash {A B} (f : Machine -> B) x : preserves f (@crash A x).
Proof. intros env s a' env' s' H. discriminate. Qed.

Lemma preserves_get {B} (f : Machine -> B) : preserves f get.
Proof. intros env s a' env' s' H. now inversion H. Qed.

Lemma preserves_gets {A B} (f : Machine -> B) (h : Machine -> A) :
  preserves f (gets h).
Proof. intros env s a' env' s' H. now inversion H. Qed.

Lemma preserves_modify {B} (f : Machine -> B) g :
  (forall s, f (g s) = f s) -> preserves f (modify g).
Proof. intros Hg env s a' env' s' H. inversion H. apply Hg. Qed.

Lemma preserves_bind {A C B} (f : Machine -> B) (c : M A) (k : A -> M C) :
  preserves f c -> (forall a, preserves f (k a)) -> preserves f (bind c k).
Proof.
  intros Hc Hk env s b env' s' H.
  apply bind_Done in H as (a & env1 & s1 & H1 & H2).
  rewrite (Hk _ _ _ _ _ _ H2). eapply Hc; eassumption.
Qed.

Lemma on_actuator_keeps a h :
  (forall sm, steps_per_mm (h sm) = steps_per_mm sm) ->
  keeps_steps_per_mm (on_actuator a h).
Proof. intros Hh acts b. destruct a, b; cbn; auto. Qed.

Lemma motor_move_steps_per_mm d n sp sm :
  steps_per_mm (motor_move d n sp sm) = steps_per_mm sm.
Proof. unfold motor_move. destruct sp; [destruct (0 <? n)|]; reflexivity. Qed.

Lemma motor_step_steps_per_mm sm : steps_per_mm (motor_step sm) = steps_per_mm sm.
Proof. unfold motor_step. destruct (moving sm); reflexivity. Qed.

Ltac frame_step :=
  lazymatch goal with
  | |- preserves _ (ret _) => apply preserves_ret
  | |- preserves _ (crash _) => apply preserves_crash
  | |- preserves _ get => apply preserves_get
  | |- preserves _ (gets _) => apply preserves_gets
  | |- preserves _ (bind _ _) => apply preserves_bind; [|intros]
  | |- preserves _ (if ?b then _ else _) => destruct b
  | |- preserves _ (match ?x with _ => _ end) => destruct x
  end.

Section Frame.
Context {B : Type} (f : Machine -> B).
Hypothesis f_zprobe : forall g s, f (on_zprobe g s) = f s.
Hypothesis f_actuators :
  forall g s, keeps_steps_per_mm g -> f (on_actuators g s) = f s.
Hypothesis f_pin_level : forall b s, f (on_kernel (with_pin_level b) s) = f s.
Hypothesis f_halted : forall b s, f (on_kernel (with_halted b) s) = f s.
Hypothesis f_issue : forall a s, f (issue a s) = f s.
Hypothesis f_say : forall t m s, f (say t m s) = f s.

Lemma f_stepper_move a d n sp s : f (stepper_move a d n sp s) = f s.
Proof.
  unfold stepper_move. rewrite f_issue. apply f_actuators.
  apply on_actuator_keeps, motor_move_steps_per_mm.
Qed.

Lemma f_stepper_set_speed a r s : f (stepper_set_speed a r s) = f s.
Proof.
  unfold stepper_set_speed. apply f_actuators.
  now apply on_actuator_keeps.
Qed.

Lemma f_accelerate c s : f (accelerate c s) = f s.
Proof. unfold accelerate. apply f_stepper_set_speed. Qed.

Lemma f_decelerate c s : f (decelerate c s) = f s.
Proof.
  unfold decelerate. split_ifs;
    rewrite ?f_zprobe, ?f_stepper_move, ?f_stepper_set_speed; reflexivity.
Qed.

Lemma f_tick_axis c s : f (tick_axis c s) = f s.
Proof.
  unfold tick_axis. split_ifs; auto using f_accelerate, f_decelerate.
Qed.

Lemma f_acceleration_tick s : f (acceleration_tick s) = f s.
Proof.
  unfold acceleration_tick. split_ifs; rewrite ?f_tick_axis; reflexivity.
Qed.

Lemma f_read_probe s : f (read_probe s) = f s.
Proof.
  unfold read_probe. split_ifs; try reflexivity.
  rewrite f_actuators, f_zprobe; [reflexivity|].
  intros acts a. destruct a; reflexivity.
Qed.

Lemma f_apply_event e s : f (apply_event e s) = f s.
Proof.
  destruct e; cbn [apply_event];
    auto using f_acceleration_tick, f_read_probe.
  apply f_actuators, on_actuator_keeps, motor_step_steps_per_mm.
Qed.

Lemma f_run_slot slot : forall s, f (run_slot slot s) = f s.
Proof.
  unfold run_slot. induction slot as [|e slot IH]; intros s; cbn [fold_left].
  - reflexivity.
  - now rewrite IH, f_apply_event.
Qed.

Lemma f_stop_stepper i s : f (stop_stepper i s) = f s.
Proof. unfold stop_stepper. split_ifs; auto using f_stepper_move. Qed.

Lemma frame_idle : preserves f call_event_ON_IDLE.
Proof.
  intros [|slot env] s a env' s' H; [discriminate|].
  inversion H. apply f_run_slot.
Qed.

Lemma frame_printf m : preserves f (_printf m).
Proof. apply preserves_modify. intros; apply f_say. Qed.

Lemma frame_stream_printf i m : preserves f (stream_printf i m).
Proof. apply preserves_modify. intros; apply f_say. Qed.

Lemma frame_wait_for_empty_queue : preserves f wait_for_empty_queue.
Proof.
  unfold wait_for_empty_queue. apply preserves_bind.
  - apply preserves_modify. intros; apply f_issue.
  - intros _. apply frame_idle.
Qed.

Lemma frame_coordinated_move x y z fr rel :
  preserves f (coordinated_move x y z fr rel).
Proof.
  unfold coordinated_move. apply preserves_bind.
  - apply preserves_modify. intros; apply f_issue.
  - intros _. apply frame_wait_for_empty_queue.
Qed.

Lemma frame_home : preserves f home.
Proof. apply preserves_modify. intros; apply f_issue. Qed.

Lemma frame_wait_for_decel : preserves f wait_for_decel.
Proof.
  intros env. induction env as [|slot env IH]; intros s a env' s' H;
    cbn [wait_for_decel] in H; destruct (still_decelerating s);
    try discriminate; try (inversion H; reflexivity).
  apply IH in H. now rewrite H, f_run_slot.
Qed.

Ltac frame_basic :=
  lazymatch goal with
  | |- preserves _ (_printf _) => apply frame_printf
  | |- preserves _ (stream_printf _ _) => apply frame_stream_printf
  | |- preserves _ call_event_ON_IDLE => apply frame_idle
  | |- preserves _ wait_for_empty_queue => apply frame_wait_for_empty_queue
  | |- preserves _ (coordinated_move _ _ _ _ _) => apply frame_coordinated_move
  | |- preserves _ home => apply frame_home
  | |- preserves _ wait_for_decel => apply frame_wait_for_decel
  | |- preserves _ (modify _) =>
      apply preserves_modify; intros;
      first [ apply f_zprobe | apply f_issue | apply f_say
            | apply f_stop_stepper | apply f_stepper_move
            | apply f_actuators; apply on_actuator_keeps; reflexivity ]
  end.

Lemma frame_probe_triggered delta : preserves f (probe_triggered delta).
Proof.
  unfold probe_triggered. repeat first [frame_step | frame_basic].
Qed.

Lemma frame_wait_for_probe_from : forall env debounce s a env' s',
  wait_for_probe_from debounce env s = Done a env' s' -> f s' = f s.
Proof.
  induction env as [|slot env IH]; intros debounce s a env' s' H;
    cbn [wait_for_probe_from] in H; [discriminate|].
  rewrite <- (f_run_slot slot s).
  destruct (is_halted _); [now inversion H|].
  destruct (no_stepper_moving _ _); [now inversion H|].
  destruct (pin_get _).
  - destruct (_ <? _).
    + eapply IH; eassumption.
    + eapply frame_probe_triggered; eassumption.
  - eapply IH; eassumption.
Qed.

Lemma frame_wait_for_probe : preserves f wait_for_probe.
Proof. intros env s a env' s'. apply frame_wait_for_probe_from. Qed.

Lemma frame_start_probe fr md rev : preserves f (start_probe fr md rev).
Proof.
  unfold start_probe. repeat first [frame_step | frame_basic].
Qed.

Lemma frame_run_probe fr md rev : preserves f (run_probe fr md rev).
Proof.
  unfold run_probe.
  apply preserves_bind; [apply frame_start_probe|intros _].
  apply preserves_bind; [apply frame_wait_for_probe|intros r].
  repeat first [frame_step | frame_basic].
Qed.

Lemma frame_run_probe_at fast : preserves f (run_probe_at fast).
Proof.
  unfold run_probe_at. apply preserves_bind; [apply preserves_get|intros s].
  apply frame_run_probe.
Qed.

Lemma frame_return_probe steps rev : preserves f (return_probe steps rev).
Proof.
  unfold return_probe. repeat first [frame_step | frame_basic].
Qed.

Lemma frame_smoothing_loop n : forall steps, preserves f (smoothing_loop n steps).
Proof.
  induction n as [|n IH]; intros steps; cbn [smoothing_loop].
  - apply preserves_ret.
  - repeat first [ apply IH | apply frame_run_probe_at
                 | apply frame_return_probe | frame_step | frame_basic ].
Qed.
End Frame.

(** Observations that the strategy's probing helpers preserve as well. *)
Section FrameStrategy.
Context {B : Type} (f : Machine -> B).
Hypothesis f_zprobe : forall g s, f (on_zprobe g s) = f s.
Hypothesis f_actuators :
  forall g s, keeps_steps_per_mm g -> f (on_actuators g s) = f s.
Hypothesis f_pin_level : forall b s, f (on_kernel (with_pin_level b) s) = f s.
Hypothesis f_halted : forall b s, f (on_kernel (with_halted b) s) = f s.
Hypothesis f_issue : forall a s, f (issue a s) = f s.
Hypothesis f_say : forall t m s, f (say t m s) = f s.
Hypothesis f_cds : forall g s, keeps_geom_dirty g -> f (on_cds g s) = f s.

Ltac frame_zprobe :=
  lazymatch goal with
  | |- preserves _ (_printf _) => apply frame_printf
  | |- preserves _ (stream_printf _ _) => apply frame_stream_printf
  | |- preserves _ call_event_ON_IDLE => apply frame_idle
  | |- preserves _ wait_for_empty_queue => apply frame_wait_for_empty_queue
  | |- preserves _ (coordinated_move _ _ _ _ _) => apply frame_coordinated_move
  | |- preserves _ home => apply frame_home
  | |- preserves _ (run_probe_at _) => apply frame_run_probe_at
  | |- preserves _ (return_probe _ _) => apply frame_return_probe
  | |- preserves _ (smoothing_loop _ _) => apply frame_smoothing_loop
  end; assumption.

Ltac frame_cds :=
  lazymatch goal with
  | |- preserves _ (modify _) =>
      apply preserves_modify; intros;
      first [ apply f_issue
            | apply f_cds; intros c; reflexivity
            | rewrite f_cds; [reflexivity | intros c; reflexivity] ]
  end.

Lemma frame_find_bed_center_height : preserves f find_bed_center_height.
Proof.
  unfold find_bed_center_height.
  repeat first [frame_zprobe | frame_step | frame_cds].
Qed.

Lemma frame_prepare_to_probe : preserves f prepare_to_probe.
Proof.
  unfold prepare_to_probe.
  repeat first [ frame_zprobe | frame_step | frame_cds
               | apply frame_find_bed_center_height ].
Qed.

(** [do_probe_at] moreover records the step count it hands back. *)
Hypothesis f_record_probe : forall n s, f (record_probe n s) = f s.

Lemma frame_do_probe_at x y : preserves f (do_probe_at x y).
Proof.
  unfold do_probe_at.
  repeat first [ frame_zprobe | frame_step
               | lazymatch goal with
                 | |- preserves _ (modify (record_probe _)) =>
                     apply preserves_modify; intros; apply f_record_probe
                 end ].
Qed.

Lemma frame_probe_tower_steps t : preserves f (probe_tower_steps t).
Proof.
  unfold probe_tower_steps. destruct t as [[[[[? ?] ?] ?] ?] ?].
  repeat first [ frame_step
               | lazymatch goal with
                 | |- preserves _ (do_probe_at _ _) => apply frame_do_probe_at
                 end ].
Qed.

Lemma frame_probe_tower_depths t : preserves f (probe_tower_depths t).
Proof.
  unfold probe_tower_depths. destruct t as [[[[[? ?] ?] ?] ?] ?].
  repeat first [ frame_step
               | lazymatch goal with
                 | |- preserves _ (do_probe_at _ _) => apply frame_do_probe_at
                 end ].
Qed.

(** The calibrations also write the trim, the arm options and the probe
    radius. *)
Hypothesis f_endstop_trim :
  forall t s, f (on_kernel (with_endstop_trim t) s) = f s.
Hypothesis f_arm_options :
  forall o s, f (on_kernel (with_arm_options o) s) = f s.

Lemma frame_set_trim x y z st : preserves f (set_trim x y z st).
Proof.
  unfold set_trim.
  repeat first [ frame_zprobe | frame_step
               | lazymatch goal with
                 | |- preserves _ (modify _) =>
                     apply preserves_modify; intros; apply f_endstop_trim
                 end ].
Qed.

Lemma frame_set_optional o : preserves f (set_optional o).
Proof.
  unfold set_optional.
  repeat first [ frame_step
               | lazymatch goal with
                 | |- preserves _ (modify _) =>
                     apply preserves_modify; intros; apply f_arm_options
                 end ].
Qed.

Lemma frame_get_optional o : preserves f (get_optional o).
Proof. unfold get_optional. repeat frame_step. Qed.

Lemma frame_gcode_stream gcode : preserves f (gcode_stream gcode).
Proof. unfold gcode_stream. repeat frame_step. Qed.

Lemma frame_gcode_has_letter gcode c : preserves f (gcode_has_letter gcode c).
Proof. unfold gcode_has_letter. repeat frame_step. Qed.

Lemma frame_gcode_get_value gcode c : preserves f (gcode_get_value gcode c).
Proof. unfold gcode_get_value. repeat frame_step. Qed.

Ltac frame_calibration :=
  first
    [ lazymatch goal with
      | |- preserves _ (set_trim _ _ _ _) => apply frame_set_trim
      | |- preserves _ (set_optional _) => apply frame_set_optional
      | |- preserves _ (get_optional _) => apply frame_get_optional
      | |- preserves _ (gcode_stream _) => apply frame_gcode_stream
      | |- preserves _ (gcode_has_letter _ _) => apply frame_gcode_has_letter
      | |- preserves _ (gcode_get_value _ _) => apply frame_gcode_get_value
      | |- preserves _ prepare_to_probe => apply frame_prepare_to_probe
      | |- preserves _ (probe_tower_depths _) => apply frame_probe_tower_depths
      | |- preserves _ (probe_tower_steps _) => apply frame_probe_tower_steps
      | |- preserves _ (do_probe_at _ _) => apply frame_do_probe_at
      end
    | frame_zprobe | frame_step | frame_cds ].

Lemma frame_endstop_leveling_loop n gcode target t :
  forall trimx trimy trimz trimscale last_deviation mm,
    preserves f (endstop_leveling_loop n gcode target t trimx trimy trimz
                                       trimscale last_deviation mm).
Proof.
  induction n as [|n IH]; intros; cbn [endstop_leveling_loop].
  - repeat frame_calibration.
  - repeat first
      [ lazymatch goal with
        | |- preserves _ (endstop_leveling_loop _ _ _ _ _ _ _ _ _ _) => apply IH
        end
      | frame_calibration ].
Qed.

Lemma frame_calibrate_delta_endstops gcode :
  preserves f (calibrate_delta_endstops gcode).
Proof.
  unfold calibrate_delta_endstops, get_trim.
  repeat first
    [ lazymatch goal with
      | |- preserves _ (endstop_leveling_loop _ _ _ _ _ _ _ _ _ _) =>
          apply frame_endstop_leveling_loop
      end
    | frame_calibration ].
Qed.

Lemma frame_delta_radius_loop n target cmm t :
  forall delta_radius options,
    preserves f (delta_radius_loop n target cmm t delta_radius options).
Proof.
  induction n as [|n IH]; intros; cbn [delta_radius_loop].
  - repeat frame_calibration.
  - repeat first
      [ lazymatch goal with
        | |- preserves _ (delta_radius_loop _ _ _ _ _ _) => apply IH
        end
      | frame_calibration ].
Qed.

Lemma frame_calibrate_delta_radius gcode :
  preserves f (calibrate_delta_radius gcode).
Proof.
  unfold calibrate_delta_radius.
  repeat first
    [ lazymatch goal with
      | |- preserves _ (delta_radius_loop _ _ _ _ _ _) =>
          apply frame_delta_radius_loop
      end
    | frame_calibration ].
Qed.
End FrameStrategy.

(** ** The null G-code of [require_clean_geometry] *)

Lemma calibrate_delta_endstops_null env s :
  calibrate_delta_endstops None env s
  = Crash (NullDeref "gcode->stream") (endstops_banner s).
Proof. reflexivity. Qed.

Lemma calibrate_delta_radius_null env s :
  calibrate_delta_radius None env s = Crash (NullDeref "gcode->has_letter") s.
Proof. reflexivity. Qed.

Lemma require_clean_geometry_dirty env s :
  geom_dirty (cds s) = true ->
  require_clean_geometry env s
  = Crash (NullDeref "gcode->stream") (endstops_banner (redoing s)).
Proof.
  intros H. unfold require_clean_geometry, bind, get. rewrite H. reflexivity.
Qed.



(** ** Delta radius calibration *)

(** C3 at its failing input.  On the bench the center is found after 1000
    steps (10 mm) and each tower base after 200 steps (2 mm) however the
    delta radius is changed.  The ten iterations never bring
    [|center - mean|] (8 mm) within the target (0.03 mm), the radius has
    been raised ten times by [8 * 2.5] to 325, and the calibration still
    returns true: G32 reports "Basic calibration complete". *)
Theorem delta_radius_exhaustion_reports_success :
  exists s' s'',
    calibrate_delta_radius (Some G32) radius_schedule bench_prepared
    = Done true [] s'
    /\ probe_log s' = 1000 :: repeat 200 30
    /\ calibration_target (Some G32) = (3 # 100)
    /\ (3 # 100 < abs_f (depth s' 1000 - depth s' ((200 + 200 + 200) / 3)))%Q
    /\ (exists o, arm_options (kernel s') = Some o
                  /\ (options_get "R" o == 325)%Q)
    /\ handleGcode G32_R ([] :: radius_schedule) bench_prepared
       = Done true [] s''
    /\ last (output s'') (NullStream, ""%string)
       = (KernelStreams,
          "Basic calibration complete, save settings with M500\n \n"%string).
Proof.
  eexists; eexists.
  split; [vm_compute; reflexivity|].
  split; [vm_compute; reflexivity|].
  split; [reflexivity|].
  split; [vm_compute; reflexivity|].
  split; [eexists; split; [vm_compute; reflexivity|vm_compute; reflexivity]|].
  split; [vm_compute; reflexivity|].
  vm_compute; reflexivity.
Qed.

(** ** Endstop leveling *)

Tactic Notation "peel" hyp(H) "as" ident(a) ident(e) ident(s) ident(H1) :=
  apply bind_Done in H as (a & e & s & H1 & H).

Lemma Done_inj {A} (a b : A) env env' s s' :
  Done a env s = Done b env' s' -> a = b /\ env = env' /\ s = s'.
Proof. intros H. now inversion H. Qed.

Lemma setup_frame_zprobe g s : setup (on_zprobe g s) = setup s.
Proof. reflexivity. Qed.

Lemma setup_frame_actuators g s :
  keeps_steps_per_mm g -> setup (on_actuators g s) = setup s.
Proof.
  intros Hg. unfold setup, Z_STEPS_PER_MM, STEPS_PER_MM, STEPPER, get_steps_per_mm.
  cbn [actuators on_actuators kernel]. now rewrite (Hg (actuators s) Z_AXIS).
Qed.

Lemma prepare_to_probe_setup env s u env' s' :
  prepare_to_probe env s = Done u env' s' ->
  setup s' = setup s /\ probe_log s' = probe_log s.
Proof.
  intros H. split.
  - revert H. apply (frame_prepare_to_probe setup); try reflexivity.
    apply setup_frame_actuators.
  - revert H. apply (frame_prepare_to_probe probe_log); reflexivity.
Qed.

Lemma do_probe_at_setup x y env s r env' s' :
  do_probe_at x y env s = Done r env' s' -> setup s' = setup s.
Proof.
  apply (frame_do_probe_at setup); try reflexivity.
  apply setup_frame_actuators.
Qed.

(** [do_probe_at] adds the step count it hands back to the log when it
    succeeds, and nothing otherwise. *)
Lemma do_probe_at_log x y env s ok n env' s' :
  do_probe_at x y env s = Done (ok, n) env' s' ->
  probe_log s' = probe_log s ++ (if ok then [n] else []).
Proof.
  unfold do_probe_at. intros H.
  peel H as s0 env0 s0' G. apply Done_inj in G as (E1 & E2 & E3).
  subst s0 env0 s0'.
  peel H as u env1 s1 Hmove.
  apply (frame_coordinated_move probe_log) in Hmove; try reflexivity.
  peel H as r env2 s2 Hloop. destruct r as [ok0 steps0].
  apply (frame_smoothing_loop probe_log) in Hloop; try reflexivity.
  rewrite <- Hmove, <- Hloop.
  destruct (negb ok0).
  - apply Done_inj in H as (E & _ & ->). inversion E; subst.
    now rewrite app_nil_r.
  - destruct (probe_smoothing (cds s) =? 0); [discriminate|].
    destruct (_ <? 100).
    + peel H as u1 env3 s3 Hp. apply Done_inj in H as (E & _ & ->).
      inversion E; subst.
      apply (frame_printf probe_log) in Hp; try reflexivity.
      now rewrite Hp, app_nil_r.
    + peel H as u1 env3 s3 Hp. apply Done_inj in H as (E & _ & ->).
      inversion E; subst.
      apply Done_inj in Hp as (_ & _ & <-). reflexivity.
Qed.

(** The three tower probes: when all succeed, the three step counts have
    been added to the log and the depths handed back are theirs. *)
Lemma probe_tower_depths_log t env s r env' s' :
  probe_tower_depths t env s = Done r env' s' ->
  setup s' = setup s
  /\ match r with
     | Some (t1z, t2z, t3z) =>
         exists a b c,
           probe_log s' = probe_log s ++ [a; b; c]
           /\ t1z = depth s a /\ t2z = depth s b /\ t3z = depth s c
     | None => True
     end.
Proof.
  assert (D : forall s1 s2 n, setup s1 = setup s2 ->
                zsteps_to_mm (inject_Z n) s1 = depth s2 n).
  { intros s1 s2 n E. unfold depth, zsteps_to_mm.
    unfold setup in E. inversion E. reflexivity. }
  unfold probe_tower_depths. destruct t as [[[[[t1x t1y] t2x] t2y] t3x] t3y].
  intros H.
  peel H as r1 env1 s1 P1. destruct r1 as [ok1 n1].
  pose proof (do_probe_at_setup _ _ _ _ _ _ _ P1) as S1.
  apply do_probe_at_log in P1.
  destruct ok1; cbn [negb] in H;
    [|apply Done_inj in H as (E1 & _ & E3); subst r s'; now split].
  peel H as t1z env1' s1' G1. apply Done_inj in G1 as (E1 & E2 & E3).
  subst t1z env1' s1'.
  peel H as r2 env2 s2 P2. destruct r2 as [ok2 n2].
  pose proof (do_probe_at_setup _ _ _ _ _ _ _ P2) as S2.
  apply do_probe_at_log in P2.
  destruct ok2; cbn [negb] in H;
    [|apply Done_inj in H as (E1 & _ & E3); subst r s'; split; [congruence|exact I]].
  peel H as t2z env2' s2' G2. apply Done_inj in G2 as (E1 & E2 & E3).
  subst t2z env2' s2'.
  peel H as r3 env3 s3 P3. destruct r3 as [ok3 n3].
  pose proof (do_probe_at_setup _ _ _ _ _ _ _ P3) as S3.
  apply do_probe_at_log in P3.
  destruct ok3; cbn [negb] in H;
    [|apply Done_inj in H as (E1 & _ & E3); subst r s'; split; [congruence|exact I]].
  peel H as t3z env3' s3' G3. apply Done_inj in G3 as (E1 & E2 & E3).
  subst t3z env3' s3'.
  apply Done_inj in H as (E1 & _ & E3). subst r s'.
  split; [congruence|].
  exists n1, n2, n3. split; [|split; [|split]].
  - rewrite P3, P2, P1, <- !app_assoc. reflexivity.
  - apply D; congruence.
  - apply D; congruence.
  - apply D; congruence.
Qed.

(** [set_trim] publishes the trim when the endstops module is there. *)
Lemma set_trim_spec x y z st env s ok env' s' :
  set_trim x y z st env s = Done ok env' s' ->
  Z_STEPS_PER_MM s' = Z_STEPS_PER_MM s
  /\ probe_log s' = probe_log s
  /\ (ok = true -> endstop_trim (kernel s') = Some (x, y, z)).
Proof.
  unfold set_trim, bind, get, modify, stream_printf, ret.
  destruct (endstop_trim (kernel s)); intros H;
    apply Done_inj in H as (<- & _ & <-); repeat split; discriminate.
Qed.

Lemma rig_frame_actuators g s :
  keeps_steps_per_mm g -> rig (on_actuators g s) = rig s.
Proof.
  intros Hg. unfold rig, Z_STEPS_PER_MM, STEPS_PER_MM, STEPPER, get_steps_per_mm.
  cbn [actuators on_actuators kernel probe_log].
  now rewrite (Hg (actuators s) Z_AXIS).
Qed.

Lemma rig_inv s s' :
  rig s' = rig s ->
  endstop_trim (kernel s') = endstop_trim (kernel s)
  /\ Z_STEPS_PER_MM s' = Z_STEPS_PER_MM s
  /\ probe_log s' = probe_log s.
Proof. unfold rig. intros H. inversion H. auto. Qed.

Lemma idle_rig : preserves rig call_event_ON_IDLE.
Proof. apply frame_idle; try reflexivity. apply rig_frame_actuators. Qed.

Lemma printf_rig m : preserves rig (_printf m).
Proof. apply preserves_modify. reflexivity. Qed.

Lemma prepare_to_probe_rig : preserves rig prepare_to_probe.
Proof.
  apply frame_prepare_to_probe; try reflexivity. apply rig_frame_actuators.
Qed.

Lemma depth_steps_per_mm s1 s2 n :
  Z_STEPS_PER_MM s1 = Z_STEPS_PER_MM s2 -> depth s1 n = depth s2 n.
Proof. unfold depth, zsteps_to_mm. now intros ->. Qed.

Lemma fltb_false_le a b : fltb a b = false -> (b <= a)%Q.
Proof.
  unfold fltb. intros H. apply negb_false_iff in H. now apply Qle_bool_iff.
Qed.

Lemma fleb_true_le a b : fleb a b = true -> (a <= b)%Q.
Proof. unfold fleb. apply Qle_bool_iff. Qed.

Lemma fleb_false_fltb a b : fleb a b = false -> fltb b a = true.
Proof. unfold fleb, fltb. now intros ->. Qed.

(** Subtracting the largest trim leaves the largest trim at zero. *)
Lemma normalized_trim_max (x y z : float) :
  (max3 (x - max3 x y z) (y - max3 x y z) (z - max3 x y z) == 0)%Q.
Proof.
  unfold max3. set (M := Qmax (Qmax x y) z). unfold Qminus.
  rewrite Q.plus_max_distr_r, Q.plus_max_distr_r. fold M. ring.
Qed.

(** A successful exit of the leveling loop: the depths probed last are within
    the target and the trim published is normalized. *)
Lemma endstop_leveling_loop_success n gc target t :
  forall trimx trimy trimz trimscale last_deviation mm env s env' s',
    endstop_leveling_loop n (Some gc) target t trimx trimy trimz trimscale
                          last_deviation mm env s = Done true env' s' ->
    fltb target (snd mm - fst mm) = true ->
    Z_STEPS_PER_MM s' = Z_STEPS_PER_MM s
    /\ (exists pre a b c,
          probe_log s' = probe_log s ++ pre ++ [a; b; c]
          /\ (spread (depth s a) (depth s b) (depth s c) <= target)%Q)
    /\ (exists x y z,
          endstop_trim (kernel s') = Some (x, y, z) /\ (max3 x y z == 0)%Q).
Proof.
  induction n as [|n IH]; intros trimx trimy trimz trimscale last_deviation mm
                                 env s env' s' H Hout;
    cbn [endstop_leveling_loop] in H.
  - rewrite Hout in H. peel H as u env0 s0 Hp.
    apply Done_inj in H as (E & _). discriminate.
  - peel H as u0 env0 s0 Hidle.
    apply idle_rig, rig_inv in Hidle as (_ & Z0 & L0).
    peel H as st env0' s0' Hst. apply Done_inj in Hst as (E1 & E2 & E3).
    subst st env0' s0'.
    peel H as ok env1 s1 Hset.
    apply set_trim_spec in Hset as (Z1 & L1 & _).
    destruct ok; cbn [negb] in H;
      [|apply Done_inj in H as (E & _); discriminate].
    peel H as u2 env2 s2 Hprep.
    apply prepare_to_probe_rig, rig_inv in Hprep as (_ & Z2 & L2).
    peel H as r env3 s3 Hprobe.
    apply probe_tower_depths_log in Hprobe as (S3 & Hlog).
    assert (Z3 : Z_STEPS_PER_MM s3 = Z_STEPS_PER_MM s2) by (now inversion S3).
    assert (Zs : Z_STEPS_PER_MM s3 = Z_STEPS_PER_MM s) by congruence.
    destruct r as [[[t1z t2z] t3z]|];
      [|apply Done_inj in H as (E & _); discriminate].
    destruct Hlog as (a & b & c & L3 & -> & -> & ->).
    assert (Ls : probe_log s3 = probe_log s ++ [a; b; c]) by congruence.
    cbv zeta in H. cbn [minmax3 fst snd] in H.
    match type of H with
    | (if fltb target ?d then _ else _) _ _ = _ => destruct (fltb target d) eqn:Dev
    end.
    + peel H as u4 env4 s4 Hp1.
      apply printf_rig, rig_inv in Hp1 as (_ & Z4 & L4).
      peel H as scale' env5 s5 Hscale.
      assert (R5 : rig s5 = rig s4).
      { revert Hscale. match goal with |- ?c _ _ = _ -> _ =>
          assert (preserves rig c) as P; [|apply P] end.
        destruct (_ && _); repeat first [frame_step | apply printf_rig]. }
      apply rig_inv in R5 as (_ & Z5 & L5).
      apply IH in H; [|exact Dev].
      destruct H as (Z' & (pre & a' & b' & c' & L' & Sp) & T').
      split; [congruence|]. split; [|exact T'].
      exists ([a; b; c] ++ pre), a', b', c'. split.
      * rewrite L', L5, L4, Ls, <- !app_assoc. reflexivity.
      * rewrite !(depth_steps_per_mm s s5) by congruence. exact Sp.
    + apply fltb_false_le in Dev.
      peel H as u4 env4 s4 Hp1.
      apply printf_rig, rig_inv in Hp1 as (_ & Z4 & L4).
      peel H as u5 env5 s5 Hp2.
      apply printf_rig, rig_inv in Hp2 as (_ & Z5 & L5).
      peel H as st env5' s5' Hst. apply Done_inj in Hst as (E1 & E2 & E3).
      subst st env5' s5'.
      peel H as ok env6 s6 Hset.
      apply set_trim_spec in Hset as (Z6 & L6 & T6).
      destruct ok; cbn [negb] in H.
      * peel H as u7 env7 s7 Hp3.
        apply printf_rig, rig_inv in Hp3 as (T7 & Z7 & L7).
        apply Done_inj in H as (_ & _ & E). subst s'.
        split; [congruence|]. split.
        -- exists [], a, b, c. split.
           ++ cbn [app]. congruence.
           ++ rewrite !(depth_steps_per_mm s s2) by congruence. exact Dev.
        -- eexists; eexists; eexists. split.
           ++ rewrite T7. apply T6. reflexivity.
           ++ apply normalized_trim_max.
      * peel H as u7 env7 s7 Hp3.
        apply Done_inj in H as (E & _). discriminate.
Qed.

(** C2, as the code has it.  In every endstop calibration that returns
    success the three tower depths probed last are within the target.  The
    trim published at the end has its maximum at zero when the run zeroed
    the trim first (no K) or reached the target inside the leveling loop,
    which normalizes before writing back.  When the run keeps the current
    trim (K) and finds the first three probes already within the target, it
    returns success at once and the trim is left exactly as it was. *)
Theorem endstops_success_within_target
        (gc : Gcode) (env : Env) (s : Machine) (env' : Env) (s' : Machine) :
  calibrate_delta_endstops (Some gc) env s = Done true env' s' ->
  (exists pre a b c,
      probe_log s' = probe_log s ++ pre ++ [a; b; c]
      /\ (spread (depth s' a) (depth s' b) (depth s' c)
          <= calibration_target (Some gc))%Q)
  /\ ((exists x y z,
         endstop_trim (kernel s') = Some (x, y, z) /\ (max3 x y z == 0)%Q)
      \/ (has_letter gc "K" = true
          /\ endstop_trim (kernel s') = endstop_trim (kernel s)
          /\ exists a b c, probe_log s' = probe_log s ++ [a; b; c])).
Proof.
  unfold calibrate_delta_endstops. intros H.
  cbv zeta in H. cbn [endstops_keep] in H.
  peel H as u0 env0 s0 HJ.
  assert (R0 : rig s0 = rig s).
  { revert HJ. match goal with |- ?c _ _ = _ -> _ =>
      assert (preserves rig c) as P; [|apply P] end.
    destruct (has_letter gc "J"); [apply preserves_modify|apply preserves_ret];
      reflexivity. }
  apply rig_inv in R0 as (T0 & Z0 & L0).
  peel H as u1 env1 s1 Hp1. apply printf_rig, rig_inv in Hp1 as (T1 & Z1 & L1).
  peel H as u2 env2 s2 Hp2. apply printf_rig, rig_inv in Hp2 as (T2 & Z2 & L2).
  peel H as g3 env3 s3 Hg. apply Done_inj in Hg as (E1 & E2 & E3).
  subst g3 env3 s3.
  peel H as trim env4 s4 Htrim.
  assert (Hsetup : Z_STEPS_PER_MM s4 = Z_STEPS_PER_MM s2
                   /\ probe_log s4 = probe_log s2
                   /\ match trim with
                      | Some (x, y, z) =>
                          (has_letter gc "K" = false
                           /\ endstop_trim (kernel s4) = Some (x, y, z)
                           /\ (max3 x y z == 0)%Q)
                          \/ (has_letter gc "K" = true
                              /\ endstop_trim (kernel s4) = endstop_trim (kernel s2))
                      | None => True
                      end).
  { destruct (has_letter gc "K") eqn:K; cbn [negb] in Htrim.
    - unfold get_trim in Htrim.
      peel Htrim as cur env5 s5 Hcur. apply Done_inj in Hcur as (E1 & E2 & E3).
      subst cur env5 s5.
      destruct (endstop_trim (kernel s2)) as [[[x y] z]|] eqn:T.
      + peel Htrim as u6 env6 s6 Hp.
        apply printf_rig, rig_inv in Hp as (T6 & Z6 & L6).
        apply Done_inj in Htrim as (E1 & _ & E3). subst trim s4.
        repeat split; try assumption. right. split; [reflexivity|congruence].
      + peel Htrim as u6 env6 s6 Hp.
        apply printf_rig, rig_inv in Hp as (T6 & Z6 & L6).
        apply Done_inj in Htrim as (E1 & _ & E3). subst trim s4.
        repeat split; assumption.
    - peel Htrim as st env5 s5 Hst. apply Done_inj in Hst as (E1 & E2 & E3).
      subst st env5 s5.
      peel Htrim as ok env6 s6 Hset.
      apply set_trim_spec in Hset as (Z6 & L6 & T6).
      destruct ok; cbn [negb] in Htrim;
        apply Done_inj in Htrim as (E1 & _ & E3); subst trim s4;
        repeat split; try assumption.
      left. split; [reflexivity|]. split; [now apply T6|reflexivity]. }
  destruct Hsetup as (Z4 & L4 & T4).
  destruct trim as [[[trimx trimy] trimz]|];
    [|apply Done_inj in H as (E & _); discriminate].
  peel H as u5 env5 s5 Hprep.
  apply prepare_to_probe_rig, rig_inv in Hprep as (T5 & Z5 & L5).
  peel H as r env6 s6 Hprobe.
  apply probe_tower_depths_log in Hprobe as (S6 & Hlog).
  assert (T6 : endstop_trim (kernel s6) = endstop_trim (kernel s5))
    by (now inversion S6).
  assert (Z6 : Z_STEPS_PER_MM s6 = Z_STEPS_PER_MM s5) by (now inversion S6).
  destruct r as [[[t1z t2z] t3z]|];
    [|apply Done_inj in H as (E & _); discriminate].
  destruct Hlog as (a & b & c & L6 & -> & -> & ->).
  cbv zeta in H. cbn [minmax3 fst snd] in H.
  match type of H with
  | (if fleb ?d ?t then _ else _) _ _ = _ => destruct (fleb d t) eqn:Dev
  end.
  - apply fleb_true_le in Dev.
    peel H as u7 env7 s7 Hp. apply printf_rig, rig_inv in Hp as (T7 & Z7 & L7).
    apply Done_inj in H as (_ & _ & E). subst s'.
    assert (Ls : probe_log s7 = probe_log s ++ [a; b; c]) by congruence.
    split.
    + exists [], a, b, c. split; [exact Ls|].
      rewrite !(depth_steps_per_mm s7 s5) by congruence. exact Dev.
    + destruct T4 as [(K & T4 & M)|(K & T4)].
      * left. exists trimx, trimy, trimz.
        split; [rewrite T7, T6, T5; exact T4|exact M].
      * right. split; [exact K|].
        split; [rewrite T7, T6, T5, T4, T2, T1; exact T0|]. eauto.
  - apply fleb_false_fltb in Dev.
    peel H as u7 env7 s7 Hp. apply printf_rig, rig_inv in Hp as (T7 & Z7 & L7).
    apply endstop_leveling_loop_success in H; [|exact Dev].
    destruct H as (Z' & (pre & a' & b' & c' & L' & Sp) & T').
    split; [|left; exact T'].
    exists ([a; b; c] ++ pre), a', b', c'. split.
    + rewrite L', L7, L6, L5, L4, L2, L1, L0, <- !app_assoc. reflexivity.
    + rewrite !(depth_steps_per_mm s' s7) by congruence. exact Sp.
Qed.

Lemma endstops_success_after_one_adjustment :
  exists s',
    calibrate_delta_endstops (Some G32) x_tower_low bench_prepared
    = Done true [] s'
    /\ (exists pre a b c,
          probe_log s' = probe_log bench_prepared ++ pre ++ [a; b; c]
          /\ (spread (depth s' a) (depth s' b) (depth s' c)
              <= calibration_target (Some G32))%Q)
    /\ ((exists x y z,
           endstop_trim (kernel s') = Some (x, y, z) /\ (max3 x y z == 0)%Q)
        \/ (has_letter G32 "K" = true
            /\ endstop_trim (kernel s') = endstop_trim (kernel bench_prepared)
            /\ exists a b c, probe_log s' = probe_log bench_prepared ++ [a; b; c])).
Proof.
  destruct (calibrate_delta_endstops (Some G32) x_tower_low bench_prepared)
    as [[|] env' s'| |] eqn:E; try (vm_compute in E; discriminate).
  assert (env' = []) as -> by (vm_compute in E; now inversion E).
  exists s'. split; [reflexivity|].
  exact (endstops_success_within_target G32 x_tower_low bench_prepared [] s' E).
Defined.

(** C2, as stated, fails on the exit "trim already set within required
    parameters": with K the trim (-1, -2, -3) set by hand is kept, the three
    towers are found level, the calibration returns success without
    normalizing, and the largest trim is -1, not 0. *)
Lemma endstops_kept_trim_not_normalized :
  exists s',
    calibrate_delta_endstops (Some G32_K) level_towers bench_kept
    = Done true [] s'
    /\ probe_log s' = [500; 500; 500]
    /\ endstop_trim (kernel s') = Some (-1, -2, -3)%Q
    /\ (max3 (-1) (-2) (-3) == -1)%Q
    /\ ~ (max3 (-1) (-2) (-3) == 0)%Q.
Proof.
  eexists. split; [vm_compute; reflexivity|].
  split; [vm_compute; reflexivity|]. split; [vm_compute; reflexivity|].
  split; [reflexivity|]. intros H. vm_compute in H. discriminate.
Qed.

(** ** The dirty flag and G32 *)

Ltac dirty_side :=
  first [ reflexivity
        | let g := fresh "g" in
          let s := fresh "s" in
          let Hg := fresh "Hg" in
          intros g s Hg; unfold dirty; cbn [cds on_cds]; apply Hg ].

Lemma dirty_calibrate_delta_endstops gcode :
  preserves dirty (calibrate_delta_endstops gcode).
Proof. apply frame_calibrate_delta_endstops; dirty_side. Qed.

Lemma dirty_calibrate_delta_radius gcode :
  preserves dirty (calibrate_delta_radius gcode).
Proof. apply frame_calibrate_delta_radius; dirty_side. Qed.

Lemma dirty_prepare_to_probe : preserves dirty prepare_to_probe.
Proof. apply frame_prepare_to_probe; dirty_side. Qed.

Lemma dirty_do_probe_at x y : preserves dirty (do_probe_at x y).
Proof. apply frame_do_probe_at; dirty_side. Qed.

Lemma dirty_coordinated_move x y z fr rel :
  preserves dirty (coordinated_move x y z fr rel).
Proof. apply frame_coordinated_move; dirty_side. Qed.

Lemma dirty_wait_for_empty_queue : preserves dirty wait_for_empty_queue.
Proof. apply frame_wait_for_empty_queue; dirty_side. Qed.

Lemma dirty_idle : preserves dirty call_event_ON_IDLE.
Proof. apply frame_idle; dirty_side. Qed.

Lemma dirty_printf m : preserves dirty (_printf m).
Proof. apply preserves_modify. reflexivity. Qed.

(** Entered dirty, [require_clean_geometry] does not return; entered clean,
    it changes nothing. *)
Lemma dirty_require_clean_geometry : preserves dirty require_clean_geometry.
Proof.
  intros env s a env' s'. unfold require_clean_geometry, bind, get.
  destruct (geom_dirty (cds s)) eqn:D.
  - discriminate.
  - intros H. apply Done_inj in H as (_ & _ & <-). reflexivity.
Qed.

Ltac dirty_step :=
  first
    [ lazymatch goal with
      | |- preserves _ (_printf _) => apply dirty_printf
      | |- preserves _ call_event_ON_IDLE => apply dirty_idle
      | |- preserves _ flush => apply dirty_idle
      | |- preserves _ wait_for_empty_queue => apply dirty_wait_for_empty_queue
      | |- preserves _ (coordinated_move _ _ _ _ _) => apply dirty_coordinated_move
      | |- preserves _ prepare_to_probe => apply dirty_prepare_to_probe
      | |- preserves _ (do_probe_at _ _) => apply dirty_do_probe_at
      | |- preserves _ require_clean_geometry => apply dirty_require_clean_geometry
      | |- preserves _ (calibrate_delta_endstops _) =>
          apply dirty_calibrate_delta_endstops
      | |- preserves _ (calibrate_delta_radius _) =>
          apply dirty_calibrate_delta_radius
      | |- preserves _ (modify _) =>
          apply preserves_modify; intros;
          solve [ reflexivity
                | unfold dirty; cbn; split_ifs; reflexivity ]
      end
    | frame_step ].

Lemma dirty_get_optional o : preserves dirty (get_optional o).
Proof. unfold get_optional. repeat dirty_step. Qed.

Lemma dirty_print_geometry : preserves dirty print_geometry.
Proof.
  unfold print_geometry, get_delta_basic_geometry, get_tower_radius_offsets,
    get_tower_angle_offsets, get_tower_arm_offsets, refresh_options.
  repeat first [apply dirty_get_optional | dirty_step].
Qed.

Lemma dirty_depth_map_loop n : forall i origin lines first_row,
  preserves dirty (depth_map_loop n i origin lines first_row).
Proof.
  induction n as [|n IH]; intros; cbn [depth_map_loop].
  - apply preserves_ret.
  - repeat first
      [ lazymatch goal with
        | |- preserves _ (depth_map_loop _ _ _ _ _) => apply IH
        end
      | dirty_step ].
Qed.

Lemma dirty_heuristic_calibration : preserves dirty heuristic_calibration.
Proof.
  unfold heuristic_calibration, depth_map_print_surface, save_depth_map.
  repeat first
    [ lazymatch goal with
      | |- preserves _ (depth_map_loop _ _ _ _ _) => apply dirty_depth_map_loop
      | |- preserves _ print_geometry => apply dirty_print_geometry
      end
    | dirty_step ].
Qed.

Lemma dirty_set_acceleration a : preserves dirty (set_acceleration a).
Proof. unfold set_acceleration. repeat dirty_step. Qed.

Lemma dirty_sampling_loop fuel : forall todo ecc samples,
  preserves dirty (sampling_loop fuel todo ecc samples).
Proof.
  induction fuel as [|fuel IH]; intros [|todo] ecc samples;
    cbn [sampling_loop]; try apply preserves_ret.
  - intros env s a env' s' H. discriminate.
  - repeat first
      [ lazymatch goal with
        | |- preserves _ (sampling_loop _ _ _ _) => apply IH
        end
      | dirty_step ].
Qed.

Lemma dirty_setDecelerateOnTrigger t : preserves dirty (setDecelerateOnTrigger t).
Proof. unfold setDecelerateOnTrigger. repeat dirty_step. Qed.

Lemma dirty_measure_probe_repeatability gcode :
  preserves dirty (measure_probe_repeatability gcode).
Proof.
  unfold measure_probe_repeatability, save_acceleration, restore_acceleration.
  repeat first
    [ lazymatch goal with
      | |- preserves _ (sampling_loop _ _ _ _) => apply dirty_sampling_loop
      | |- preserves _ (set_acceleration _) => apply dirty_set_acceleration
      | |- preserves _ (setDecelerateOnTrigger _) =>
          apply dirty_setDecelerateOnTrigger
      | |- preserves _ (fun env s => Done env env s) =>
          let H := fresh in
          intros ? ? ? ? ? H; apply Done_inj in H as (_ & _ & <-); reflexivity
      end
    | dirty_step ].
Qed.

Lemma dirty_handleGcode_G gcode :
  has_g gcode = true -> preserves dirty (handleGcode gcode).
Proof.
  intros G. unfold handleGcode. rewrite G.
  repeat first
    [ lazymatch goal with
      | |- preserves _ (measure_probe_repeatability _) =>
          apply dirty_measure_probe_repeatability
      | |- preserves _ heuristic_calibration => apply dirty_heuristic_calibration
      end
    | dirty_step ].
Qed.

(** Once set, the dirty flag survives every command the strategy hands
    back: a G command leaves the flag as it is, and M665 can only set it. *)
Lemma dirty_handleGcode_set gcode env s r env' s' :
  handleGcode gcode env s = Done r env' s' ->
  dirty s = true -> dirty s' = true.
Proof.
  intros H. destruct (has_g gcode) eqn:G.
  - intros D. rewrite <- D. revert H. now apply dirty_handleGcode_G.
  - revert H. unfold handleGcode. rewrite G.
    destruct (has_m gcode).
    + intros H D. peel H as u env1 s1 Hm.
      apply Done_inj in H as (_ & _ & E). subst s'.
      revert Hm. destruct (m gcode =? 665);
        [destruct (existsb _ _)|]; intros Hm;
        apply Done_inj in Hm as (_ & _ & E); subst s1;
        first [exact D | reflexivity].
    + intros H D. apply Done_inj in H as (_ & _ & E). now subst s'.
Qed.

(** C5, a defect of the code.  G32 waits for the planner queue to drain,
    then runs the endstop-trim strategy (skipped when R is present) and,
    unless that failed, the delta-radius strategy (skipped when E is
    present), and reports; it handles the command in every case.  It does
    not go through [require_clean_geometry] and it never writes the dirty
    flag, which [handleConfig] and M665 set to say that the endstops and the
    delta radius have to be calibrated: whatever the two calibrations
    return, the flag after G32 is the flag before it.  At the failing input,
    the level bench with the flag set, G32 runs both calibrations to success
    in seven probes and reports "Basic calibration complete"; the flag is
    still set afterwards, and the line with which [require_clean_geometry]
    announces itself was never printed. *)
Theorem G32_never_clears_dirty_flag :
  (forall gcode env s r env' s',
     is_G32 gcode = true ->
     handleGcode gcode env s = Done r env' s' ->
     r = true
     /\ dirty s' = dirty s
     /\ exists env1 s1 ok1 env2 s2,
         wait_for_empty_queue env s = Done tt env1 s1
         /\ endstops_step gcode env1 s1 = Done ok1 env2 s2
         /\ if ok1 then
              exists ok2 s3,
                radius_step gcode env2 s2 = Done ok2 env' s3
                /\ s' = say (fst calibration_complete)
                            (snd (if ok2 then calibration_complete
                                  else calibration_failed)) s3
            else
              env' = env2
              /\ s' = say (fst calibration_failed) (snd calibration_failed) s2)
  /\ exists s',
      handleGcode G32 level_bed bench_prepared = Done true [] s'
      /\ dirty bench_prepared = true
      /\ dirty s' = true
      /\ last (output s') (NullStream, ""%string) = calibration_complete
      /\ ~ In redoing_line (output s')
      /\ probe_log s' = [500; 500; 500; 500; 500; 500; 500].
Proof.
  split.
  - intros gcode env s r env' s' G H.
    unfold is_G32 in G. apply andb_prop in G as [G1 G2].
    split; [|split].
    + revert H. unfold handleGcode. rewrite G1.
      apply Z.eqb_eq in G2. rewrite G2. cbn [Z.eqb Pos.eqb].
      intros H. peel H as u env1 s1 Hw. peel H as ok1 env2 s2 H1.
      destruct ok1; cbn [negb] in H.
      * peel H as ok2 env3 s3 H2. destruct ok2; cbn [negb] in H;
          peel H as u4 env4 s4 Hp; apply Done_inj in H as (E & _);
          now subst r.
      * peel H as u4 env4 s4 Hp. apply Done_inj in H as (E & _). now subst r.
    + revert H. now apply dirty_handleGcode_G.
    + revert H. unfold handleGcode. rewrite G1.
      apply Z.eqb_eq in G2. rewrite G2. cbn [Z.eqb Pos.eqb].
      intros H. peel H as u env1 s1 Hw. destruct u.
      peel H as ok1 env2 s2 H1.
      exists env1, s1, ok1, env2, s2. split; [exact Hw|].
      split.
      { unfold endstops_step. destruct (has_letter gcode "R"); exact H1. }
      destruct ok1; cbn [negb] in H.
      * peel H as ok2 env3 s3 H2. exists ok2, s3.
        destruct ok2; cbn [negb] in H;
          peel H as u4 env4 s4 Hp; apply Done_inj in Hp as (_ & E2 & E3);
          apply Done_inj in H as (_ & E4 & E5); subst env4 s4 env' s';
          (split; [unfold radius_step; destruct (has_letter gcode "E"); exact H2
                  |reflexivity]).
      * peel H as u4 env4 s4 Hp. apply Done_inj in Hp as (_ & E2 & E3).
        apply Done_inj in H as (_ & E4 & E5). subst env4 s4 env' s'.
        split; reflexivity.
  - eexists. split; [vm_compute; reflexivity|].
    split; [reflexivity|]. split; [vm_compute; reflexivity|].
    split; [vm_compute; reflexivity|]. split; [|vm_compute; reflexivity].
    vm_compute. intros H.
    repeat (destruct H as [H|H]; [discriminate|]). exact H.
Qed.

Lemma G32_on_level_bed :
  exists s',
    handleGcode G32 level_bed bench_prepared = Done true [] s'
    /\ dirty s' = dirty bench_prepared.
Proof.
  destruct (handleGcode G32 level_bed bench_prepared)
    as [r env' s'| |] eqn:E; try (vm_compute in E; discriminate).
  destruct (proj1 G32_never_clears_dirty_flag G32 level_bed bench_prepared
                  r env' s' eq_refl E) as (-> & D & _).
  assert (env' = []) as -> by (vm_compute in E; now inversion E).
  exists s'. split; [reflexivity|exact D].
Defined.

(** ** Step counters of a probe cycle with deceleration *)

Lemma motor_ok_set_speed r sm : motor_ok sm -> motor_ok (set_speed r sm).
Proof. intros H. exact H. Qed.

Lemma motor_ok_set_moved_last_block b sm :
  motor_ok sm -> motor_ok (set_moved_last_block b sm).
Proof. intros H. exact H. Qed.

Lemma motor_ok_force_finish_move sm :
  motor_ok sm -> motor_ok (force_finish_move sm).
Proof.
  intros (H1 & H2 & H3). unfold motor_ok, force_finish_move.
  cbn [stepped steps_to_move moving].
  split; [assumption|]. split; [assumption|discriminate].
Qed.

Lemma motor_ok_step sm : motor_ok sm -> motor_ok (motor_step sm).
Proof.
  intros H. unfold motor_step.
  destruct (moving sm) eqn:M; [|exact H].
  destruct H as (H1 & H2 & H3). specialize (H3 M).
  unfold motor_ok. cbn [stepped steps_to_move moving].
  split; [lia|]. split; [lia|].
  intros N. apply negb_true_iff, Z.eqb_neq in N. lia.
Qed.

Lemma motor_ok_move d n sp sm :
  0 <= n <= uint32_max -> motor_ok (motor_move d n sp sm).
Proof.
  intros Hn. unfold motor_move.
  assert (K : motor_ok
                {| moving := 0 <? n; direction := d; stepped := 0;
                   steps_to_move := n;
                   steps_per_second := steps_per_second sm;
                   steps_per_mm := steps_per_mm sm;
                   minimum_step_rate := minimum_step_rate sm;
                   current_position_steps := current_position_steps sm;
                   moved_last_block := moved_last_block sm |}).
  { unfold motor_ok. cbn [stepped steps_to_move moving].
    split; [lia|]. split; [lia|].
    intros M. now apply Z.ltb_lt in M. }
  destruct sp; [destruct (0 <? n)|]; exact K.
Qed.

Lemma f2uiz_range q : 0 <= f2uiz q <= uint32_max.
Proof. unfold f2uiz, uint32_max. lia. Qed.

Lemma wrap32_small z : 0 <= z <= uint32_max -> wrap32 z = z.
Proof. unfold wrap32, uint32_max. intros H. apply Z.mod_small. lia. Qed.

(** The Z actuator after an update of one actuator. *)
Lemma STEPPER_Z_on_actuator a h s :
  STEPPER Z_AXIS (on_actuators (on_actuator a h) s)
  = if axis_eqb a Z_AXIS then h (STEPPER Z_AXIS s) else STEPPER Z_AXIS s.
Proof. destruct a; reflexivity. Qed.

Lemma STEPPER_Z_stepper_set_speed a r s :
  motor_ok (STEPPER Z_AXIS s) ->
  motor_ok (STEPPER Z_AXIS (stepper_set_speed a r s))
  /\ is_moving (STEPPER Z_AXIS (stepper_set_speed a r s))
     = is_moving (STEPPER Z_AXIS s)
  /\ stepped (STEPPER Z_AXIS (stepper_set_speed a r s))
     = stepped (STEPPER Z_AXIS s).
Proof.
  intros H. unfold stepper_set_speed. rewrite STEPPER_Z_on_actuator.
  destruct (axis_eqb a Z_AXIS);
    (split; [exact H|split; reflexivity]).
Qed.

(** A stop commanded by the tick handler. *)
Lemma STEPPER_Z_stop a s :
  motor_ok (STEPPER Z_AXIS s) ->
  motor_ok (STEPPER Z_AXIS (stepper_move a false 0 None (stepper_set_speed a 0 s)))
  /\ (is_moving (STEPPER Z_AXIS
                   (stepper_move a false 0 None (stepper_set_speed a 0 s))) = true ->
      a <> Z_AXIS
      /\ is_moving (STEPPER Z_AXIS s) = true
      /\ stepped (STEPPER Z_AXIS
                    (stepper_move a false 0 None (stepper_set_speed a 0 s)))
         = stepped (STEPPER Z_AXIS s)).
Proof.
  intros H. unfold stepper_move, stepper_set_speed.
  change (STEPPER Z_AXIS (issue ?x ?y)) with (STEPPER Z_AXIS y).
  rewrite !STEPPER_Z_on_actuator.
  destruct a; cbn [axis_eqb]; (split; [|intros M]).
  - exact H.
  - split; [discriminate|]. split; [exact M|reflexivity].
  - exact H.
  - split; [discriminate|]. split; [exact M|reflexivity].
  - apply motor_ok_move. unfold uint32_max. lia.
  - discriminate.
Qed.

Lemma accelerate_sets_speed c s :
  exists r, accelerate c s = stepper_set_speed c r s.
Proof. eexists. reflexivity. Qed.

(** While the loop polls, the tick handler accelerates and records
    nothing. *)
Lemma polling_inv_tick_axis before c s :
  polling_inv before s -> polling_inv before (tick_axis c s).
Proof.
  intros (A & M & E). unfold tick_axis.
  destruct (is_moving (STEPPER c s)); [|split; [|split]; assumption].
  rewrite A. destruct (accelerate_sets_speed c s) as [r ->].
  destruct (STEPPER_Z_stepper_set_speed c r s M) as (M' & _ & _).
  split; [|split]; assumption.
Qed.

Lemma polling_inv_apply_event before e s :
  polling_inv before s -> polling_inv before (apply_event e s).
Proof.
  intros P. destruct e; cbn [apply_event].
  - destruct P as (A & M & E). split; [exact A|]. split; [|exact E].
    rewrite STEPPER_Z_on_actuator.
    destruct (axis_eqb a Z_AXIS); [now apply motor_ok_step|assumption].
  - unfold acceleration_tick. destruct (negb _); [assumption|].
    destruct (_ || _); auto using polling_inv_tick_axis.
  - unfold read_probe. destruct (_ || _); [assumption|].
    destruct (pin_get s); [|assumption].
    destruct P as (A & M & E). split; [exact A|]. split; [|exact E].
    now apply motor_ok_force_finish_move.
  - exact P.
  - exact P.
Qed.

Lemma polling_inv_run_slot before slot : forall s,
  polling_inv before s -> polling_inv before (run_slot slot s).
Proof.
  unfold run_slot. induction slot as [|e slot IH]; intros s P; cbn [fold_left].
  - exact P.
  - apply IH. now apply polling_inv_apply_event.
Qed.

(** One call of [decelerate] on a moving actuator. *)
Lemma decel_inv_decelerate steps limit before nondelta c s :
  decel_inv steps limit before nondelta s ->
  is_moving (STEPPER c s) = true ->
  (nondelta = true -> c = Z_AXIS) ->
  decel_inv steps limit before nondelta (decelerate c s).
Proof.
  intros (A & R & N & M & Mono & Sade) Mc Hc.
  assert (Small : nondelta = true ->
                  steps <= wrap32 (get_stepped (STEPPER c s))).
  { intros D. rewrite (Hc D) in *. specialize (Mono Mc).
    destruct M as (M1 & M2 & M3). specialize (M3 Mc).
    unfold get_stepped. rewrite wrap32_small; lia. }
  destruct (STEPPER_Z_stop c s M) as (M' & Mv).
  unfold decelerate. rewrite R.
  destruct (limit <=? wrap32 (get_stepped (STEPPER c s))) eqn:Over.
  - split; [exact A|]. split; [exact R|]. split; [exact N|].
    split; [exact M'|]. split.
    + intros Mz. destruct (Mv Mz) as (_ & Mz' & E).
      etransitivity; [apply (Mono Mz')|]. apply Z.eq_le_incl. symmetry. exact E.
    + cbn. discriminate.
  - apply Z.leb_gt in Over.
    match goal with
    | |- context [if ?r =? 0 then _ else _] => destruct (r =? 0)
    end.
    + split; [exact A|]. split; [exact R|]. split; [exact N|].
      split; [exact M'|]. split.
      * intros Mz. destruct (Mv Mz) as (_ & Mz' & E).
        etransitivity; [apply (Mono Mz')|]. apply Z.eq_le_incl. symmetry.
        exact E.
      * intros _. right. split; [exact Over|exact Small].
    + match goal with
      | |- decel_inv _ _ _ _ (stepper_set_speed c ?r s) =>
          destruct (STEPPER_Z_stepper_set_speed c r s M) as (M2 & Mm & Ms)
      end.
      split; [exact A|]. split; [exact R|]. split; [exact N|].
      split; [exact M2|]. split.
      * rewrite Mm, Ms. exact Mono.
      * exact Sade.
Qed.

Lemma decel_inv_tick_axis steps limit before nondelta c s :
  decel_inv steps limit before nondelta s ->
  (nondelta = true -> c = Z_AXIS) ->
  decel_inv steps limit before nondelta (tick_axis c s).
Proof.
  intros I Hc. unfold tick_axis.
  destruct (is_moving (STEPPER c s)) eqn:Mc; [|exact I].
  destruct I as (A & I). rewrite A.
  apply decel_inv_decelerate; [split; assumption|exact Mc|exact Hc].
Qed.

Lemma decel_inv_apply_event steps limit before nondelta e s :
  decel_inv steps limit before nondelta s ->
  decel_inv steps limit before nondelta (apply_event e s).
Proof.
  intros I. destruct e; cbn [apply_event].
  - destruct I as (A & R & N & M & Mono & Sade).
    split; [exact A|]. split; [exact R|]. split; [exact N|].
    rewrite STEPPER_Z_on_actuator.
    destruct (axis_eqb a Z_AXIS); [|split; [|split]; assumption].
    split; [now apply motor_ok_step|]. split; [|exact Sade].
    unfold motor_step, is_moving.
    destruct (moving (STEPPER Z_AXIS s)) eqn:Mz.
    + cbn [moving stepped]. intros _. specialize (Mono Mz). lia.
    + rewrite Mz. discriminate.
  - unfold acceleration_tick. destruct (negb _); [exact I|].
    assert (I1 : decel_inv steps limit before nondelta (tick_axis Z_AXIS s))
      by (apply decel_inv_tick_axis; auto).
    destruct (_ || _) eqn:D; [|exact I1].
    assert (Hn : nondelta = false).
    { destruct I1 as (_ & _ & N & _). unfold is_nondelta in N.
      rewrite D in N. now rewrite <- N. }
    apply decel_inv_tick_axis; [|rewrite Hn; discriminate].
    apply decel_inv_tick_axis; [exact I1|rewrite Hn; discriminate].
  - unfold read_probe. destruct (_ || _); [exact I|].
    destruct (pin_get s); [|exact I].
    destruct I as (A & R & N & M & Mono & Sade).
    split; [exact A|]. split; [exact R|]. split; [exact N|].
    split; [now apply motor_ok_force_finish_move|].
    split; [discriminate|exact Sade].
  - exact I.
  - exact I.
Qed.

Lemma decel_inv_run_slot steps limit before nondelta slot : forall s,
  decel_inv steps limit before nondelta s ->
  decel_inv steps limit before nondelta (run_slot slot s).
Proof.
  unfold run_slot. induction slot as [|e slot IH]; intros s I; cbn [fold_left].
  - exact I.
  - apply IH. now apply decel_inv_apply_event.
Qed.

Lemma decel_inv_wait_for_decel steps limit before nondelta :
  forall env s u env' s',
    wait_for_decel env s = Done u env' s' ->
    decel_inv steps limit before nondelta s ->
    decel_inv steps limit before nondelta s'.
Proof.
  induction env as [|slot env IH]; intros s u env' s' H I;
    cbn [wait_for_decel] in H; destruct (still_decelerating s);
    try discriminate; try (apply Done_inj in H as (_ & _ & <-); exact I).
  eapply IH; [exact H|]. now apply decel_inv_run_slot.
Qed.

Lemma stop_stepper_decelerating i s :
  decelerate_on_trigger (zprobe s) = true -> stop_stepper i s = s.
Proof.
  intros H. unfold stop_stepper. rewrite H.
  destruct (is_moving (STEPPER i s)); reflexivity.
Qed.


(** The trigger branch with deceleration enabled, when it reports true. *)
Lemma probe_triggered_decelerating before delta env s steps env' s' :
  probe_triggered delta env s = Done (true, Some steps) env' s' ->
  decelerate_on_trigger (zprobe s) = true ->
  polling_inv before s ->
  steps = get_stepped (STEPPER Z_AXIS s)
  /\ 0 <= steps <= uint32_max
  /\ runout_steps (zprobe s')
     = f2uiz (inject_Z (wrap32 steps)
              + decelerate_runout (zprobe s) * Z_STEPS_PER_MM s)%Q
  /\ (steps_at_decel_end (zprobe s') = before
      \/ (steps_at_decel_end (zprobe s') < runout_steps (zprobe s')
          /\ (is_nondelta s = true -> steps <= steps_at_decel_end (zprobe s')))).
Proof.
  intros H Hd (A & M & E).
  pose proof (probe_triggered_steps _ _ _ _ _ _ H) as Hs. cbn [snd] in Hs.
  assert (Hsteps : steps = get_stepped (STEPPER Z_AXIS s)) by congruence.
  clear Hs.
  assert (Range : 0 <= steps <= uint32_max).
  { destruct M as (M1 & M2 & M3). rewrite Hsteps. unfold get_stepped. lia. }
  split; [exact Hsteps|]. split; [exact Range|].
  unfold probe_triggered in H.
  peel H as s0 env0 s0' G. apply Done_inj in G as (E1 & E2 & E3).
  subst s0 env0 s0'. cbv zeta in H. rewrite Hd in H.
  peel H as u1 env1 s1 H1. apply Done_inj in H1 as (_ & E2 & E3).
  subst env1 s1.
  peel H as u2 env2 s2 H2.
  assert (E2 : env2 = env /\ s2 = on_zprobe (with_accelerating false) s).
  { assert (K : forall i, stop_stepper i (on_zprobe (with_accelerating false) s)
                            = on_zprobe (with_accelerating false) s)
      by (intros i; apply stop_stepper_decelerating; exact Hd).
    revert H2. destruct delta; cbv beta iota delta [bind modify];
      rewrite ?K; intros H2; apply Done_inj in H2 as (_ & <- & <-);
      split; reflexivity. }
  destruct E2 as [-> ->]. clear H2.
  peel H as u3 env3 s3 H3.
  peel H3 as u4 env4 s4 H4. apply Done_inj in H4 as (_ & E4 & E5).
  subst env4 s4.
  peel H3 as u5 env5 s5 H5.
  peel H3 as u6 env6 s6 H6. apply Done_inj in H6 as (_ & E6 & E7).
  subst env6 s6.
  apply Done_inj in H3 as (_ & E8 & E9). subst env3 s3.
  peel H as s7 env7 s7' G. apply Done_inj in G as (E1 & E2 & E3).
  subst s7 env7 s7'.
  eapply (decel_inv_wait_for_decel steps
            (f2uiz (inject_Z (wrap32 steps)
                    + decelerate_runout (zprobe s) * Z_STEPS_PER_MM s)%Q)
            before (is_nondelta s)) in H5.
  - destruct H5 as (A5 & R5 & N5 & M5 & Mono5 & Sade5).
    cbn [zprobe on_zprobe with_accelerating with_running has_exceeded_runout] in H.
    destruct (has_exceeded_runout (zprobe s5)) eqn:X.
    + peel H as u8 env8 s8 H8. peel H as u9 env9 s9 H9.
      apply Done_inj in H as (Habs & _). discriminate.
    + apply Done_inj in H as (_ & _ & <-).
      cbn [zprobe on_zprobe with_accelerating with_running runout_steps
           steps_at_decel_end].
      rewrite R5. split; [reflexivity|]. exact (Sade5 eq_refl).
  - split; [reflexivity|]. split.
    { cbn [zprobe on_zprobe with_runout_steps with_accelerating runout_steps].
      rewrite Hsteps. reflexivity. }
    split; [reflexivity|]. split; [exact M|]. split.
    + intros _. rewrite Hsteps. unfold get_stepped. apply Z.le_refl.
    + intros _. left. exact E.
Qed.

(** The settings of the cycle are not touched by the interrupt handlers. *)
Lemma cycle_settings_on_actuators g s :
  keeps_steps_per_mm g -> cycle_settings (on_actuators g s) = cycle_settings s.
Proof.
  intros Hg. unfold cycle_settings, Z_STEPS_PER_MM, STEPS_PER_MM, STEPPER,
    get_steps_per_mm.
  cbn [actuators on_actuators zprobe]. now rewrite (Hg (actuators s) Z_AXIS).
Qed.

Lemma cycle_settings_stepper_set_speed c r s :
  cycle_settings (stepper_set_speed c r s) = cycle_settings s.
Proof.
  unfold stepper_set_speed. apply cycle_settings_on_actuators.
  now apply on_actuator_keeps.
Qed.

Lemma cycle_settings_stepper_move c d n sp s :
  cycle_settings (stepper_move c d n sp s) = cycle_settings s.
Proof.
  unfold stepper_move.
  change (cycle_settings (issue ?a ?x)) with (cycle_settings x).
  apply cycle_settings_on_actuators, on_actuator_keeps,
    motor_move_steps_per_mm.
Qed.

Lemma cycle_settings_tick_axis c s :
  cycle_settings (tick_axis c s) = cycle_settings s.
Proof.
  unfold tick_axis. destruct (is_moving _); [|reflexivity].
  destruct (accelerating _).
  - destruct (accelerate_sets_speed c s) as [r ->].
    apply cycle_settings_stepper_set_speed.
  - unfold decelerate. split_ifs;
      repeat first
        [ reflexivity
        | apply cycle_settings_stepper_set_speed
        | match goal with
          | |- cycle_settings (on_zprobe ?g ?x) = _ =>
              change (cycle_settings (on_zprobe g x)) with (cycle_settings x)
          end
        | rewrite cycle_settings_stepper_move ].
Qed.

Lemma cycle_settings_apply_event e s :
  cycle_settings (apply_event e s) = cycle_settings s.
Proof.
  destruct e; cbn [apply_event]; try reflexivity.
  - apply cycle_settings_on_actuators, on_actuator_keeps,
      motor_step_steps_per_mm.
  - unfold acceleration_tick. split_ifs;
      rewrite ?cycle_settings_tick_axis; reflexivity.
  - unfold read_probe. split_ifs; reflexivity.
Qed.

Lemma cycle_settings_run_slot slot : forall s,
  cycle_settings (run_slot slot s) = cycle_settings s.
Proof.
  unfold run_slot. induction slot as [|e slot IH]; intros s; cbn [fold_left].
  - reflexivity.
  - now rewrite IH, cycle_settings_apply_event.
Qed.

Lemma cycle_settings_inv s1 s :
  cycle_settings s1 = cycle_settings s ->
  decelerate_on_trigger (zprobe s1) = decelerate_on_trigger (zprobe s)
  /\ decelerate_runout (zprobe s1) = decelerate_runout (zprobe s)
  /\ is_nondelta s1 = is_nondelta s
  /\ Z_STEPS_PER_MM s1 = Z_STEPS_PER_MM s.
Proof.
  unfold cycle_settings, is_nondelta. intros H. inversion H as [[H1 H2 H3 H4 H5]].
  rewrite H3, H4. auto.
Qed.

(** The polling loop with deceleration enabled, when it reports true. *)
Lemma wait_for_probe_decelerating before :
  forall env debounce s steps env' s',
    wait_for_probe_from debounce env s = Done (true, Some steps) env' s' ->
    decelerate_on_trigger (zprobe s) = true ->
    polling_inv before s ->
    0 <= steps <= uint32_max
    /\ runout_steps (zprobe s')
       = f2uiz (inject_Z (wrap32 steps)
                + decelerate_runout (zprobe s) * Z_STEPS_PER_MM s)%Q
    /\ (steps_at_decel_end (zprobe s') = before
        \/ (steps_at_decel_end (zprobe s') < runout_steps (zprobe s')
            /\ (is_nondelta s = true -> steps <= steps_at_decel_end (zprobe s')))).
Proof.
  induction env as [|slot env IH]; intros debounce s steps env' s' H Hd P;
    cbn [wait_for_probe_from] in H; [discriminate|].
  pose proof (polling_inv_run_slot before slot s P) as P1.
  destruct (cycle_settings_inv _ _ (cycle_settings_run_slot slot s))
    as (C1 & C2 & C3 & C4).
  assert (Hd1 : decelerate_on_trigger (zprobe (run_slot slot s)) = true)
    by congruence.
  rewrite <- C2, <- C3, <- C4.
  destruct (is_halted _); [apply Done_inj in H as (Habs & _); discriminate|].
  destruct (no_stepper_moving _ _);
    [apply Done_inj in H as (Habs & _); discriminate|].
  destruct (pin_get _).
  - destruct (_ <? _).
    + eapply IH; eassumption.
    + destruct (probe_triggered_decelerating before _ _ _ _ _ _ H Hd1 P1)
        as (_ & R & L & S).
      split; [exact R|]. split; [exact L|exact S].
  - eapply IH; eassumption.
Qed.

Lemma cycle_settings_on_zprobe g s :
  (forall z, decelerate_on_trigger (g z) = decelerate_on_trigger z
             /\ decelerate_runout (g z) = decelerate_runout z
             /\ is_delta (g z) = is_delta z
             /\ is_rdelta (g z) = is_rdelta z) ->
  cycle_settings (on_zprobe g s) = cycle_settings s.
Proof.
  intros Hg. destruct (Hg (zprobe s)) as (H1 & H2 & H3 & H4).
  unfold cycle_settings.
  change (Z_STEPS_PER_MM (on_zprobe g s)) with (Z_STEPS_PER_MM s).
  cbn [zprobe on_zprobe]. now rewrite H1, H2, H3, H4.
Qed.

Lemma cycle_settings_issue a s : cycle_settings (issue a s) = cycle_settings s.
Proof. reflexivity. Qed.

Ltac settings_step :=
  lazymatch goal with
  | |- cycle_settings (on_zprobe _ _) = _ =>
      rewrite cycle_settings_on_zprobe by (intros z; repeat split)
  | |- cycle_settings (issue _ _) = _ =>
      rewrite cycle_settings_issue
  | |- cycle_settings (stepper_move _ _ _ _ _) = _ =>
      rewrite cycle_settings_stepper_move
  | |- cycle_settings (on_actuators (on_actuator _ (set_moved_last_block _)) _)
       = _ =>
      rewrite cycle_settings_on_actuators
        by (apply on_actuator_keeps; reflexivity)
  end.

(** [start_probe] arms the cycle: the Z actuator is commanded within range,
    the acceleration phase is on, and the step count of the previous
    deceleration is still in place. *)
Lemma start_probe_polling feedrate max_dist reverse env s u env1 s1 :
  start_probe feedrate max_dist reverse env s = Done u env1 s1 ->
  env1 = env
  /\ polling_inv (steps_at_decel_end (zprobe s)) s1
  /\ cycle_settings s1 = cycle_settings s.
Proof.
  unfold start_probe, bind, modify, get, ret.
  destruct (is_delta _ || is_rdelta _); intros H;
    apply Done_inj in H as (_ & <- & <-); (split; [reflexivity|]).
  - split; [|repeat settings_step; reflexivity].
    split; [reflexivity|]. split; [|reflexivity].
    apply motor_ok_move, f2uiz_range.
  - split; [|repeat settings_step; reflexivity].
    split; [reflexivity|]. split; [|reflexivity].
    apply motor_ok_move, f2uiz_range.
Qed.

Lemma f2uiz_le (q : float) : (0 <= q)%Q -> (inject_Z (f2uiz q) <= q)%Q.
Proof.
  intros Hq. unfold f2uiz.
  assert (F : 0 <= Qfloor q).
  { change 0 with (Qfloor 0). now apply Qfloor_resp_le. }
  eapply Qle_trans; [|apply Qfloor_le].
  rewrite <- Zle_Qle. lia.
Qed.

Lemma runout_bound (sade steps : Z) (r spm : float) :
  0 <= steps -> (0 <= r)%Q -> (0 <= spm)%Q ->
  sade < f2uiz (inject_Z steps + r * spm)%Q ->
  (inject_Z sade <= inject_Z steps + r * spm + 1)%Q.
Proof.
  intros Hs Hr Hm H.
  assert (Hq : (0 <= inject_Z steps + r * spm)%Q).
  { apply Qle_trans with (inject_Z steps + 0)%Q.
    - rewrite Qplus_0_r. change 0%Q with (inject_Z 0). rewrite <- Zle_Qle. lia.
    - apply Qplus_le_r. now apply Qmult_le_0_compat. }
  apply Qle_trans with (inject_Z steps + r * spm)%Q.
  - eapply Qle_trans; [|apply (f2uiz_le _ Hq)]. rewrite <- Zle_Qle. lia.
  - rewrite <- (Qplus_0_r (inject_Z steps + r * spm)) at 1.
    apply Qplus_le_r. discriminate.
Qed.

Lemma run_probe_eq :
  run_probe = fun feedrate max_dist reverse =>
    start_probe feedrate max_dist reverse ;;
    r <- wait_for_probe ;;
    modify (on_zprobe (with_running false)) ;;
    ret r.
Proof. reflexivity. Qed.

Lemma run_probe_Done feedrate max_dist reverse env s r env' s' :
  run_probe feedrate max_dist reverse env s = Done r env' s' ->
  exists s1 s2,
    start_probe feedrate max_dist reverse env s = Done tt env s1
    /\ wait_for_probe env s1 = Done r env' s2
    /\ s' = on_zprobe (with_running false) s2.
Proof.
  intros H. rewrite run_probe_eq in H. cbv beta in H.
  peel H as u e1 s1 H1. peel H as r2 e2 s2 H2.
  peel H as u2 e3 s3 H3.
  apply Done_inj in H as (-> & -> & ->).
  apply Done_inj in H3 as (_ & -> & <-).
  destruct u.
  destruct (start_probe_polling _ _ _ _ _ _ _ _ H1) as (-> & _).
  now exists s1, s2.
Qed.

(** C4, as the code has it.  A probe cycle that reports a trigger with
    [decelerate_on_trigger] enabled (and a runout and a step resolution that
    are not negative) leaves [steps_at_decel_end] either untouched, still
    holding the value of an earlier cycle, or holding a count written by the
    deceleration tick handler that lies below [runout_steps], hence within
    [steps + decelerate_runout * steps_per_mm + 1]; that count is not below
    the steps at the trigger when only the Z actuator is driven (neither
    delta flag set). *)
Theorem decel_end_within_runout feedrate max_dist reverse env s steps env' s' :
  run_probe feedrate max_dist reverse env s = Done (true, Some steps) env' s' ->
  decelerate_on_trigger (zprobe s) = true ->
  (0 <= decelerate_runout (zprobe s))%Q ->
  (0 <= Z_STEPS_PER_MM s)%Q ->
  steps_at_decel_end (zprobe s') = steps_at_decel_end (zprobe s)
  \/ ((inject_Z (steps_at_decel_end (zprobe s'))
       <= inject_Z steps + decelerate_runout (zprobe s) * Z_STEPS_PER_MM s + 1)%Q
      /\ steps_at_decel_end (zprobe s') < runout_steps (zprobe s')
      /\ (is_nondelta s = true -> steps <= steps_at_decel_end (zprobe s'))).
Proof.
  intros H Hd Hr Hs.
  apply run_probe_Done in H as (s1 & s2 & H1 & H2 & ->).
  destruct (start_probe_polling _ _ _ _ _ _ _ _ H1) as (_ & P & C).
  destruct (cycle_settings_inv _ _ C) as (C1 & C2 & C3 & C4).
  assert (Hd1 : decelerate_on_trigger (zprobe s1) = true) by congruence.
  destruct (wait_for_probe_decelerating _ _ _ _ _ _ _ H2 Hd1 P)
    as (R & L & S).
  assert (E1 : steps_at_decel_end (zprobe (on_zprobe (with_running false) s2))
               = steps_at_decel_end (zprobe s2)) by reflexivity.
  assert (E2 : runout_steps (zprobe (on_zprobe (with_running false) s2))
               = runout_steps (zprobe s2)) by reflexivity.
  rewrite E1, E2. clear E1 E2.
  destruct S as [S | (S1 & S2)]; [left; exact S | right].
  split; [|split; [exact S1|]].
  - rewrite L, C2, C4, (wrap32_small _ R) in S1.
    apply runout_bound; [lia|assumption|assumption|exact S1].
  - intros N. apply S2. now rewrite C3.
Qed.

Lemma decel_end_on_cartesian_bench :
  run_probe 5 (-1) false first_cycle (cartesian bench_decel)
  = Done (true, Some 500) [] (probed (-1) first_cycle (cartesian bench_decel))
  /\ steps_at_decel_end (zprobe (cartesian bench_decel)) = 0
  /\ steps_at_decel_end
       (zprobe (probed (-1) first_cycle (cartesian bench_decel))) = 500
  /\ (steps_at_decel_end
        (zprobe (probed (-1) first_cycle (cartesian bench_decel)))
      = steps_at_decel_end (zprobe (cartesian bench_decel))
      \/ ((inject_Z (steps_at_decel_end
                       (zprobe (probed (-1) first_cycle (cartesian bench_decel))))
           <= inject_Z 500
              + decelerate_runout (zprobe (cartesian bench_decel))
                * Z_STEPS_PER_MM (cartesian bench_decel) + 1)%Q
          /\ steps_at_decel_end
               (zprobe (probed (-1) first_cycle (cartesian bench_decel)))
             < runout_steps
                 (zprobe (probed (-1) first_cycle (cartesian bench_decel)))
          /\ (is_nondelta (cartesian bench_decel) = true ->
              500 <= steps_at_decel_end
                       (zprobe (probed (-1) first_cycle
                                  (cartesian bench_decel)))))).
Proof.
  assert (E : run_probe 5 (-1) false first_cycle (cartesian bench_decel)
              = Done (true, Some 500) []
                  (probed (-1) first_cycle (cartesian bench_decel)))
    by (vm_compute; reflexivity).
  split; [exact E|]. split; [reflexivity|]. split; [vm_compute; reflexivity|].
  apply (decel_end_within_runout _ _ _ _ _ _ _ _ E).
  - reflexivity.
  - vm_compute. discriminate.
  - vm_compute. discriminate.
Defined.

(** C4, as stated, fails, in both directions.  On the bench (a delta, 100
    steps per mm, runout 0.25 mm) a first cycle triggers at 500 steps and is
    brought to rest by the tick handler, which records 500.  A second cycle,
    limited to 1 mm, triggers at 99 steps; the towers finish their move
    before the next tick, so the handler records nothing and
    [steps_at_decel_end] is still 500, above 99 + 25 + 1.  And in a cycle in
    which the Y tower is one step behind Z at the trigger, the cycle reports
    100 steps (the Z count) while the handler records 99 (the Y count). *)
Lemma decel_end_outside_claimed_bounds :
  (run_probe 5 (-1) false first_cycle bench_decel
   = Done (true, Some 500) [] (probed (-1) first_cycle bench_decel)
   /\ run_probe 5 1 false second_cycle (probed (-1) first_cycle bench_decel)
      = Done (true, Some 99) []
          (probed 1 second_cycle (probed (-1) first_cycle bench_decel))
   /\ decelerate_on_trigger (zprobe (probed (-1) first_cycle bench_decel))
      = true
   /\ steps_at_decel_end
        (zprobe (probed 1 second_cycle (probed (-1) first_cycle bench_decel)))
      = 500
   /\ ~ (inject_Z (steps_at_decel_end
                     (zprobe (probed 1 second_cycle
                                (probed (-1) first_cycle bench_decel))))
         <= inject_Z 99
            + decelerate_runout (zprobe (probed (-1) first_cycle bench_decel))
              * Z_STEPS_PER_MM (probed (-1) first_cycle bench_decel) + 1)%Q)
  /\ (run_probe 5 (-1) false y_lags bench_decel
      = Done (true, Some 100) [] (probed (-1) y_lags bench_decel)
      /\ decelerate_on_trigger (zprobe bench_decel) = true
      /\ steps_at_decel_end (zprobe (probed (-1) y_lags bench_decel)) = 99
      /\ ~ 100 <= steps_at_decel_end (zprobe (probed (-1) y_lags bench_decel))).
Proof.
  split.
  - split; [vm_compute; reflexivity|]. split; [vm_compute; reflexivity|].
    split; [vm_compute; reflexivity|]. split; [vm_compute; reflexivity|].
    vm_compute. intros H. now apply H.
  - split; [vm_compute; reflexivity|]. split; [reflexivity|].
    split; [vm_compute; reflexivity|].
    vm_compute. intros H. now apply H.
Qed.

(** ** Further properties of the probe cycle *)

Lemma is_halted_apply_event e s :
  is_halted s = true -> is_halted (apply_event e s) = true.
Proof.
  intros H. destruct e; cbn [apply_event]; try assumption; try reflexivity.
  - rewrite (f_acceleration_tick is_halted); try assumption;
      intros; reflexivity.
  - rewrite (f_read_probe is_halted); try assumption; intros; reflexivity.
Qed.

Lemma is_halted_run_slot slot : forall s,
  is_halted s = true -> is_halted (run_slot slot s) = true.
Proof.
  unfold run_slot. induction slot as [|e slot IH]; intros s H; cbn [fold_left].
  - assumption.
  - apply IH. now apply is_halted_apply_event.
Qed.

Lemma kill_run_slot slot : forall s,
  In EvKill slot -> is_halted (run_slot slot s) = true.
Proof.
  induction slot as [|e slot IH]; intros s K; [destruct K|].
  destruct K as [E | H].
  - subst e. apply (is_halted_run_slot slot). reflexivity.
  - apply (IH (apply_event e s) H).
Qed.

(** [start_probe] does not wait: it leaves the schedule alone. *)
Lemma start_probe_started feedrate max_dist reverse env s :
  start_probe feedrate max_dist reverse env s
  = Done tt env (started feedrate max_dist reverse s).
Proof.
  assert (E : exists s1, forall env0,
             start_probe feedrate max_dist reverse env0 s = Done tt env0 s1).
  { unfold start_probe, bind, modify, get, ret.
    destruct (is_delta _ || is_rdelta _); eexists; intros; reflexivity. }
  destruct E as (s1 & E). unfold started. now rewrite (E []), (E env).
Qed.

(** X1.  A kill raised during the first idle call of a probe cycle ends the
    cycle at once: [run_probe] reports "not triggered" without storing a
    step count, whatever the probe reads in that call.  Beyond clearing
    [running] it does nothing more; in particular it commands no actuator to
    stop, so the moves it started stay as the idle call left them. *)
Theorem kill_aborts_probe_cycle feedrate max_dist reverse slot env s :
  In EvKill slot ->
  run_probe feedrate max_dist reverse (slot :: env) s
  = Done (false, None) env
      (on_zprobe (with_running false)
         (run_slot slot (started feedrate max_dist reverse s))).
Proof.
  intros K. rewrite run_probe_eq. cbv beta. unfold bind.
  rewrite start_probe_started. unfold wait_for_probe.
  cbn [wait_for_probe_from]. rewrite (kill_run_slot slot _ K). reflexivity.
Qed.

Lemma kill_on_bench_leaves_towers_moving :
  run_probe 5 (-1) false [[EvPin true; EvKill]] bench
  = Done (false, None) []
      (on_zprobe (with_running false)
         (run_slot [EvPin true; EvKill] (started 5 (-1) false bench)))
  /\ is_moving (STEPPER Z_AXIS
       (run_slot [EvPin true; EvKill] (started 5 (-1) false bench))) = true.
Proof.
  split; [|vm_compute; reflexivity].
  apply (kill_aborts_probe_cycle 5 (-1) false [EvPin true; EvKill] [] bench).
  simpl. auto.
Defined.

(** While the tick handler accelerates, the interrupt handlers leave the two
    polling flags alone. *)
Lemma tick_axis_accelerating c s :
  accelerating (zprobe s) = true -> zprobe (tick_axis c s) = zprobe s.
Proof.
  intros H. unfold tick_axis. rewrite H. destruct (is_moving _); reflexivity.
Qed.

Lemma polling_flags_apply_event e s :
  accelerating (zprobe s) = true ->
  polling_flags (apply_event e s) = polling_flags s.
Proof.
  intros H. destruct e; cbn [apply_event]; try reflexivity.
  - unfold polling_flags, acceleration_tick. destruct (negb _); [reflexivity|].
    assert (Z1 : zprobe (tick_axis Z_AXIS s) = zprobe s)
      by now apply tick_axis_accelerating.
    rewrite Z1. destruct (_ || _); [|now rewrite Z1].
    assert (X1 : zprobe (tick_axis X_AXIS (tick_axis Z_AXIS s)) = zprobe s).
    { rewrite tick_axis_accelerating; [exact Z1|now rewrite Z1]. }
    rewrite tick_axis_accelerating; now rewrite X1.
  - unfold read_probe. split_ifs; reflexivity.
Qed.

Lemma polling_flags_run_slot slot : forall s,
  accelerating (zprobe s) = true ->
  polling_flags (run_slot slot s) = polling_flags s.
Proof.
  unfold run_slot. induction slot as [|e slot IH]; intros s H; cbn [fold_left].
  - reflexivity.
  - pose proof (polling_flags_apply_event e s H) as E.
    rewrite IH; [exact E|].
    unfold polling_flags in E. inversion E. congruence.
Qed.

Lemma start_probe_flags feedrate max_dist reverse env s u env1 s1 :
  start_probe feedrate max_dist reverse env s = Done u env1 s1 ->
  polling_flags s1 = (true, false).
Proof.
  rewrite start_probe_started. intros H. apply Done_inj in H as (_ & _ & <-).
  unfold started, start_probe, bind, modify, get, ret.
  destruct (is_delta _ || is_rdelta _); reflexivity.
Qed.

Lemma is_moving_stop_stepper a b s :
  decelerate_on_trigger (zprobe s) = false ->
  is_moving (STEPPER a (stop_stepper b s))
  = if axis_eqb a b then false else is_moving (STEPPER a s).
Proof.
  intros H. unfold stop_stepper. rewrite H. cbn [negb].
  destruct (is_moving (STEPPER b s)) eqn:E.
  - destruct a, b; reflexivity.
  - destruct a, b; cbn [axis_eqb]; try reflexivity; exact E.
Qed.

(** Without deceleration the trigger branch stops the towers and returns. *)
Lemma probe_triggered_stops delta env s :
  decelerate_on_trigger (zprobe s) = false ->
  has_exceeded_runout (zprobe s) = false ->
  exists s',
    probe_triggered delta env s
    = Done (true, Some (get_stepped (STEPPER Z_AXIS s))) env s'
    /\ zprobe s' = zprobe s
    /\ is_moving (STEPPER Z_AXIS s') = false
    /\ (delta = true ->
        is_moving (STEPPER X_AXIS s') = false
        /\ is_moving (STEPPER Y_AXIS s') = false).
Proof.
  intros Hd He. cbv beta iota delta [probe_triggered bind get modify ret _printf].
  rewrite Hd. cbv beta iota zeta.
  destruct delta; cbv beta iota zeta; rewrite !stop_stepper_zprobe, He;
    eexists; (split; [reflexivity|]); rewrite ?stop_stepper_zprobe;
    (split; [reflexivity|]).
  - rewrite !is_moving_stop_stepper by (now rewrite ?stop_stepper_zprobe).
    cbn [axis_eqb]. split; [reflexivity|]. intros _. split; reflexivity.
  - rewrite is_moving_stop_stepper by assumption. cbn [axis_eqb].
    split; [reflexivity|]. discriminate.
Qed.

Lemma wait_for_probe_hard_stop : forall env debounce s r env' s',
  wait_for_probe_from debounce env s = Done r env' s' ->
  polling_flags s = (true, false) ->
  decelerate_on_trigger (zprobe s) = false ->
  has_exceeded_runout (zprobe s') = false
  /\ (fst r = false -> snd r = None)
  /\ (fst r = true ->
      (exists steps, snd r = Some steps)
      /\ is_moving (STEPPER Z_AXIS s') = false
      /\ (is_nondelta s = false ->
          is_moving (STEPPER X_AXIS s') = false
          /\ is_moving (STEPPER Y_AXIS s') = false)).
Proof.
  induction env as [|slot env IH]; intros debounce s r env' s' H F Hd;
    cbn [wait_for_probe_from] in H; [discriminate|].
  assert (A : accelerating (zprobe s) = true)
    by (unfold polling_flags in F; now inversion F).
  pose proof (polling_flags_run_slot slot s A) as F1. rewrite F in F1.
  destruct (cycle_settings_inv _ _ (cycle_settings_run_slot slot s))
    as (C1 & _ & C3 & _).
  assert (Hd1 : decelerate_on_trigger (zprobe (run_slot slot s)) = false)
    by congruence.
  assert (E1 : has_exceeded_runout (zprobe (run_slot slot s)) = false)
    by (unfold polling_flags in F1; now inversion F1).
  rewrite <- C3.
  assert (Stop : forall x : Machine,
             Done (false, @None Z) env x = Done r env' s' ->
             x = run_slot slot s ->
             has_exceeded_runout (zprobe s') = false
             /\ (fst r = false -> snd r = None)
             /\ (fst r = true ->
                 (exists steps, snd r = Some steps)
                 /\ is_moving (STEPPER Z_AXIS s') = false
                 /\ (is_nondelta (run_slot slot s) = false ->
                     is_moving (STEPPER X_AXIS s') = false
                     /\ is_moving (STEPPER Y_AXIS s') = false))).
  { intros x G ->. apply Done_inj in G as (<- & _ & <-).
    split; [exact E1|]. split; [reflexivity|]. discriminate. }
  destruct (is_halted _); [now apply (Stop _ H)|].
  destruct (no_stepper_moving _ _); [now apply (Stop _ H)|].
  clear Stop.
  destruct (pin_get _).
  - destruct (_ <? _).
    + eapply IH; eassumption.
    + destruct (probe_triggered_stops
                  (is_delta (zprobe (run_slot slot s))
                   || is_rdelta (zprobe (run_slot slot s)))
                  env (run_slot slot s) Hd1 E1) as (x & G & Z & MZ & MXY).
      rewrite G in H. apply Done_inj in H as (<- & _ & <-).
      split; [now rewrite Z|]. split; [discriminate|]. intros _.
      split; [eexists; reflexivity|]. split; [exact MZ|].
      intros N. apply MXY. unfold is_nondelta in N.
      now apply negb_false_iff in N.
  - eapply IH; eassumption.
Qed.

(** X2.  With deceleration on trigger disabled, a probe cycle that reports a
    trigger has stopped every actuator it drives by the time it returns: Z,
    and on a delta X and Y as well.  Such a cycle never reports a runout
    failure: the result is either "triggered" with a step count or "not
    triggered" without one, and the runout flag stays clear. *)
Theorem trigger_without_deceleration_stops
        feedrate max_dist reverse env s r env' s' :
  run_probe feedrate max_dist reverse env s = Done r env' s' ->
  decelerate_on_trigger (zprobe s) = false ->
  has_exceeded_runout (zprobe s') = false
  /\ running (zprobe s') = false
  /\ (fst r = false -> snd r = None)
  /\ (fst r = true ->
      (exists steps, snd r = Some steps)
      /\ is_moving (STEPPER Z_AXIS s') = false
      /\ (is_nondelta s = false ->
          is_moving (STEPPER X_AXIS s') = false
          /\ is_moving (STEPPER Y_AXIS s') = false)).
Proof.
  intros H Hd.
  apply run_probe_Done in H as (s1 & s2 & H1 & H2 & ->).
  pose proof (start_probe_flags _ _ _ _ _ _ _ _ H1) as F.
  destruct (start_probe_polling _ _ _ _ _ _ _ _ H1) as (_ & _ & C).
  destruct (cycle_settings_inv _ _ C) as (C1 & _ & C3 & _).
  assert (Hd1 : decelerate_on_trigger (zprobe s1) = false) by congruence.
  destruct (wait_for_probe_hard_stop _ _ _ _ _ _ H2 F Hd1) as (E & N & T).
  rewrite C3 in T.
  split; [exact E|]. split; [reflexivity|]. split; [exact N|exact T].
Qed.

Lemma hard_stop_on_bench :
  run_probe 5 (-1) false [descend 500] bench
  = Done (true, Some 500) [] (probed (-1) [descend 500] bench)
  /\ is_nondelta bench = false
  /\ is_moving (STEPPER Z_AXIS (probed (-1) [descend 500] bench)) = false
  /\ is_moving (STEPPER X_AXIS (probed (-1) [descend 500] bench)) = false
  /\ is_moving (STEPPER Y_AXIS (probed (-1) [descend 500] bench)) = false.
Proof.
  assert (E : run_probe 5 (-1) false [descend 500] bench
              = Done (true, Some 500) [] (probed (-1) [descend 500] bench))
    by (vm_compute; reflexivity).
  destruct (trigger_without_deceleration_stops _ _ _ _ _ _ _ _ E)
    as (_ & _ & _ & T); [reflexivity|].
  destruct (T eq_refl) as (_ & MZ & MXY).
  destruct (MXY eq_refl) as (MX & MY).
  split; [exact E|]. split; [reflexivity|]. auto.
Defined.

(** The trigger branch ends by reading the runout flag. *)
Lemma probe_triggered_verdict delta env s r env' s' :
  probe_triggered delta env s = Done r env' s' ->
  (exists steps, snd r = Some steps)
  /\ fst r = negb (has_exceeded_runout (zprobe s'))
  /\ (fst r = false -> exists pre, output s' = pre ++ runout_warning).
Proof.
  unfold probe_triggered. intros H.
  peel H as s0 e0 t0 G0. apply Done_inj in G0 as (<- & _ & _).
  peel H as u1 e1 s1 H1. peel H as u2 e2 s2 H2. peel H as u3 e3 s3 H3.
  peel H as s4 e4 t4 G4. apply Done_inj in G4 as (<- & _ & <-).
  destruct (has_exceeded_runout (zprobe s3)) eqn:E.
  - unfold bind, _printf, modify, ret in H.
    apply Done_inj in H as (<- & _ & <-).
    split; [eexists; reflexivity|]. split; [cbn; now rewrite E|].
    intros _. exists (output s3). cbn [output say]. now rewrite <- app_assoc.
  - apply Done_inj in H as (<- & _ & <-).
    split; [eexists; reflexivity|]. split; [cbn; now rewrite E|].
    discriminate.
Qed.

Lemma wait_for_probe_verdict : forall env debounce s r env' s',
  wait_for_probe_from debounce env s = Done r env' s' ->
  match snd r with
  | Some _ =>
      fst r = negb (has_exceeded_runout (zprobe s'))
      /\ (fst r = false -> exists pre, output s' = pre ++ runout_warning)
  | None => fst r = false
  end.
Proof.
  induction env as [|slot env IH]; intros debounce s r env' s' H;
    cbn [wait_for_probe_from] in H; [discriminate|].
  destruct (is_halted _);
    [apply Done_inj in H as (<- & _ & _); reflexivity|].
  destruct (no_stepper_moving _ _);
    [apply Done_inj in H as (<- & _ & _); reflexivity|].
  destruct (pin_get _).
  - destruct (_ <? _).
    + eapply IH; eassumption.
    + apply probe_triggered_verdict in H as ((steps & ->) & V & W). now split.
  - eapply IH; eassumption.
Qed.

(** X3.  The verdict of a probe cycle that reached the trigger is the runout
    flag: [run_probe] stores the step count and reports true when the flag
    is clear, and reports false, after the two warning lines, when the
    deceleration ran past [runout_steps], although the probe did trigger.  A
    cycle that stores no step count reports false. *)
Theorem runout_decides_the_verdict feedrate max_dist reverse env s r env' s' :
  run_probe feedrate max_dist reverse env s = Done r env' s' ->
  match snd r with
  | Some _ =>
      fst r = negb (has_exceeded_runout (zprobe s'))
      /\ (fst r = false -> exists pre, output s' = pre ++ runout_warning)
  | None => fst r = false
  end.
Proof.
  intros H. apply run_probe_Done in H as (s1 & s2 & _ & H2 & ->).
  apply wait_for_probe_verdict in H2. exact H2.
Qed.

Lemma overrun_on_tight_bench :
  run_probe 5 (-1) false overrun bench_tight
  = Done (false, Some 10) [] (probed (-1) overrun bench_tight)
  /\ has_exceeded_runout (zprobe (probed (-1) overrun bench_tight)) = true
  /\ exists pre,
      output (probed (-1) overrun bench_tight) = pre ++ runout_warning.
Proof.
  assert (E : run_probe 5 (-1) false overrun bench_tight
              = Done (false, Some 10) [] (probed (-1) overrun bench_tight))
    by (vm_compute; reflexivity).
  pose proof (runout_decides_the_verdict _ _ _ _ _ _ _ _ E) as (V & W).
  split; [exact E|]. split.
  - cbn [fst] in V. symmetry in V. now apply negb_false_iff in V.
  - now apply W.
Defined.

(** X4.  [read_probe], the slow-ticker handler of the G38 moves, latches: it
    does nothing unless a G38 move is being probed and no touch has been
    seen yet; on the first active read in such a move it records the touch
    and force-finishes the moves of all three actuators; and once it has run
    a second call changes nothing. *)
Theorem read_probe_latches (s : Machine) :
  read_probe (read_probe s) = read_probe s
  /\ (probing (zprobe s) = false -> read_probe s = s)
  /\ (probe_detected (zprobe s) = true -> read_probe s = s)
  /\ (pin_get s = false -> read_probe s = s)
  /\ (probing (zprobe s) = true -> probe_detected (zprobe s) = false ->
      pin_get s = true ->
      probe_detected (zprobe (read_probe s)) = true
      /\ (forall a, is_moving (STEPPER a (read_probe s)) = false)
      /\ issued (read_probe s) = issued s).
Proof.
  assert (L : forall x, probe_detected (zprobe x) = true -> read_probe x = x).
  { intros x Hx. unfold read_probe. rewrite Hx.
    now destruct (probing (zprobe x)). }
  assert (T : probing (zprobe s) = true -> probe_detected (zprobe s) = false ->
              pin_get s = true ->
              read_probe s
              = on_actuators (fun acts =>
                  on_actuator Z_AXIS force_finish_move
                    (on_actuator Y_AXIS force_finish_move
                       (on_actuator X_AXIS force_finish_move acts)))
                  (on_zprobe (with_probe_detected true) s)).
  { intros P D G. unfold read_probe. now rewrite P, D, G. }
  assert (N : probing (zprobe s) = false -> read_probe s = s).
  { intros P. unfold read_probe. now rewrite P. }
  assert (I : pin_get s = false -> read_probe s = s).
  { intros G. unfold read_probe. rewrite G. now destruct (negb _ || _). }
  split; [|split; [exact N|split; [exact (L s)|split; [exact I|]]]].
  - destruct (probing (zprobe s)) eqn:P;
      [|rewrite (N eq_refl); exact (N eq_refl)].
    destruct (probe_detected (zprobe s)) eqn:D;
      [rewrite (L s D); exact (L s D)|].
    destruct (pin_get s) eqn:G; [|rewrite (I eq_refl); exact (I eq_refl)].
    apply L. rewrite (T eq_refl eq_refl eq_refl). reflexivity.
  - intros P D G. rewrite (T P D G).
    split; [reflexivity|]. split; [intros a; destruct a; reflexivity|].
    reflexivity.
Qed.

Lemma read_probe_stops_probing_bench :
  is_moving (STEPPER X_AXIS bench_probing) = true
  /\ probe_detected (zprobe (read_probe bench_probing)) = true
  /\ (forall a, is_moving (STEPPER a (read_probe bench_probing)) = false)
  /\ read_probe (read_probe bench_probing) = read_probe bench_probing.
Proof.
  destruct (read_probe_latches bench_probing) as (I & _ & _ & _ & T).
  destruct T as (D & M & _); try (vm_compute; reflexivity).
  split; [vm_compute; reflexivity|]. split; [exact D|]. split; [exact M|exact I].
Defined.

(** ** Further properties of the G-code dispatch *)

(** X5.  A probing command (G29 to G32, G38.2, G38.3) received while no probe
    pin is configured is refused, whatever the input reads: one line on the
    command's stream ("error:"-prefixed for G38), no action issued, no probe
    cycle started, and the rest of the machine state as it was. *)
Theorem probing_gcode_refused_when_not_connected
        (gcode : Gcode) (env : Env) (s : Machine) :
  is_probing_gcode gcode = true ->
  pin_connected (zprobe s) = false ->
  on_gcode_received gcode env s
  = Done tt env (say (GcodeStream (stream gcode)) (not_connected_message gcode) s).
Proof.
  unfold is_probing_gcode, not_connected_message. intros Hg Hp.
  apply andb_prop in Hg as [Hg Hr].
  unfold on_gcode_received, bind, get. rewrite Hg, Hp. cbn [andb negb].
  destruct ((29 <=? g gcode) && (g gcode <=? 32)) eqn:R.
  - assert ((g gcode =? 38) = false) as ->; [|reflexivity].
    apply andb_prop in R as [_ R]. apply Z.leb_le in R. apply Z.eqb_neq. lia.
  - cbn [orb] in Hr. apply andb_prop in Hr as [H38 Hsub]. rewrite H38.
    assert (negb (subcode gcode =? 2) && negb (subcode gcode =? 3) = false) as ->.
    { destruct (subcode gcode =? 2), (subcode gcode =? 3);
        cbn in *; congruence. }
    reflexivity.
Qed.

Lemma G38_refused_on_unplugged_bench :
  pin_get bench_unplugged = true
  /\ on_gcode_received G38_2 [] bench_unplugged
     = Done tt []
         (say (GcodeStream 0) "error:ZProbe not connected.\n" bench_unplugged).
Proof.
  split; [reflexivity|].
  apply (probing_gcode_refused_when_not_connected G38_2 [] bench_unplugged);
    reflexivity.
Defined.

Lemma halts_no_halt_event mid : halts mid -> ~ In HaltEvent mid.
Proof.
  unfold halts. rewrite Forall_forall. intros H I.
  destruct (H _ I) as (ax & E). discriminate.
Qed.

(** A coordinated move takes one slot of the schedule and issues its command
    line and the wait; in between the interrupt handlers may stop
    actuators. *)
Lemma coordinated_move_issued x y z fr rel env s u env' s' :
  coordinated_move x y z fr rel env s = Done u env' s' ->
  exists slot mid,
    env = slot :: env'
    /\ s' = run_slot slot (issue WaitForEmptyQueue
                             (issue (ConsoleLine rel x y z (fr * 60)%Q) s))
    /\ issued s' = issued s ++ move_commands x y z fr rel ++ mid
    /\ halts mid.
Proof.
  unfold coordinated_move, wait_for_empty_queue, bind, modify, call_event_ON_IDLE.
  destruct env as [|slot env0]; [discriminate|]. intros H.
  apply Done_inj in H as (_ & <- & <-).
  destruct (run_slot_issued slot
              (issue WaitForEmptyQueue
                 (issue (ConsoleLine rel x y z (fr * 60)%Q) s)))
    as (mid & E & Hm).
  exists slot, mid. split; [reflexivity|]. split; [reflexivity|].
  split; [|exact Hm]. rewrite E. cbn [issued issue move_commands].
  now rewrite <- !app_assoc.
Qed.

(** X6.  Whatever the outcome of a G38 probe in one axis, [probe_XYZ] leaves
    probe checking disabled and segmentation enabled.  It raises the halt
    event exactly when the move ended without a touch and the subcode is 2
    (G38.2); G38.3 never raises it.  After a touch it has the position
    corrected from the actuators instead. *)
Theorem probe_XYZ_alarm (gcode : Gcode) (axis : Axis) env s env' s' :
  probe_XYZ gcode axis env s = Done tt env' s' ->
  probing (zprobe s') = false
  /\ disable_segmentation (kernel s') = false
  /\ (In HaltEvent (issued s') <->
      In HaltEvent (issued s)
      \/ (probe_detected (zprobe s') = false /\ subcode gcode = 2))
  /\ (probe_detected (zprobe s') = true ->
      last (issued s') HaltEvent = ResetPositionFromActuators).
Proof.
  unfold probe_XYZ. intros H.
  peel H as u1 e1 s1 H1. apply Done_inj in H1 as (_ & <- & <-).
  peel H as u2 e2 s2 H2. apply Done_inj in H2 as (_ & <- & <-).
  peel H as u3 e3 s3 H3. apply Done_inj in H3 as (_ & <- & <-).
  peel H as s4 e4 t4 H4. apply Done_inj in H4 as (<- & <- & <-).
  peel H as u5 e5 s5 H5.
  assert (M : exists mid x y z fr,
             issued s5 = issued s ++ move_commands x y z fr true ++ mid
             /\ halts mid).
  { destruct axis;
      apply coordinated_move_issued in H5 as (slot & mid & _ & _ & E & Hm);
      exists mid; do 4 eexists; (split; [exact E|exact Hm]). }
  clear H5. destruct M as (mid & x & y & z & fr & E & Hm).
  peel H as u6 e6 s6 H6. apply Done_inj in H6 as (_ & <- & <-).
  peel H as u7 e7 s7 H7. apply Done_inj in H7 as (_ & <- & <-).
  peel H as s8 e8 t8 H8. apply Done_inj in H8 as (<- & <- & <-).
  set (s8 := on_kernel (with_disable_segmentation false)
               (on_zprobe (with_probing false) s5)) in *.
  assert (I8 : issued s8 = issued s5) by reflexivity.
  assert (D8 : probe_detected (zprobe s8) = probe_detected (zprobe s5))
    by reflexivity.
  destruct (actuator_to_cartesian s8 _) as [[px py] pz].
  peel H as u9 e9 s9 H9. apply Done_inj in H9 as (_ & <- & <-).
  peel H as u10 e10 s10 H10. apply Done_inj in H10 as (_ & <- & <-).
  assert (NH : In HaltEvent (issued s5) <-> In HaltEvent (issued s)).
  { rewrite E, !in_app_iff. cbn [In move_commands].
    pose proof (halts_no_halt_event mid Hm).
    split; [intros [?|[[?|[?|[]]]|?]]; try discriminate; tauto|tauto]. }
  destruct (probe_detected (zprobe s8)) eqn:D; cbn [negb andb] in H.
  - apply Done_inj in H as (_ & _ & <-).
    split; [reflexivity|]. split; [reflexivity|].
    cbn [issued issue say zprobe on_zprobe on_kernel].
    rewrite I8. split.
    + rewrite !in_app_iff. cbn [In]. rewrite NH.
      split; [intros [[?|[?|[]]]|[?|[]]]; try discriminate; tauto|].
      intros [?|[Hf _]]; [tauto|].
      change (probe_detected (zprobe s8) = false) in Hf. congruence.
    + intros _. now rewrite last_last.
  - destruct (subcode gcode =? 2) eqn:S2.
    + unfold bind, stream_printf, modify in H.
      apply Done_inj in H as (_ & _ & <-).
      split; [reflexivity|]. split; [reflexivity|].
      cbn [issued issue say zprobe on_zprobe on_kernel].
      rewrite I8. split.
      * rewrite !in_app_iff. cbn [In]. apply Z.eqb_eq in S2.
        split; [intros _; right; split; [exact D|exact S2]|tauto].
      * intros Hx. change (probe_detected (zprobe s8) = true) in Hx.
        congruence.
    + apply Done_inj in H as (_ & _ & <-).
      split; [reflexivity|]. split; [reflexivity|].
      cbn [issued issue say zprobe on_zprobe on_kernel].
      rewrite I8. split.
      * rewrite !in_app_iff. cbn [In]. rewrite NH. apply Z.eqb_neq in S2.
        split; [intros [?|[?|[]]]; try discriminate; tauto|].
        intros [?|[_ ?]]; [tauto|contradiction].
      * intros Hx. change (probe_detected (zprobe s8) = true) in Hx.
        congruence.
Qed.

Lemma G38_2_without_touch_raises_alarm :
  probe_XYZ G38_2 Z_AXIS [[]] bench
  = Done tt [] (state_after (probe_XYZ G38_2 Z_AXIS [[]] bench) bench)
  /\ issued bench = []
  /\ In HaltEvent (issued (state_after (probe_XYZ G38_2 Z_AXIS [[]] bench) bench))
  /\ probing (zprobe (state_after (probe_XYZ G38_2 Z_AXIS [[]] bench) bench))
     = false.
Proof.
  assert (E : probe_XYZ G38_2 Z_AXIS [[]] bench
              = Done tt [] (state_after (probe_XYZ G38_2 Z_AXIS [[]] bench) bench))
    by (vm_compute; reflexivity).
  destruct (probe_XYZ_alarm _ _ _ _ _ _ E) as (P & _ & A & _).
  split; [exact E|]. split; [reflexivity|]. split; [|exact P].
  apply A. right. split; vm_compute; reflexivity.
Defined.

Lemma compensation_probe_XYZ gcode axis :
  preserves compensation (probe_XYZ gcode axis).
Proof.
  unfold probe_XYZ.
  repeat first
    [ lazymatch goal with
      | |- preserves _ (coordinated_move _ _ _ _ _) =>
          apply frame_coordinated_move; intros; reflexivity
      | |- preserves _ (stream_printf _ _) =>
          apply frame_stream_printf; intros; reflexivity
      | |- preserves _ (modify _) =>
          apply preserves_modify; intros; reflexivity
      | |- preserves _ (let '(_, _) := ?p in _) => destruct p
      end
    | frame_step ].
Qed.

Lemma compensation_G38_probe gcode : preserves compensation (G38_probe gcode).
Proof.
  unfold G38_probe.
  repeat first
    [ apply compensation_probe_XYZ
    | apply frame_stream_printf; intros; reflexivity
    | frame_step ].
Qed.

(** X7.  G38 switches the compensation transform off for the probing move
    only.  A G38 that gets past its refusals waits for the queue, then runs
    the probing move from the state in which no transform is installed; the
    move ends with none installed, and the transform that was installed
    before the command is installed again as the last thing the command
    does.  A G38 that is refused prints one line and touches nothing.
    Whichever way the command ends, the transform after it is the transform
    before it. *)
Theorem G38_restores_compensation (gcode : Gcode) env s env' s' :
  has_g gcode = true ->
  g gcode = 38 ->
  on_gcode_received gcode env s = Done tt env' s' ->
  compensation s' = compensation s
  /\ if G38_accepted gcode s then
       exists env1 s1 s2,
         wait_for_empty_queue env s = Done tt env1 s1
         /\ compensation s1 = compensation s
         /\ G38_probe gcode env1 (compensation_off s1) = Done tt env' s2
         /\ compensation s2 = None
         /\ s' = on_kernel (with_compensationTransform (compensation s)) s2
     else
       env' = env
       /\ exists line, s' = say (GcodeStream (stream gcode)) line s.
Proof.
  intros Hg H38 H. unfold on_gcode_received in H.
  peel H as s0 e0 t0 G0. apply Done_inj in G0 as (<- & <- & <-).
  rewrite Hg, H38 in H. cbn [andb] in H.
  change ((29 <=? 38) && (38 <=? 32)) with false in H.
  change (38 =? 38) with true in H. cbv iota in H.
  unfold G38_accepted.
  destruct (subcode gcode =? 2), (subcode gcode =? 3);
    cbn [negb andb orb] in H |- *;
    try (destruct (pin_connected (zprobe s)); cbn [negb andb] in H |- *;
         [destruct (pin_get s); cbn [negb] in H |- *|]);
    try (apply Done_inj in H as (_ & <- & <-);
         split; [reflexivity|split; [reflexivity|eexists; reflexivity]]).
  all: peel H as u1 e1 s1 H1; destruct u1;
    assert (C1 : compensation s1 = compensation s)
      by (revert H1; apply (frame_wait_for_empty_queue compensation);
          intros; reflexivity);
    peel H as s2 e2 t2 G2; apply Done_inj in G2 as (<- & <- & <-);
    peel H as u3 e3 s3 H3; apply Done_inj in H3 as (_ & <- & <-);
    peel H as u4 e4 s4 H4; destruct u4;
    apply Done_inj in H as (_ & <- & <-);
    assert (C4 : compensation s4 = None)
      by (apply (compensation_G38_probe gcode) in H4; exact H4);
    (split; [exact C1|]);
    exists e1, s1, s4;
    (split; [exact H1|]); (split; [exact C1|]);
    (split; [exact H4|]); (split; [exact C4|]);
    unfold compensation in C1 |- *; rewrite C1; reflexivity.
Qed.

Lemma G38_3_on_compensated_bench :
  exists s1 s2 s',
    on_gcode_received G38_3 [[]; []] bench_compensated = Done tt [] s'
    /\ compensation bench_compensated = Some 7%nat
    /\ wait_for_empty_queue [[]; []] bench_compensated = Done tt [[]] s1
    /\ compensation s1 = Some 7%nat
    /\ G38_probe G38_3 [[]] (compensation_off s1) = Done tt [] s2
    /\ compensation s2 = None
    /\ compensation s' = Some 7%nat.
Proof.
  destruct (on_gcode_received G38_3 [[]; []] bench_compensated)
    as [u env' s'| |] eqn:E; try (vm_compute in E; discriminate).
  destruct u.
  destruct (G38_restores_compensation G38_3 _ _ _ _ eq_refl eq_refl E)
    as (C & e1 & s1 & s2 & W & C1 & P & C2 & _).
  assert (env' = []) as -> by (vm_compute in E; now inversion E).
  assert (e1 = [[]]) as -> by (vm_compute in W; now inversion W).
  exists s1, s2, s'.
  split; [reflexivity|]. split; [reflexivity|]. split; [exact W|].
  split; [exact C1|]. split; [exact P|]. split; [exact C2|exact C].
Defined.

(** X8.  M670 I<v> sets the inversion override to [v != 0] and exclusive-ors
    it into the pin's inversion: a non-zero I flips the polarity of the
    probe input, I0 leaves it as it is, and the same M670 I<v> sent twice
    restores the polarity the pin had, and with it the level the probe
    reads. *)
Theorem M670_I_toggles_inversion (gcode : Gcode) (env : Env) (s : Machine) :
  has_g gcode = false ->
  has_m gcode = true ->
  m gcode = 670 ->
  has_letter gcode "I" = true ->
  exists s1 s2,
    on_gcode_received gcode env s = Done tt env s1
    /\ invert_override (zprobe s1) = negb (feqb (get_value gcode "I") 0)
    /\ pin_inverting (zprobe s1)
       = xorb (pin_inverting (zprobe s)) (negb (feqb (get_value gcode "I") 0))
    /\ pin_get s1 = xorb (pin_get s) (negb (feqb (get_value gcode "I") 0))
    /\ on_gcode_received gcode env s1 = Done tt env s2
    /\ pin_inverting (zprobe s2) = pin_inverting (zprobe s)
    /\ pin_get s2 = pin_get s.
Proof.
  intros Hg Hm H670 HI.
  unfold on_gcode_received, bind, get, modify, ret.
  rewrite Hg, Hm, H670, HI. cbn [andb].
  change (670 =? 119) with false. change (670 =? 670) with true. cbv iota.
  unfold pin_get.
  destruct s as [z c a k eh fk out iss lg]. destruct z, k.
  destruct (has_letter gcode "S"), (has_letter gcode "K"),
           (has_letter gcode "R"), (has_letter gcode "Z"),
           (has_letter gcode "H");
    do 2 eexists; (split; [reflexivity|]);
    (split; [|split; [|split; [|split; [reflexivity|split]]]]);
    cbn [zprobe kernel on_zprobe with_slow_feedrate with_fast_feedrate
         with_return_feedrate with_max_z with_probe_height
         with_invert_override with_pin_inverting
         invert_override pin_inverting pin_level];
    destruct pin_inverting0, (feqb (get_value gcode "I") 0), pin_level0;
    reflexivity.
Qed.

Lemma M670_I1_twice_on_bench :
  exists s1 s2,
    on_gcode_received M670_I1 [] bench = Done tt [] s1
    /\ pin_get bench = false
    /\ pin_get s1 = true
    /\ on_gcode_received M670_I1 [] s1 = Done tt [] s2
    /\ pin_get s2 = false.
Proof.
  destruct (M670_I_toggles_inversion M670_I1 [] bench)
    as (s1 & s2 & E1 & _ & _ & G1 & E2 & _ & G2); try reflexivity.
  exists s1, s2. split; [exact E1|]. split; [reflexivity|].
  split; [exact G1|]. split; [exact E2|exact G2].
Defined.

(** ** Further properties of the configuration *)

(** Loading the strategies appends the enabled ones and prints nothing. *)
Lemma load_strategies_appends (cfg : Config) (l : list (option Strategy * bool)) :
  forall env s, exists s',
    load_strategies cfg l env s = Done tt env s'
    /\ strategies (zprobe s') = strategies (zprobe s) ++ enabled_in l
    /\ output s' = output s
    /\ decelerate_on_trigger (zprobe s') = decelerate_on_trigger (zprobe s).
Proof.
  induction l as [|[cs enabled] l IH]; intros env s.
  - eexists; split; [reflexivity|]. cbn. now rewrite app_nil_r.
  - cbn [load_strategies]. unfold bind at 1.
    destruct enabled; [destruct cs as [k|]; [destruct k|]|]; cbn;
      match goal with
      | |- context [load_strategies cfg l env ?s1] =>
          destruct (IH env s1) as (s' & -> & H1 & H2 & H3)
      end; eexists; (split; [reflexivity|]); rewrite H1, H2, H3; cbn;
      rewrite <- ?app_assoc; repeat split; reflexivity.
Qed.

(** What a reload leaves in the list of strategies and on the streams. *)
Lemma on_config_reload_result (cfg : Config) (env : Env) (s : Machine) :
  exists s',
    on_config_reload cfg env s = Done tt env s'
    /\ strategies (zprobe s')
       = match strategies (zprobe s) ++ enabled_strategies cfg with
         | [] => if by_default false (cfg_delta_homing cfg)
                 then [DeltaCalibrationStrategy] else []
         | l => l
         end
    /\ output s'
       = output s
         ++ (if feqb (by_default (-1)%Q (cfg_decelerate_runout cfg)) (-1)
             then [decel_refusal] else [])
    /\ decelerate_on_trigger (zprobe s')
       = (if feqb (by_default (-1)%Q (cfg_decelerate_runout cfg)) (-1)
          then false
          else by_default false (cfg_decelerate_on_trigger cfg)).
Proof.
  unfold on_config_reload. unfold bind at 1. cbn [modify].
  match goal with |- context [bind (setDecelerateOnTrigger ?t) _ env ?s1] =>
    set (t0 := t); set (s0 := s1)
  end.
  assert (R0 : decelerate_runout (zprobe s0)
               = by_default (-1)%Q (cfg_decelerate_runout cfg)) by reflexivity.
  assert (exists s2, setDecelerateOnTrigger t0 env s0 = Done tt env s2
                     /\ strategies (zprobe s2) = strategies (zprobe s)
                     /\ output s2
                        = output s
                          ++ (if feqb (by_default (-1)%Q
                                         (cfg_decelerate_runout cfg)) (-1)
                              then [decel_refusal] else [])
                     /\ decelerate_on_trigger (zprobe s2)
                        = (if feqb (by_default (-1)%Q
                                      (cfg_decelerate_runout cfg)) (-1)
                           then false else t0))
    as (s2 & E & S2 & O2 & D2).
  { rewrite <- R0.
    destruct (feqb (decelerate_runout (zprobe s0)) (-1)) eqn:B.
    - rewrite (setDecelerateOnTrigger_unset t0 env s0 B).
      eexists. split; [reflexivity|]. repeat split; reflexivity.
    - rewrite (setDecelerateOnTrigger_set t0 env s0 B).
      eexists. split; [reflexivity|]. cbn. now rewrite app_nil_r. }
  unfold bind at 1. rewrite E. unfold bind at 1.
  destruct (load_strategies_appends cfg (cfg_leveling_strategies cfg) env s2)
    as (s3 & -> & S3 & O3 & D3).
  unfold bind, get, modify.
  eexists; split; [reflexivity|].
  cbn [zprobe on_zprobe strategies output decelerate_on_trigger].
  rewrite S3, S2, O3, O2, D3, D2. repeat split; reflexivity.
Qed.

(** X9.  A reload of the configuration never forgets a strategy: the enabled
    strategies of the leveling-strategy section are appended, in order, to
    the ones already loaded (an enabled module that is no known strategy is
    skipped), and only when the list is still empty after that does a delta
    get the delta calibration strategy by default.  Hence a second reload of
    the same configuration loads every enabled strategy a second time. *)
Theorem on_config_reload_appends_strategies (cfg : Config) (env : Env) (s : Machine) :
  exists s1 s2,
    on_config_reload cfg env s = Done tt env s1
    /\ strategies (zprobe s1)
       = match strategies (zprobe s) ++ enabled_strategies cfg with
         | [] => if by_default false (cfg_delta_homing cfg)
                 then [DeltaCalibrationStrategy] else []
         | l => l
         end
    /\ on_config_reload cfg env s1 = Done tt env s2
    /\ (enabled_strategies cfg <> [] ->
        strategies (zprobe s2)
        = strategies (zprobe s) ++ enabled_strategies cfg
                                ++ enabled_strategies cfg).
Proof.
  destruct (on_config_reload_result cfg env s) as (s1 & E1 & S1 & _ & _).
  destruct (on_config_reload_result cfg env s1) as (s2 & E2 & S2 & _ & _).
  exists s1, s2. split; [exact E1|]. split; [exact S1|]. split; [exact E2|].
  intros N. rewrite S2, S1.
  destruct (enabled_strategies cfg) as [|k l] eqn:En; [congruence|].
  destruct (strategies (zprobe s)) as [|k0 l0]; cbn; [reflexivity|].
  now rewrite <- app_assoc.
Qed.

(** X10.  A reload prints the refusal of [setDecelerateOnTrigger] whenever
    [decelerate_runout] is unset (or set to -1), also when the configuration
    does not ask for deceleration on trigger at all; with any other runout
    it prints nothing. *)
Theorem on_config_reload_reports_unset_runout
        (cfg : Config) (env : Env) (s : Machine) :
  exists s',
    on_config_reload cfg env s = Done tt env s'
    /\ output s'
       = output s
         ++ (if feqb (by_default (-1)%Q (cfg_decelerate_runout cfg)) (-1)
             then [decel_refusal] else [])
    /\ (cfg_decelerate_runout cfg = None ->
        output s' = output s ++ [decel_refusal]
        /\ decelerate_on_trigger (zprobe s') = false).
Proof.
  destruct (on_config_reload_result cfg env s) as (s' & E & _ & O & D).
  exists s'. split; [exact E|]. split; [exact O|].
  intros N. rewrite N in O, D. split; [exact O|exact D].
Qed.

Lemma reload_of_empty_config_prints_refusal :
  exists s',
    on_config_reload empty_config [] bench = Done tt [] s'
    /\ output s' = [decel_refusal]
    /\ decelerate_on_trigger (zprobe s') = false.
Proof.
  destruct (on_config_reload_reports_unset_runout empty_config [] bench)
    as (s' & E & _ & U).
  destruct (U eq_refl) as (O & D).
  exists s'. split; [exact E|]. split; [exact O|exact D].
Defined.

(** ** Further properties of the comprehensive delta strategy *)

(** X11.  [handleConfig] always succeeds and leaves the strategy
    initialised: the probe smoothing is clamped into 1..10 whatever the
    configuration says, the geometry is marked dirty, the probe-from height
    is the "not yet determined" value -1, both depth maps are twelve zeros,
    and the probe radius falls back on the deprecated [zprobe.probe_radius]
    (default 100) when the strategy's own radius is unset.  Nothing outside
    the strategy's own fields is touched. *)
Theorem handleConfig_initialises (cfg : Config) (env : Env) (s : Machine) :
  exists s',
    handleConfig cfg env s = Done true env s'
    /\ 1 <= probe_smoothing (cds s') <= 10
    /\ geom_dirty (cds s') = true
    /\ probe_from_height (cds s') = (-1)%Q
    /\ cur_depth_map (cds s') = repeat 0%Q 12
    /\ last_depth_map (cds s') = repeat 0%Q 12
    /\ (cfg_cds_probe_radius cfg = None ->
        probe_radius (cds s') = by_default 100%Q (cfg_zprobe_probe_radius cfg))
    /\ (zprobe s', actuators s', kernel s', output s', issued s')
       = (zprobe s, actuators s, kernel s, output s, issued s).
Proof.
  unfold handleConfig, bind, modify, ret.
  eexists. split; [reflexivity|].
  cbn [cds on_cds probe_smoothing geom_dirty probe_from_height cur_depth_map
       last_depth_map probe_radius].
  split.
  - destruct (f2iz (by_default 1%Q (cfg_probe_smoothing cfg)) <? 1) eqn:A.
    + cbn. lia.
    + apply Z.ltb_ge in A.
      destruct (10 <? f2iz (by_default 1%Q (cfg_probe_smoothing cfg))) eqn:B.
      * lia.
      * apply Z.ltb_ge in B. lia.
  - repeat split; try reflexivity. intros ->. reflexivity.
Qed.

(** X12.  A repeatability test asked for with more than 30 samples is
    refused, but only after its other words have been applied: the debounce
    count (B), the probe smoothing (P) and the feedrates (U, V) are changed
    although no test runs, and the smoothing is stored as given, before the
    clamp to 1..10 that the test itself would apply.  Nothing is moved. *)
Theorem G29_too_many_samples_keeps_settings (gc : Gcode) (env : Env) (s : Machine) :
  has_letter gc "S" = true ->
  30 < f2iz (get_value gc "S") ->
  exists s',
    measure_probe_repeatability (Some gc) env s = Done false env s'
    /\ issued s' = issued s
    /\ last (output s') too_many_samples = too_many_samples
    /\ (has_letter gc "B" = true ->
        debounce_count (zprobe s') = f2iz (get_value gc "B"))
    /\ (has_letter gc "P" = true ->
        probe_smoothing (cds s') = f2uiz (get_value gc "P"))
    /\ (has_letter gc "U" = true -> fast_feedrate (zprobe s') = get_value gc "U")
    /\ (has_letter gc "V" = true -> slow_feedrate (zprobe s') = get_value gc "V").
Proof.
  intros HS Hn. apply Z.ltb_lt in Hn.
  unfold measure_probe_repeatability, setDecelerateOnTrigger, bind, get,
    modify, ret, _printf.
  rewrite HS, Hn. cbn [andb].
  destruct (has_letter gc "B"), (has_letter gc "D"), (has_letter gc "P"),
           (has_letter gc "U"), (has_letter gc "V");
    cbv beta iota;
    repeat match goal with
           | |- context [if feqb ?a ?b then _ else _] => destruct (feqb a b)
           end;
    cbv beta iota; rewrite ?HS, ?Hn; cbn [andb];
    eexists; (split; [reflexivity|]);
    (split; [reflexivity|]);
    (split; [cbn [output say]; apply last_last|]);
    repeat split; intros; try discriminate; reflexivity.
Qed.

Lemma G29_S31_P0_on_bench :
  exists s',
    measure_probe_repeatability (Some G29_S31_P0) [] bench = Done false [] s'
    /\ probe_smoothing (cds bench) = 1
    /\ probe_smoothing (cds s') = 0.
Proof.
  destruct (G29_too_many_samples_keeps_settings G29_S31_P0 [] bench)
    as (s' & E & _ & _ & _ & P & _); [reflexivity|vm_compute; reflexivity|].
  exists s'. split; [exact E|]. split; [reflexivity|].
  rewrite (P eq_refl). reflexivity.
Defined.

(** X13.  With a probe smoothing of 0, [do_probe_at] moves to its point,
    runs no probe at all and then averages by dividing the step count by
    zero: once the move is done the call ends in the division by zero,
    whatever the bed is like. *)
Theorem do_probe_at_divides_by_zero (x y : float) (slot : Slot) (env : Env)
        (s : Machine) :
  probe_smoothing (cds s) = 0 ->
  do_probe_at x y (slot :: env) s = Crash DivisionByZero (moved_to x y slot s).
Proof.
  intros H. unfold do_probe_at, bind, get, coordinated_move,
    wait_for_empty_queue, modify, call_event_ON_IDLE.
  rewrite H. reflexivity.
Qed.

Lemma probe_after_refused_G29_divides_by_zero :
  measure_probe_repeatability (Some G29_S31_P0) [] bench
  = Done false []
      (state_after (measure_probe_repeatability (Some G29_S31_P0) [] bench) bench)
  /\ do_probe_at 0 0 [[]]
       (state_after (measure_probe_repeatability (Some G29_S31_P0) [] bench) bench)
     = Crash DivisionByZero
         (moved_to 0 0 []
            (state_after (measure_probe_repeatability (Some G29_S31_P0) [] bench)
                         bench)).
Proof.
  split; [vm_compute; reflexivity|].
  apply (do_probe_at_divides_by_zero 0 0 [] []). vm_compute. reflexivity.
Defined.

(** *** The acceleration during a repeatability test *)

Section FrameSampling.
Context {B : Type} (f : Machine -> B).
Hypothesis f_zprobe : forall g s, f (on_zprobe g s) = f s.
Hypothesis f_actuators :
  forall g s, keeps_steps_per_mm g -> f (on_actuators g s) = f s.
Hypothesis f_pin_level : forall b s, f (on_kernel (with_pin_level b) s) = f s.
Hypothesis f_halted : forall b s, f (on_kernel (with_halted b) s) = f s.
Hypothesis f_issue : forall a s, f (issue a s) = f s.
Hypothesis f_say : forall t m s, f (say t m s) = f s.
Hypothesis f_record_probe : forall n s, f (record_probe n s) = f s.

Lemma frame_sampling_loop fuel : forall todo ecc samples,
  preserves f (sampling_loop fuel todo ecc samples).
Proof.
  induction fuel as [|fuel IH]; intros [|todo] ecc samples;
    cbn [sampling_loop]; try apply preserves_ret.
  - intros env s a env' s' H. discriminate.
  - repeat first
      [ lazymatch goal with
        | |- preserves _ (sampling_loop _ _ _ _) => apply IH
        | |- preserves _ (do_probe_at _ _) =>
            apply frame_do_probe_at; assumption
        | |- preserves _ (coordinated_move _ _ _ _ _) =>
            apply frame_coordinated_move; assumption
        | |- preserves _ (_printf _) => apply frame_printf; assumption
        end
      | frame_step ].
Qed.
End FrameSampling.

Lemma accelerations_frame_actuators g s :
  keeps_steps_per_mm g -> accelerations (on_actuators g s) = accelerations s.
Proof. reflexivity. Qed.

Lemma set_acceleration_spec a env s u env' s' :
  set_acceleration a env s = Done u env' s' ->
  accelerations s' = (a, saved_acceleration (cds s)).
Proof.
  unfold set_acceleration. intros H.
  peel H as u1 e1 s1 H1. apply Done_inj in H1 as (_ & <- & <-).
  peel H as u2 e2 s2 H2. apply Done_inj in H2 as (_ & <- & <-).
  peel H as u3 e3 s3 H3.
  apply (frame_wait_for_empty_queue accelerations) in H3;
    try (intros; reflexivity).
  apply Done_inj in H as (_ & _ & <-).
  change (accelerations (say KernelStreams "[RA] Acceleration restored to %1.3f\n" s3))
    with (accelerations s3).
  rewrite H3. reflexivity.
Qed.

Ltac acceleration_step :=
  first
    [ lazymatch goal with
      | |- preserves _ (modify _) => apply preserves_modify; intros; reflexivity
      | |- preserves _ (_printf _) => apply preserves_modify; intros; reflexivity
      | |- preserves _ (setDecelerateOnTrigger _) => unfold setDecelerateOnTrigger
      | |- preserves _ (gcode_has_letter _ _) => unfold gcode_has_letter
      | |- preserves _ (gcode_get_value _ _) => unfold gcode_get_value
      | |- preserves _ prepare_to_probe =>
          apply frame_prepare_to_probe; intros; reflexivity
      end
    | frame_step ].

Ltac acceleration_peel H f :=
  let u := fresh "u" in
  let e := fresh "e" in
  let x := fresh "x" in
  let G := fresh "G" in
  apply bind_Done in H as (u & e & x & G & H);
  match type of G with
  | ?c _ _ = _ =>
      let P := fresh "P" in
      assert (P : preserves f c) by (repeat acceleration_step);
      apply P in G; clear P
  end.

(** X14.  A repeatability test that runs to its end gives the planner its
    acceleration back: the test runs at the wanted acceleration and the
    value saved before is restored after the statistics.  A test that ends
    early does not: when a probe fails the routine returns false at once
    and the planner is left at the test's acceleration; only the refusal
    for too many samples, which comes before the acceleration is touched,
    leaves it alone. *)
Theorem G29_restores_acceleration (gcode : option Gcode) env s b env' s' :
  measure_probe_repeatability gcode env s = Done b env' s' ->
  acceleration (kernel s')
  = if b || asks_too_many gcode then acceleration (kernel s)
    else wanted_acceleration gcode s.
Proof.
  unfold measure_probe_repeatability. intros H.
  peel H as s0 e0 t0 G0. apply Done_inj in G0 as (<- & <- & <-).
  cbv zeta in H.
  acceleration_peel H (fun x : Machine => acceleration (kernel x)).
  match type of H with
  | (if ?c then _ else _) _ _ = _ =>
      assert (TM : c = asks_too_many gcode)
        by (unfold asks_too_many; destruct gcode as [gc|]; [|reflexivity];
            destruct (has_letter gc "S"); reflexivity);
      rewrite TM in H; clear TM
  end.
  destruct (asks_too_many gcode) eqn:TM.
  - unfold bind, _printf, modify, ret in H.
    apply Done_inj in H as (<- & _ & <-). exact G.
  - rewrite orb_false_r.
    do 10 acceleration_peel H (fun x : Machine => acceleration (kernel x)).
    acceleration_peel H (fun x : Machine => acceleration (kernel x)).
    peel H as u12 e12 s12 H12.
    unfold save_acceleration in H12. apply Done_inj in H12 as (_ & _ & <-).
    peel H as u13 e13 s13 H13. apply set_acceleration_spec in H13.
    peel H as env14 e14 s14 H14. apply Done_inj in H14 as (_ & <- & <-).
    peel H as r e15 s15 H15.
    apply (frame_sampling_loop accelerations) in H15;
      try (intros; reflexivity).
    rewrite H13 in H15. unfold accelerations in H15.
    cbn [cds on_cds saved_acceleration with_saved_acceleration] in H15.
    inversion H15 as [[A15 S15]]. clear H15.
    destruct r as [samples|].
    + peel H as rep e16 s16 H16. apply Done_inj in H16 as (_ & <- & <-).
      do 6 acceleration_peel H accelerations.
      acceleration_peel H accelerations.
      acceleration_peel H accelerations.
      peel H as u25 e25 s25 H25. unfold restore_acceleration in H25.
      peel H25 as s26 e26 t26 G26. apply Done_inj in G26 as (<- & <- & <-).
      apply set_acceleration_spec in H25.
      apply Done_inj in H as (<- & _ & <-). cbn [orb].
      unfold accelerations in *.
      repeat match goal with
             | E : (_, _) = (_, _) |- _ => inversion E; clear E
             end.
      congruence.
    + apply Done_inj in H as (<- & _ & <-). cbn [orb].
      unfold wanted_acceleration. exact A15.
Qed.

Lemma G29_on_prepared_bench :
  (measure_probe_repeatability (Some G29_E_S1) one_sample bench_prepared
   = Done true []
       (state_after
          (measure_probe_repeatability (Some G29_E_S1) one_sample bench_prepared)
          bench_prepared)
   /\ acceleration (kernel bench_prepared) = 500%Q
   /\ acceleration
        (kernel (state_after
                   (measure_probe_repeatability (Some G29_E_S1) one_sample
                                                bench_prepared)
                   bench_prepared))
      = 500%Q)
  /\ (measure_probe_repeatability (Some G29_E_S1) killed_sample bench_prepared
      = Done false []
          (state_after
             (measure_probe_repeatability (Some G29_E_S1) killed_sample
                                          bench_prepared)
             bench_prepared)
      /\ acceleration
           (kernel (state_after
                      (measure_probe_repeatability (Some G29_E_S1) killed_sample
                                                   bench_prepared)
                      bench_prepared))
         = 200%Q).
Proof.
  split.
  - assert (E : measure_probe_repeatability (Some G29_E_S1) one_sample
                                            bench_prepared
                = Done true []
                    (state_after
                       (measure_probe_repeatability (Some G29_E_S1) one_sample
                                                    bench_prepared)
                       bench_prepared))
      by (vm_compute; reflexivity).
    split; [exact E|]. split; [reflexivity|].
    rewrite (G29_restores_acceleration _ _ _ _ _ _ E). reflexivity.
  - assert (E : measure_probe_repeatability (Some G29_E_S1) killed_sample
                                            bench_prepared
                = Done false []
                    (state_after
                       (measure_probe_repeatability (Some G29_E_S1)
                                                    killed_sample bench_prepared)
                       bench_prepared))
      by (vm_compute; reflexivity).
    split; [exact E|].
    rewrite (G29_restores_acceleration _ _ _ _ _ _ E). reflexivity.
Defined.

(** *** What the calibrations leave alone *)

(** X17.  The two calibrations of G32 do not interfere with each other's
    result: leveling the endstops never changes the options of the arm
    solution (the delta radius among them), and calibrating the delta radius
    never changes the trim of the endstops.  Neither changes the planner's
    acceleration. *)
Theorem calibrations_keep_each_others_result (gcode : option Gcode) :
  preserves published_options (calibrate_delta_endstops gcode)
  /\ preserves published_trim (calibrate_delta_radius gcode)
  /\ preserves (fun s => acceleration (kernel s)) (calibrate_delta_endstops gcode)
  /\ preserves (fun s => acceleration (kernel s)) (calibrate_delta_radius gcode).
Proof.
  split; [|split; [|split]].
  - apply frame_calibrate_delta_endstops; intros; reflexivity.
  - apply frame_calibrate_delta_radius; intros; reflexivity.
  - apply frame_calibrate_delta_endstops; intros; reflexivity.
  - apply frame_calibrate_delta_radius; intros; reflexivity.
Qed.

Lemma radius_calibration_keeps_trim_on_bench :
  exists s',
    calibrate_delta_radius (Some G32) radius_schedule bench_prepared
    = Done true [] s'
    /\ published_trim s' = Some (0%Q, 0%Q, 0%Q)
    /\ published_options bench_prepared <> published_options s'.
Proof.
  destruct (calibrate_delta_radius (Some G32) radius_schedule bench_prepared)
    as [b env' s'| |] eqn:E; try (vm_compute in E; discriminate).
  assert (B : b = true /\ env' = []).
  { vm_compute in E. apply Done_inj in E as (<- & <- & _). now split. }
  destruct B as (-> & ->).
  exists s'. split; [reflexivity|]. split.
  - destruct (calibrations_keep_each_others_result (Some G32)) as (_ & T & _).
    rewrite (T _ _ _ _ _ E). reflexivity.
  - vm_compute in E. apply Done_inj in E as (_ & _ & <-). discriminate.
Defined.

(** X18.  Without an endstops module, whose trim can be neither set nor
    read, the endstop calibration gives up before anything moves: it returns
    false with or without K, and no command has been issued and no probe
    made. *)
Theorem endstop_calibration_needs_endstops (gc : Gcode) (env : Env) (s : Machine) :
  endstop_trim (kernel s) = None ->
  exists s',
    calibrate_delta_endstops (Some gc) env s = Done false env s'
    /\ issued s' = issued s
    /\ probe_log s' = probe_log s
    /\ actuators s' = actuators s
    /\ kernel s' = kernel s
    /\ output s' <> output s.
Proof.
  intros H.
  unfold calibrate_delta_endstops, endstops_keep, set_trim, get_trim,
    gcode_stream, _printf, stream_printf, bind, get, gets, modify, ret.
  destruct (has_letter gc "J"), (has_letter gc "K"); cbn [negb];
    cbv beta iota zeta; cbn [kernel on_cds say]; rewrite H;
    eexists; (split; [reflexivity|]);
    (split; [reflexivity|]); (split; [reflexivity|]);
    (split; [reflexivity|]); (split; [reflexivity|]);
    cbn [output say on_cds]; intros E;
    apply (f_equal (@List.length _)) in E;
    rewrite !length_app in E; cbn [List.length] in E; lia.
Qed.

Lemma G32_without_endstops_on_bench :
  exists s',
    calibrate_delta_endstops (Some G32) [] bench_no_endstops = Done false [] s'
    /\ issued s' = [].
Proof.
  destruct (endstop_calibration_needs_endstops G32 [] bench_no_endstops)
    as (s' & E & I & _); [reflexivity|].
  exists s'. split; [exact E|exact I].
Defined.

(** X19.  When the arm solution has no optional parameters (the machine is
    no delta), the delta-radius calibration cannot succeed: any run that
    comes to an end returns false, and the arm solution is left without
    options. *)
Theorem radius_calibration_needs_arm_options (gc : Gcode) env s b env' s' :
  arm_options (kernel s) = None ->
  calibrate_delta_radius (Some gc) env s = Done b env' s' ->
  b = false /\ arm_options (kernel s') = None.
Proof.
  intros N H. unfold calibrate_delta_radius in H.
  do 5 acceleration_peel H published_options.
  peel H as s5 e5 t5 G5. apply Done_inj in G5 as (<- & <- & <-).
  acceleration_peel H published_options.
  peel H as r6 e6 s6 H6.
  apply (frame_do_probe_at published_options) in H6; try (intros; reflexivity).
  assert (A : arm_options (kernel s6) = None).
  { unfold published_options in *. congruence. }
  destruct r6 as [ok dc].
  destruct (negb ok); [now apply Done_inj in H as (<- & _ & <-)|].
  acceleration_peel H published_options.
  peel H as cmm e8 s8 H8. apply Done_inj in H8 as (_ & <- & <-).
  peel H as o e9 s9 H9.
  assert (A' : arm_options (kernel x5) = None).
  { unfold published_options in *. congruence. }
  unfold get_optional, bind, get in H9. rewrite A' in H9.
  apply Done_inj in H9 as (<- & <- & <-).
  cbv beta iota in H. change (feqb 0 0) with true in H. cbv iota in H.
  unfold bind, _printf, modify, ret in H.
  now apply Done_inj in H as (<- & _ & <-).
Qed.

Lemma radius_calibration_without_arm_options_on_bench :
  exists s',
    calibrate_delta_radius (Some G32) ([[]] ++ probe_slots 1000)
                           bench_no_arm_options
    = Done false [] s'
    /\ probe_log s' = [1000].
Proof.
  destruct (calibrate_delta_radius (Some G32) ([[]] ++ probe_slots 1000)
                                   bench_no_arm_options)
    as [b env' s'| |] eqn:E; try (vm_compute in E; discriminate).
  destruct (radius_calibration_needs_arm_options
              G32 _ bench_no_arm_options _ _ _ eq_refl E) as (-> & _).
  vm_compute in E. apply Done_inj in E as (_ & <- & <-).
  eexists. split; reflexivity.
Defined.

(** ** The geometry of the probe points *)

(** X15.  The three tower points of [getCoordinates] are symmetric about the
    Y axis and have the centre of the bed as their centroid.  The Z point
    lies at the given radius; the X and Y points, computed with 0.866 for
    sin 60 degrees, lie slightly inside it: their squared distance from the
    centre is 0.999956 times the squared radius. *)
Theorem getCoordinates_geometry (radius : float) :
  let '(px, py, pz) := tower_points radius in
  (fst px + fst py + fst pz == 0)%Q
  /\ (snd px + snd py + snd pz == 0)%Q
  /\ (fst py == - fst px)%Q /\ (snd py == snd px)%Q
  /\ (fst pz == 0)%Q
  /\ (squared_radius pz == radius * radius)%Q
  /\ (squared_radius px == (999956 # 1000000) * (radius * radius))%Q
  /\ (squared_radius py == (999956 # 1000000) * (radius * radius))%Q.
Proof.
  unfold tower_points, getCoordinates, squared_radius. cbn [fst snd].
  repeat split; try reflexivity; field.
Qed.

(** X16.  In the table of test points of [handleConfig] every "opposite"
    point is the mirror image through the centre of the bed of the point it
    is named after, the midpoints included.  The opposite midpoint of Z-X is
    at the same time halfway between the centre and the Y tower point, and
    the opposite midpoint of Y-Z halfway between the centre and the X tower
    point; the midpoint of X-Y lies on the Y axis, halfway between the
    centre and the point opposite the Z tower. *)
Theorem test_points_mirrored (probe_radius : float) :
  let t := init_test_points probe_radius in
  mirrored (TP_OPP_X t) (TP_X t)
  /\ mirrored (TP_OPP_Y t) (TP_Y t)
  /\ mirrored (TP_OPP_Z t) (TP_Z t)
  /\ mirrored (TP_OPP_MID_XY t) (TP_MID_XY t)
  /\ mirrored (TP_OPP_MID_YZ t) (TP_MID_YZ t)
  /\ mirrored (TP_OPP_MID_ZX t) (TP_MID_ZX t)
  /\ halfway_to (TP_OPP_MID_ZX t) (TP_Y t)
  /\ halfway_to (TP_OPP_MID_YZ t) (TP_X t)
  /\ halfway_to (TP_MID_XY t) (TP_OPP_Z t).
Proof.
  unfold init_test_points, mirrored, halfway_to, midpoint.
  cbn [fst snd TP_X TP_Y TP_Z TP_OPP_X TP_OPP_Y TP_OPP_Z TP_MID_XY TP_MID_YZ
       TP_MID_ZX TP_OPP_MID_XY TP_OPP_MID_ZX TP_OPP_MID_YZ].
  repeat split; field.
Qed.

(** ** The number of probes of a calibration *)

Lemma probes_made_frame_actuators g s :
  keeps_steps_per_mm g -> probes_made (on_actuators g s) = probes_made s.
Proof. reflexivity. Qed.

Lemma do_probe_at_count x y env s r env' s' :
  do_probe_at x y env s = Done r env' s' ->
  (probes_made s <= probes_made s' <= probes_made s + 1)%nat.
Proof.
  destruct r as [ok n]. intros H. apply do_probe_at_log in H.
  unfold probes_made. rewrite H, length_app. destruct ok; cbn; lia.
Qed.

Ltac count_step :=
  first
    [ lazymatch goal with
      | |- preserves _ (modify _) => apply preserves_modify; intros; reflexivity
      | |- preserves _ (_printf _) => apply preserves_modify; intros; reflexivity
      | |- preserves _ (stream_printf _ _) =>
          apply preserves_modify; intros; reflexivity
      | |- preserves _ call_event_ON_IDLE =>
          apply frame_idle; intros; reflexivity
      | |- preserves _ wait_for_empty_queue =>
          apply frame_wait_for_empty_queue; intros; reflexivity
      | |- preserves _ prepare_to_probe =>
          apply frame_prepare_to_probe; intros; reflexivity
      | |- preserves _ (set_trim _ _ _ _) =>
          apply frame_set_trim; intros; reflexivity
      | |- preserves _ (set_optional _) =>
          apply frame_set_optional; intros; reflexivity
      | |- preserves _ (get_optional _) => apply frame_get_optional
      | |- preserves _ get_trim => unfold get_trim
      | |- preserves _ (gcode_stream _) => unfold gcode_stream
      | |- preserves _ (gcode_has_letter _ _) => unfold gcode_has_letter
      | |- preserves _ (gcode_get_value _ _) => unfold gcode_get_value
      end
    | frame_step ].

(** Peel the first computation off [H] and record what it does to the number
    of probes. *)
Ltac count_peel H :=
  let u := fresh "u" in
  let e := fresh "e" in
  let x := fresh "x" in
  let G := fresh "G" in
  apply bind_Done in H as (u & e & x & G & H);
  lazymatch type of G with
  | do_probe_at _ _ _ _ = _ => apply do_probe_at_count in G
  | ?c _ _ = _ =>
      let P := fresh "P" in
      assert (P : preserves probes_made c) by (repeat count_step);
      apply P in G; clear P
  end.

Ltac count_done H :=
  apply Done_inj in H as (_ & _ & <-);
  unfold probes_made in *; cbn [probe_log say on_cds on_kernel on_zprobe issue];
  lia.

Lemma probe_tower_depths_count t env s r env' s' :
  probe_tower_depths t env s = Done r env' s' ->
  (probes_made s <= probes_made s' <= probes_made s + 3)%nat.
Proof.
  unfold probe_tower_depths. destruct t as [[[[[t1x t1y] t2x] t2y] t3x] t3y].
  intros H.
  count_peel H. destruct u as [ok1 s1]. destruct (negb ok1); [count_done H|].
  count_peel H.
  count_peel H. destruct u0 as [ok2 s2]. destruct (negb ok2); [count_done H|].
  count_peel H.
  count_peel H. destruct u1 as [ok3 s3]. destruct (negb ok3); [count_done H|].
  count_peel H. count_done H.
Qed.

Lemma probe_tower_steps_count t env s r env' s' :
  probe_tower_steps t env s = Done r env' s' ->
  (probes_made s <= probes_made s' <= probes_made s + 3)%nat.
Proof.
  unfold probe_tower_steps. destruct t as [[[[[t1x t1y] t2x] t2y] t3x] t3y].
  intros H.
  count_peel H. destruct u as [ok1 s1]. destruct (negb ok1); [count_done H|].
  count_peel H. destruct u as [ok2 s2]. destruct (negb ok2); [count_done H|].
  count_peel H. destruct u as [ok3 s3]. destruct (negb ok3); [count_done H|].
  count_done H.
Qed.

Ltac count_fact G :=
  lazymatch type of G with
  | do_probe_at _ _ _ _ = _ => apply do_probe_at_count in G
  | probe_tower_depths _ _ _ = _ => apply probe_tower_depths_count in G
  | probe_tower_steps _ _ _ = _ => apply probe_tower_steps_count in G
  | ?c _ _ = _ =>
      let P := fresh "P" in
      assert (P : preserves probes_made c) by (repeat count_step);
      apply P in G; clear P
  end.

Ltac count_peel_towers H :=
  let u := fresh "u" in
  let e := fresh "e" in
  let x := fresh "x" in
  let G := fresh "G" in
  apply bind_Done in H as (u & e & x & G & H); count_fact G.

Tactic Notation "count_peel" hyp(H) "as" ident(a) :=
  let e := fresh "e" in
  let x := fresh "x" in
  let G := fresh "G" in
  apply bind_Done in H as (a & e & x & G & H); count_fact G.

Lemma endstop_leveling_loop_count n gcode target t :
  forall trimx trimy trimz trimscale last_deviation mm env s b env' s',
    endstop_leveling_loop n gcode target t trimx trimy trimz trimscale
                          last_deviation mm env s = Done b env' s' ->
    (probes_made s <= probes_made s' <= probes_made s + 3 * n)%nat.
Proof.
  induction n as [|n IH]; intros trimx trimy trimz trimscale last_deviation mm
                                 env s b env' s' H;
    cbn [endstop_leveling_loop] in H.
  - destruct (fltb _ _).
    + count_peel_towers H. count_done H.
    + count_peel_towers H. count_done H.
  - do 3 count_peel_towers H.
    destruct (negb _); [count_done H|].
    count_peel_towers H. count_peel H as r.
    destruct r as [[[t1z t2z] t3z]|]; [|count_done H].
    cbv zeta in H.
    destruct (fltb _ _).
    + do 2 count_peel_towers H. apply IH in H.
      unfold probes_made in *. lia.
    + do 4 count_peel_towers H.
      destruct (negb _).
      * count_peel_towers H. count_done H.
      * count_peel_towers H. count_done H.
Qed.

Lemma calibrate_delta_endstops_count gcode env s b env' s' :
  calibrate_delta_endstops gcode env s = Done b env' s' ->
  (probes_made s <= probes_made s' <= probes_made s + 63)%nat.
Proof.
  unfold calibrate_delta_endstops. intros H. cbv zeta in H.
  do 3 count_peel_towers H.
  peel H as s3 e3 t3 G3. apply Done_inj in G3 as (<- & <- & <-).
  count_peel H as trim.
  destruct trim as [[[trimx trimy] trimz]|]; [|count_done H].
  count_peel_towers H. count_peel H as r.
  destruct r as [[[t1z t2z] t3z]|]; [|count_done H].
  destruct (fleb _ _).
  - count_peel_towers H. count_done H.
  - count_peel_towers H. apply endstop_leveling_loop_count in H.
    unfold probes_made in *. lia.
Qed.

Lemma delta_radius_loop_count n target cmm t :
  forall delta_radius options env s b env' s',
    delta_radius_loop n target cmm t delta_radius options env s
    = Done b env' s' ->
    (probes_made s <= probes_made s' <= probes_made s + 3 * n)%nat.
Proof.
  induction n as [|n IH]; intros delta_radius options env s b env' s' H;
    cbn [delta_radius_loop] in H.
  - count_done H.
  - count_peel H as r.
    destruct r as [[[dx dy] dz]|]; [|count_done H].
    do 2 count_peel_towers H. cbv zeta in H.
    destruct (fleb _ _); [count_done H|].
    do 4 count_peel_towers H. apply IH in H.
    unfold probes_made in *. lia.
Qed.

Lemma calibrate_delta_radius_count gcode env s b env' s' :
  calibrate_delta_radius gcode env s = Done b env' s' ->
  (probes_made s <= probes_made s' <= probes_made s + 31)%nat.
Proof.
  unfold calibrate_delta_radius. intros H.
  do 5 count_peel_towers H.
  peel H as s5 e5 t5 G5. apply Done_inj in G5 as (<- & <- & <-).
  count_peel_towers H. count_peel H as r.
  destruct r as [ok dc]. destruct (negb ok); [count_done H|].
  do 2 count_peel_towers H. count_peel H as o.
  destruct o as [found options]. cbv zeta in H.
  destruct (feqb _ _).
  - count_peel_towers H. count_done H.
  - apply delta_radius_loop_count in H. unfold probes_made in *. lia.
Qed.

(** X20.  The calibrations are bounded: an endstop leveling hands back at
    most 63 probes (three tower probes first and then at most twenty rounds
    of three), a delta-radius calibration at most 31 (the center and at
    most ten rounds of three), and so a whole G32 at most 94, however the
    bed is shaped and whether or not the calibration converges. *)
Theorem G32_probes_are_bounded (gcode : Gcode) env s r env' s' :
  is_G32 gcode = true ->
  handleGcode gcode env s = Done r env' s' ->
  (probes_made s <= probes_made s' <= probes_made s + 94)%nat
  /\ (has_letter gcode "R" = true ->
      (probes_made s' <= probes_made s + 31)%nat)
  /\ (has_letter gcode "E" = true ->
      (probes_made s' <= probes_made s + 63)%nat).
Proof.
  unfold is_G32, handleGcode. intros G H.
  apply andb_prop in G as [Hg H32]. rewrite Hg in H.
  apply Z.eqb_eq in H32. rewrite H32 in H.
  change (32 =? 29) with false in H. change (32 =? 31) with false in H.
  change (32 =? 32) with true in H. cbv iota in H.
  count_peel_towers H.
  peel H as ok1 e1 s1 H1.
  assert (C1 : (probes_made x <= probes_made s1 <= probes_made x + 63)%nat
               /\ (has_letter gcode "R" = true -> probes_made s1 = probes_made x)).
  { destruct (has_letter gcode "R"); cbn [negb] in H1.
    - apply Done_inj in H1 as (_ & _ & <-). split; [lia|reflexivity].
    - apply calibrate_delta_endstops_count in H1. split; [lia|discriminate]. }
  destruct C1 as (C1 & R1).
  destruct (negb ok1).
  - count_peel_towers H. apply Done_inj in H as (_ & _ & <-).
    split; [lia|]. split; intros L; [rewrite (R1 L) in *|]; lia.
  - peel H as ok2 e2 s2 H2.
    assert (C2 : (probes_made s1 <= probes_made s2 <= probes_made s1 + 31)%nat
                 /\ (has_letter gcode "E" = true ->
                     probes_made s2 = probes_made s1)).
    { destruct (has_letter gcode "E"); cbn [negb] in H2.
      - apply Done_inj in H2 as (_ & _ & <-). split; [lia|reflexivity].
      - apply calibrate_delta_radius_count in H2. split; [lia|discriminate]. }
    destruct C2 as (C2 & E2).
    assert (F : probes_made s' = probes_made s2).
    { destruct (negb ok2); count_peel_towers H;
        apply Done_inj in H as (_ & _ & <-); congruence. }
    split; [lia|]. split; intros L.
    + rewrite (R1 L) in *. lia.
    + rewrite (E2 L) in *. lia.
Qed.

Lemma G32_on_level_bed_makes_seven_probes :
  exists s',
    handleGcode G32 level_bed bench_prepared = Done true [] s'
    /\ (probes_made s' <= probes_made bench_prepared + 94)%nat
    /\ probes_made bench_prepared = 0%nat
    /\ probes_made s' = 7%nat.
Proof.
  destruct (handleGcode G32 level_bed bench_prepared)
    as [b env' s'| |] eqn:E; try (vm_compute in E; discriminate).
  pose proof (G32_probes_are_bounded G32 _ _ _ _ _ eq_refl E) as (B & _ & _).
  exists s'. split; [|split; [lia|]].
  - vm_compute in E. now apply Done_inj in E as (<- & <- & _).
  - vm_compute in E. apply Done_inj in E as (_ & _ & <-).
    split; reflexivity.
Defined.

(** ** Speed ramps and the simple probe *)

(** X21.  [accelerate] changes nothing but the commanded rate of its
    actuator, and the rate it commands never exceeds the target rate
    [floor(current_feedrate)]: a rate at or above the target is brought down
    to it, and a rate below the target goes up by one acceleration step, or
    to the target if that is nearer (as long as the sum fits 32 bits). *)
Theorem accelerate_bounded_by_target (c : Axis) (s : Machine) :
  exists r,
    accelerate c s = stepper_set_speed c r s
    /\ 0 <= r <= target_rate s
    /\ (target_rate s <= current_rate c s -> r = target_rate s)
    /\ (current_rate c s < target_rate s ->
        current_rate c s + rate_increase c s <= uint32_max ->
        current_rate c s <= r
        /\ r = Z.min (target_rate s) (current_rate c s + rate_increase c s)).
Proof.
  assert (E : accelerate c s
              = stepper_set_speed c
                  (let cur :=
                     if current_rate c s <? target_rate s
                     then Z.min (target_rate s)
                                (wrap32 (current_rate c s + rate_increase c s))
                     else current_rate c s in
                   if target_rate s <? cur then target_rate s else cur) s)
    by reflexivity.
  rewrite E. clear E. cbv zeta.
  pose proof (f2uiz_range (floorf (current_feedrate (zprobe s)))) as T.
  fold (target_rate s) in T.
  assert (C : 0 <= current_rate c s < 2 ^ 32)
    by (unfold current_rate, wrap32; apply Z.mod_pos_bound; lia).
  assert (R : 0 <= rate_increase c s)
    by (unfold rate_increase; apply f2uiz_range).
  destruct (current_rate c s <? target_rate s) eqn:L; cbv iota.
  - apply Z.ltb_lt in L.
    assert (I : 0 <= wrap32 (current_rate c s + rate_increase c s) < 2 ^ 32)
      by (unfold wrap32; apply Z.mod_pos_bound; lia).
    destruct (target_rate s
              <? Z.min (target_rate s)
                       (wrap32 (current_rate c s + rate_increase c s))) eqn:M;
      cbv iota; [apply Z.ltb_lt in M; lia|].
    eexists. split; [reflexivity|]. split; [lia|]. split; [lia|].
    intros _ F. rewrite wrap32_small by (unfold uint32_max in *; lia). lia.
  - apply Z.ltb_ge in L.
    destruct (target_rate s <? current_rate c s) eqn:M; cbv iota.
    + eexists. split; [reflexivity|]. repeat split; lia.
    + apply Z.ltb_ge in M.
      eexists. split; [reflexivity|]. repeat split; lia.
Qed.

Lemma is_rdelta_run_slot slot s :
  is_rdelta (zprobe (run_slot slot s)) = is_rdelta (zprobe s).
Proof.
  pose proof (cycle_settings_run_slot slot s) as K.
  unfold cycle_settings in K. now inversion K.
Qed.

(** [return_probe] prints nothing, keeps the commands issued before it, and
    ends on the zero-distance move of the Z actuator. *)
Lemma return_probe_tail steps reverse env s b env' s' :
  return_probe steps reverse env s = Done b env' s' ->
  output s' = output s
  /\ is_rdelta (zprobe s') = is_rdelta (zprobe s)
  /\ last (issued s') HomeCommand = StepperMove Z_AXIS false 0
  /\ (forall a, In a (issued s) -> In a (issued s')).
Proof.
  unfold return_probe. intros H.
  peel H as u1 e1 s1 H1. apply Done_inj in H1 as (_ & <- & <-).
  peel H as s2 e2 t2 H2. apply Done_inj in H2 as (<- & <- & <-).
  peel H as u3 e3 s3 H3.
  pose proof (frame_coordinated_move output) as O.
  specialize (O ltac:(reflexivity) ltac:(reflexivity) ltac:(reflexivity)
                ltac:(reflexivity) ltac:(reflexivity)).
  pose proof (O _ _ _ _ _ _ _ _ _ _ H3) as O3. clear O.
  apply coordinated_move_issued in H3 as (slot & mid & _ & E3 & I3 & _).
  assert (R3 : is_rdelta (zprobe s3) = is_rdelta (zprobe s))
    by (rewrite E3, is_rdelta_run_slot; reflexivity).
  peel H as u4 e4 s4 H4. apply Done_inj in H4 as (_ & <- & <-).
  peel H as u5 e5 s5 H5. apply Done_inj in H5 as (_ & <- & <-).
  peel H as u6 e6 s6 H6. apply Done_inj in H6 as (_ & <- & <-).
  peel H as u7 e7 s7 H7. apply Done_inj in H7 as (_ & <- & <-).
  apply Done_inj in H as (_ & _ & <-).
  split; [exact O3|]. split; [exact R3|]. split.
  - unfold stepper_move at 1. cbn [issued issue]. apply last_last.
  - intros a Ha. unfold stepper_move. cbn [issued issue on_actuators on_zprobe].
    rewrite !in_app_iff. left. left. left.
    rewrite I3. cbn [issued on_zprobe]. rewrite in_app_iff. now left.
Qed.

(** X23.  G30 ends in one of three ways, and its report tells which.  After
    "ZProbe not triggered" the last thing it did was to record the probe
    position as a failed probe.  After the result line "Z:... C:..." it has
    recorded the position as a successful probe and then either, given a Z
    word on a machine that is no rotary delta, set the Z position and left
    the probe where it triggered, or returned the probe, ending on the
    zero-distance move of the Z actuator. *)
Theorem G30_endings (gcode : Gcode) env s env' s' :
  simple_probe gcode env s = Done tt env' s' ->
  (last (output s') (NullStream, ""%string) = G30_not_triggered gcode
   /\ exists x y z,
       last (issued s') HomeCommand = SetLastProbePosition x y z false)
  \/ (last (output s') (NullStream, ""%string) = G30_result gcode
      /\ last (issued s') HomeCommand = G30_last_action gcode s'
      /\ exists x y z, In (SetLastProbePosition x y z true) (issued s')).
Proof.
  unfold simple_probe. intros H.
  peel H as u1 e1 s1 H1. clear H1.
  peel H as s2 e2 t2 H2. apply Done_inj in H2 as (<- & <- & <-).
  cbv zeta in H.
  peel H as r e3 s3 H3. clear H3.
  peel H as s4 e4 t4 H4. apply Done_inj in H4 as (<- & <- & <-).
  destruct (fst r).
  - destruct (snd r) as [steps|]; [|discriminate].
    right.
    peel H as u5 e5 s5 H5. apply Done_inj in H5 as (_ & <- & <-).
    peel H as u6 e6 s6 H6. apply Done_inj in H6 as (_ & <- & <-).
    destruct (has_letter gcode "Z" && negb (is_rdelta (zprobe s3))) eqn:Z.
    + apply Done_inj in H as (_ & _ & <-).
      split; [cbn [output issue say]; apply last_last|].
      split.
      * unfold G30_last_action.
        cbn [zprobe issue say]. rewrite Z.
        cbn [issued issue]. apply last_last.
      * do 3 eexists. cbn [issued issue say].
        rewrite !in_app_iff. left. right. left. reflexivity.
    + peel H as b7 e7 s7 H7. apply Done_inj in H as (_ & _ & <-).
      assert (T : output s7
                  = output s3 ++ [G30_result gcode]
                  /\ is_rdelta (zprobe s7) = is_rdelta (zprobe s3)
                  /\ last (issued s7) HomeCommand = StepperMove Z_AXIS false 0
                  /\ exists x y z, In (SetLastProbePosition x y z true) (issued s7)).
      { destruct (decelerate_on_trigger (zprobe s3));
          apply return_probe_tail in H7 as (O & R & L & I);
          (split; [exact O|]); (split; [exact R|]); (split; [exact L|]);
          do 3 eexists; apply I; cbn [issued issue say];
          rewrite in_app_iff; right; left; reflexivity. }
      destruct T as (O & R & L & I).
      split; [rewrite O; apply last_last|]. split; [|exact I].
      unfold G30_last_action. rewrite R, Z. exact L.
  - left. unfold bind, stream_printf, modify in H.
    apply Done_inj in H as (_ & _ & <-).
    split; [cbn [output issue say]; apply last_last|].
    do 3 eexists. cbn [issued issue say]. apply last_last.
Qed.

Lemma G30_Z0_on_bench :
  exists s',
    simple_probe G30_Z0 [[]; descend 500] bench = Done tt [] s'
    /\ last (output s') (NullStream, ""%string) = G30_result G30_Z0
    /\ last (issued s') HomeCommand = ResetAxisPosition 0 Z_AXIS.
Proof.
  destruct (simple_probe G30_Z0 [[]; descend 500] bench)
    as [[] env' s'| |] eqn:E; try (vm_compute in E; discriminate).
  pose proof (G30_endings G30_Z0 _ _ _ _ E) as K.
  vm_compute in E. apply Done_inj in E as (_ & <- & <-).
  eexists. split; [reflexivity|].
  destruct K as [(O & _) | (O & L & _)].
  - vm_compute in O. discriminate.
  - split; [exact O|]. rewrite L. reflexivity.
Defined.

(** ** The depth map and the dirty flag *)

(** Entered with the dirty flag set, G31 prints its first line and goes
    through [heuristic_calibration] and [depth_map_print_surface] to
    [require_clean_geometry], where it ends at the null G-code. *)
Lemma G31_dirty_stops gcode env s :
  is_G31 gcode = true ->
  dirty s = true ->
  handleGcode gcode env s = Crash (NullDeref "gcode->stream") (G31_stopped s).
Proof.
  intros G D. unfold is_G31 in G. apply andb_prop in G as [G1 G2].
  apply Z.eqb_eq in G2.
  unfold handleGcode. rewrite G1, G2.
  change (31 =? 29) with false. change (31 =? 31) with true. cbv iota.
  unfold bind at 1. unfold _printf at 1, modify at 1. cbv beta iota.
  unfold bind at 1. unfold heuristic_calibration.
  unfold bind at 1. unfold depth_map_print_surface.
  unfold bind at 1. rewrite require_clean_geometry_dirty by exact D.
  reflexivity.
Qed.

Lemma handle_all_dirty gcodes : forall env s env' s',
  handle_all gcodes env s = Done tt env' s' ->
  dirty s = true ->
  dirty s' = true /\ Forall (fun c => is_G31 c = false) gcodes.
Proof.
  induction gcodes as [|gcode rest IH]; intros env s env' s' H D;
    cbn [handle_all] in H.
  - apply Done_inj in H as (_ & _ & <-). split; [exact D|constructor].
  - peel H as r e1 s1 H1.
    destruct (is_G31 gcode) eqn:G.
    + rewrite (G31_dirty_stops gcode env s G D) in H1. discriminate.
    + pose proof (dirty_handleGcode_set _ _ _ _ _ _ H1 D) as D1.
      destruct (IH _ _ _ _ H D1) as (D' & F).
      split; [exact D'|]. constructor; [exact G|exact F].
Qed.

(** X22.  After configuration no G31 gets to measure.  [handleConfig] sets
    the dirty flag, and no command that the strategy hands back clears it:
    a G command leaves it as it is, M665 can only set it, and the one
    statement that clears it stands in [require_clean_geometry] behind the
    two calibrations called with the null G-code.  So whatever commands
    were handled since the configuration, and all of them returned, none of
    them was a G31, the flag is still set, and a G31 now prints its first
    line and the line of [require_clean_geometry] and ends at the null
    G-code in [calibrate_delta_endstops]: no action is issued, no probe is
    made, and the depth maps are as they were. *)
Theorem G31_never_gets_to_measure
        (cfg : Config) (gcodes : list Gcode) (gcode : Gcode) env s env' s' :
  (handleConfig cfg ;; handle_all gcodes)%monad env s = Done tt env' s' ->
  is_G31 gcode = true ->
  dirty s' = true
  /\ Forall (fun c => is_G31 c = false) gcodes
  /\ (forall env2,
        handleGcode gcode env2 s'
        = Crash (NullDeref "gcode->stream") (G31_stopped s'))
  /\ issued (G31_stopped s') = issued s'
  /\ probe_log (G31_stopped s') = probe_log s'
  /\ cds (G31_stopped s') = cds s'.
Proof.
  intros H G. peel H as b e0 s0 H0.
  assert (D0 : dirty s0 = true).
  { unfold handleConfig in H0. peel H0 as u e1 s1 H1.
    apply Done_inj in H1 as (_ & _ & <-).
    apply Done_inj in H0 as (_ & _ & <-). reflexivity. }
  destruct (handle_all_dirty gcodes _ _ _ _ H D0) as (D & F).
  split; [exact D|]. split; [exact F|].
  split; [intros env2; now apply G31_dirty_stops|].
  repeat split.
Qed.

Lemma G31_after_first_G32 :
  exists s',
    (handleConfig empty_config ;; handle_all [G32])%monad first_calibration bench
    = Done tt [] s'
    /\ last (output s') (NullStream, ""%string) = calibration_complete
    /\ probe_log s' = [500; 500; 500; 500; 500; 500; 500]
    /\ dirty s' = true
    /\ handleGcode G31 [] s'
       = Crash (NullDeref "gcode->stream") (G31_stopped s')
    /\ probe_log (G31_stopped s') = probe_log s'.
Proof.
  destruct ((handleConfig empty_config ;; handle_all [G32])%monad
              first_calibration bench) as [u env' s'| |] eqn:E;
    try (vm_compute in E; discriminate).
  destruct u.
  destruct (G31_never_gets_to_measure empty_config [G32] G31 _ _ _ _ E eq_refl)
    as (D & _ & C & _ & P & _).
  assert (env' = []) as -> by (vm_compute in E; now inversion E).
  exists s'. split; [reflexivity|].
  split; [vm_compute in E; apply Done_inj in E as (_ & _ & <-); reflexivity|].
  split; [vm_compute in E; apply Done_inj in E as (_ & _ & <-); reflexivity|].
  split; [exact D|]. split; [apply C|exact P].
Defined.
